(** * GRT example drivers: ANBCExample.cpp and MultidimensionalRegressionExample.cpp

    The two programs are sequential scripts over the GRT toolkit.  The
    toolkit itself (datasets, classifier, pipeline) is not part of the
    drivers: it is modelled as an interface ([Class]es of operations over an
    abstract toolkit state [Lib]), and every theorem about a driver holds for
    every implementation of that interface.  What a driver does is recorded
    as a trace of events: toolkit calls with the boolean the driver receives,
    insertions into [cout], and insertions into the results [fstream]. *)

From Stdlib Require Import ZArith NArith List String Ascii Bool Lia.
From Stdlib Require Import SpecFloat DecimalString.
Import ListNotations.
Local Open Scope string_scope.
Local Open Scope list_scope.

(** * The model *)

(** ** C++ scalars *)

Module Cpp.

(** [unsigned int] *)
Definition UINT := N.
Definition UINT_MAX : N := 4294967295.

(** [double]: IEEE-754 binary64, with the operations of the standard
    library's executable specification. *)
Definition double := spec_float.
Definition prec : Z := 53.
Definition emax : Z := 1024.

Definition dadd : double -> double -> double := SFadd prec emax.
Definition dmul : double -> double -> double := SFmul prec emax.
Definition ddiv : double -> double -> double := SFdiv prec emax.
Definition dleb : double -> double -> bool := SFleb.

(** Integer literals and [double(n)] conversions: exact or rounded to
    nearest even. *)
Definition double_of_Z (z : Z) : double := binary_normalize prec emax z 0 false.
Definition double_of_UINT (n : UINT) : double := double_of_Z (Z.of_N n).

Definition dzero : double := S754_zero false.
Definition one : double := double_of_Z 1.

Definition is_nan (d : double) : bool :=
  match d with S754_nan => true | _ => false end.

Definition EXIT_SUCCESS : Z := 0.
Definition EXIT_FAILURE : Z := 1.

(** The characters written by ["\n"], [endl] and ["\t"]. *)
Definition newline : ascii := ascii_of_nat 10.
Definition tab : ascii := ascii_of_nat 9.
Definition nl : string := String newline EmptyString.
Definition endl : string := nl.
Definition tb : string := String tab EmptyString.

(** [ostream << UINT]: decimal digits. *)
Definition put_UINT (n : UINT) : string := NilZero.string_of_uint (N.to_uint n).

(** [ostream << double]: the text the stream's numeric formatting
    produces; left to the platform. *)
Class Iostream := { put_double : double -> string }.

End Cpp.
Import Cpp.

(** ** Events and the driver monad *)

(** The toolkit operations the drivers invoke. *)
Inductive libcall : Type :=
| LoadDatasetFromFile (filename : string)
| Partition (trainingSizePercent : UINT)
| Train
| Test
| Predict (inputVector : list double)
| SaveModelToFile (filename : string)
| LoadModelFromFile (filename : string)
| SavePipelineToFile (filename : string)
| LoadPipelineFromFile (filename : string)
| SetNullRejectionCoeff (coeff : double)
| EnableScaling (b : bool)
| EnableNullRejection (b : bool)
| EnableLogging (b : bool)
| PrintStats
| SetRegressifier.

Inductive event : Type :=
| Call (c : libcall) (r : option bool)
    (** a toolkit call; [Some b] when the driver receives the boolean [b],
        [None] when the call's value is not a success flag or is dropped *)
| Cout (s : string)          (** one statement inserting into [cout] *)
| FileOpen (name : string)   (** [file.open(name, fstream::out)] *)
| FileOut (s : string)       (** one statement inserting into [file] *)
| FileClose.                 (** [file.close()] *)

Inductive result (A : Type) : Type :=
| Ret (a : A)       (** the statement completed with value [a] *)
| Exit (code : Z).  (** [return code;] was executed in [main] *)
Arguments Ret {A} a.
Arguments Exit {A} code.

Section Monad.
  Context {Lib : Type}.

(** A computation runs from a toolkit state to a result, the new toolkit
    state, and the events it produced, oldest first. *)
Definition M (A : Type) : Type := Lib -> result A * Lib * list event.

Definition ret {A} (a : A) : M A := fun l => (Ret a, l, []).

Definition bind {A B} (m : M A) (f : A -> M B) : M B :=
  fun l =>
    match m l with
    | (Ret a, l1, t1) =>
        let '(r, l2, t2) := f a l1 in (r, l2, t1 ++ t2)
    | (Exit c, l1, t1) => (Exit c, l1, t1)
    end.

(** [return code;] *)
Definition Return {A} (code : Z) : M A := fun l => (Exit code, l, []).

Definition emit (e : event) : M unit := fun l => (Ret tt, l, [e]).

(** [cout << ... ;] *)
Definition cout (s : string) : M unit := emit (Cout s).

(** A read-only accessor of the toolkit object. *)
Definition get {A} (f : Lib -> A) : M A := fun l => (Ret (f l), l, []).

(** A call whose value is the success flag. *)
Definition call_bool (c : libcall) (op : Lib -> bool * Lib) : M bool :=
  fun l => let '(b, l1) := op l in (Ret b, l1, [Call c (Some b)]).

(** A call that returns the success flag and fills an object. *)
Definition call_fill {A} (c : libcall) (op : Lib -> bool * A * Lib) : M (bool * A) :=
  fun l => let '(b, a, l1) := op l in (Ret (b, a), l1, [Call c (Some b)]).

(** A call whose value is not a success flag. *)
Definition call_val {A} (c : libcall) (op : Lib -> A * Lib) : M A :=
  fun l => let '(a, l1) := op l in (Ret a, l1, [Call c None]).

(** A call used as a statement. *)
Definition call_void (c : libcall) (op : Lib -> Lib) : M unit :=
  fun l => (Ret tt, op l, [Call c None]).

(** [for(UINT i = lo; i < hi; i++) body], with the loop-carried
    variables in [a]; [count] is [hi - i]. *)
Fixpoint for_range {A} (count : nat) (i : UINT) (body : UINT -> A -> M A) (a : A) : M A :=
  match count with
  | O => ret a
  | S k => bind (body i a) (fun a1 => for_range k (N.succ i) body a1)
  end.

Definition for_UINT {A} (lo hi : UINT) (body : UINT -> A -> M A) (a : A) : M A :=
  for_range (N.to_nat (hi - lo)) lo body a.

End Monad.

Declare Scope prog_scope.
Delimit Scope prog_scope with prog.
Notation "x <- m ;; k" := (bind m (fun x => k))
  (at level 100, m at next level, right associativity) : prog_scope.
Notation "' p <- m ;; k" := (bind m (fun p => k))
  (at level 100, p pattern, m at next level, right associativity) : prog_scope.
Notation "m ;; k" := (bind m (fun _ => k))
  (at level 100, right associativity) : prog_scope.

(** What is observed of one run of [main]. *)
Record run_t {Lib : Type} : Type := {
exit_status : Z;
final : Lib;
trace : list event
}.
Arguments run_t Lib : clear implicits.

Definition run {Lib} (main : M Z) (l : Lib) : run_t Lib :=
let '(r, l1, t) := main l in
{| exit_status := match r with Ret c => c | Exit c => c end;
   final := l1;
   trace := t |}.

(** The text a sequence of insertions leaves on a stream. *)
Definition text_of (parts : list string) : string :=
fold_right String.append EmptyString parts.

(** Projections of a trace. *)
Definition cout_text (t : list event) : string :=
text_of (flat_map (fun e => match e with Cout s => [s] | _ => [] end) t).

Definition file_text (t : list event) : string :=
text_of (flat_map (fun e => match e with FileOut s => [s] | _ => [] end) t).

Definition lib_calls (t : list event) : list libcall :=
flat_map (fun e => match e with Call c _ => [c] | _ => [] end) t.

(** [if( b ){ body }] *)
Definition when {Lib} (b : bool) (body : M unit) : @M Lib unit :=
if b then body else ret tt.

(** ** The toolkit, as the drivers use it

  Each C++ class the drivers touch is an interface over the toolkit state
  [Lib], which holds the driver's one classifier or pipeline object
  together with everything the toolkit reads and writes outside the
  program (dataset and model files, its own logging, its random numbers).
  Datasets are plain values. *)

Module ClassificationData.

Record ClassificationSample : Type := {
  getClassLabel : UINT;
  getSample : list double
}.

Record t : Type := {
  getNumDimensions : UINT;
  samples : list ClassificationSample
}.

Definition getNumSamples (d : t) : UINT := N.of_nat (List.length (samples d)).

(** [d[i]]; the drivers index below [getNumSamples] only. *)
Definition at_ (d : t) (i : UINT) : ClassificationSample :=
  nth (N.to_nat i) (samples d) {| getClassLabel := 0%N; getSample := [] |}.

Class Ops (Lib : Type) : Type := {
  (** returns the success flag and the loaded dataset *)
  loadDatasetFromFile : string -> Lib -> bool * t * Lib;
  (** [test = d.partition(pct)]: what [d] keeps, and what is returned *)
  partition : UINT -> t -> Lib -> t * t * Lib
}.

End ClassificationData.

Module ANBC.

Class Ops (Lib : Type) : Type := {
  setNullRejectionCoeff : double -> Lib -> Lib;
  enableScaling : bool -> Lib -> Lib;
  enableNullRejection : bool -> Lib -> Lib;
  train : ClassificationData.t -> Lib -> bool * Lib;
  saveModelToFile : string -> Lib -> bool * Lib;
  loadModelFromFile : string -> Lib -> bool * Lib;
  predict : list double -> Lib -> bool * Lib;
  getPredictedClassLabel : Lib -> UINT;
  getClassLikelihoods : Lib -> list double;
  getClassDistances : Lib -> list double
}.

End ANBC.

(** ** ANBCExample.cpp *)

Module ANBCExample.
Section Driver.
  Context {Lib : Type} {IO : Iostream}
          {CD : ClassificationData.Ops Lib} {AN : ANBC.Ops Lib}.
  Local Open Scope prog_scope.

(** [accuracy/double(testData.getNumSamples())] *)
Definition accuracy_ratio (accuracy : double) (numSamples : UINT) : double :=
  ddiv accuracy (double_of_UINT numSamples).

(** [accuracy/double(testData.getNumSamples())*100.0] *)
Definition accuracy_percent (accuracy : double) (numSamples : UINT) : double :=
  dmul (accuracy_ratio accuracy numSamples) (double_of_Z 100).

(** The body of the test loop; [accuracy] is carried from one iteration
    to the next. *)
Definition test_sample (testData : ClassificationData.t)
           (i : UINT) (accuracy : double) : M double :=
  let classLabel := ClassificationData.getClassLabel (ClassificationData.at_ testData i) in
  let inputVector := ClassificationData.getSample (ClassificationData.at_ testData i) in
  predictSuccess <- call_bool (Predict inputVector) (ANBC.predict inputVector) ;;
  when (negb predictSuccess)
       (cout ("Failed to perform prediction for test sampel: " ++ put_UINT i ++ nl) ;;
        Return EXIT_FAILURE) ;;
  predictedClassLabel <- get ANBC.getPredictedClassLabel ;;
  classLikelihoods <- get ANBC.getClassLikelihoods ;;
  classDistances <- get ANBC.getClassDistances ;;
  let accuracy := if N.eqb classLabel predictedClassLabel
                  then dadd accuracy one else accuracy in
  cout ("TestSample: " ++ put_UINT i ++ " ClassLabel: " ++ put_UINT classLabel
          ++ " PredictedClassLabel: " ++ put_UINT predictedClassLabel ++ endl) ;;
  ret accuracy.

(** [main], up to the test loop: configure, load, partition, train, save
    and reload.  Its value is the local [testData]. *)
Definition prepare : M ClassificationData.t :=
  call_void (SetNullRejectionCoeff (double_of_Z 10))
            (ANBC.setNullRejectionCoeff (double_of_Z 10)) ;;
  call_void (EnableScaling true) (ANBC.enableScaling true) ;;
  call_void (EnableNullRejection true) (ANBC.enableNullRejection true) ;;
  ' (loaded, trainingData) <-
      call_fill (LoadDatasetFromFile "ANBCTrainingData.txt")
                (ClassificationData.loadDatasetFromFile "ANBCTrainingData.txt") ;;
  when (negb loaded)
       (cout ("Failed to load training data!" ++ nl) ;; Return EXIT_FAILURE) ;;
  ' (trainingData, testData) <-
      call_val (Partition 80%N) (ClassificationData.partition 80%N trainingData) ;;
  trainSuccess <- call_bool Train (ANBC.train trainingData) ;;
  when (negb trainSuccess)
       (cout ("Failed to train classifier!" ++ nl) ;; Return EXIT_FAILURE) ;;
  saveSuccess <- call_bool (SaveModelToFile "ANBCModel.txt")
                           (ANBC.saveModelToFile "ANBCModel.txt") ;;
  when (negb saveSuccess)
       (cout ("Failed to save the classifier model!" ++ nl) ;; Return EXIT_FAILURE) ;;
  loadSuccess <- call_bool (LoadModelFromFile "ANBCModel.txt")
                           (ANBC.loadModelFromFile "ANBCModel.txt") ;;
  when (negb loadSuccess)
       (cout ("Failed to load the classifier model!" ++ nl) ;; Return EXIT_FAILURE) ;;
  ret testData.

(** [double accuracy = 0; for(UINT i=0; i<testData.getNumSamples(); i++){...}];
    its value is [accuracy] after the loop. *)
Definition test_loop (testData : ClassificationData.t) : M double :=
  for_UINT 0%N (ClassificationData.getNumSamples testData)
           (test_sample testData) dzero.

(** The rest of [main]: the test loop and the accuracy report. *)
Definition evaluate (testData : ClassificationData.t) : M Z :=
  accuracy <- test_loop testData ;;
  cout ("Test Accuracy: "
          ++ put_double (accuracy_percent accuracy (ClassificationData.getNumSamples testData))
          ++ "%" ++ endl) ;;
  ret EXIT_SUCCESS.

Definition main (argc : Z) (argv : list string) : M Z :=
  testData <- prepare ;;
  evaluate testData.

End Driver.
End ANBCExample.

Module RegressionData.

Record RegressionSample : Type := {
  getInputVector : list double;
  getTargetVector : list double
}.

Record t : Type := {
  getNumInputDimensions : UINT;
  getNumTargetDimensions : UINT;
  samples : list RegressionSample
}.

Definition getNumSamples (d : t) : UINT := N.of_nat (List.length (samples d)).

(** [d[i]]; the drivers index below [getNumSamples] only. *)
Definition at_ (d : t) (i : UINT) : RegressionSample :=
  nth (N.to_nat i) (samples d) {| getInputVector := []; getTargetVector := [] |}.

Class Ops (Lib : Type) : Type := {
  loadDatasetFromFile : string -> Lib -> bool * t * Lib;
  printStats : t -> Lib -> Lib
}.

End RegressionData.

Module TrainingLog.

Class Ops (Lib : Type) : Type := {
  enableLogging : bool -> Lib -> Lib
}.

End TrainingLog.

Module GestureRecognitionPipeline.

Class Ops (Lib : Type) : Type := {
  (** [setRegressifier( MultidimensionalRegression( LinearRegression(), true ) )] *)
  setRegressifier : Lib -> Lib;
  train : RegressionData.t -> Lib -> bool * Lib;
  savePipelineToFile : string -> Lib -> bool * Lib;
  loadPipelineFromFile : string -> Lib -> bool * Lib;
  test : RegressionData.t -> Lib -> bool * Lib;
  getTestRMSError : Lib -> double;
  predict : list double -> Lib -> bool * Lib;
  getRegressionData : Lib -> list double
}.

End GestureRecognitionPipeline.

(** ** MultidimensionalRegressionExample.cpp *)

Module MultidimensionalRegressionExample.
Section Driver.
  Context {Lib : Type} {IO : Iostream}
          {RD : RegressionData.Ops Lib} {TL : TrainingLog.Ops Lib}
          {GP : GestureRecognitionPipeline.Ops Lib}.
  Local Open Scope prog_scope.

(** The condition of the first dimensionality guard. *)
Definition input_dimensions_differ (trainingData testData : RegressionData.t) : bool :=
  negb (N.eqb (RegressionData.getNumInputDimensions trainingData)
              (RegressionData.getNumInputDimensions testData)).

(** The condition of the second dimensionality guard, as written: both
    operands are read from [testData]. *)
Definition target_dimensions_differ (trainingData testData : RegressionData.t) : bool :=
  negb (N.eqb (RegressionData.getNumTargetDimensions testData)
              (RegressionData.getNumTargetDimensions testData)).

(** [for(UINT j=0; j<v.size(); j++){ file << v[j] << "\t"; }] *)
Definition write_vector (v : list double) : @M Lib unit :=
  for_UINT 0%N (N.of_nat (List.length v))
           (fun j _ => emit (FileOut (put_double (nth (N.to_nat j) v dzero) ++ tb)))
           tt.

(** The body of the loop over the test samples. *)
Definition map_sample (testData : RegressionData.t) (i : UINT) (_ : unit) : M unit :=
  let inputVector := RegressionData.getInputVector (RegressionData.at_ testData i) in
  let targetVector := RegressionData.getTargetVector (RegressionData.at_ testData i) in
  mapped <- call_bool (Predict inputVector) (GestureRecognitionPipeline.predict inputVector) ;;
  when (negb mapped)
       (cout ("ERROR: Failed to map test sample " ++ put_UINT i ++ endl) ;;
        Return EXIT_FAILURE) ;;
  outputVector <- get GestureRecognitionPipeline.getRegressionData ;;
  write_vector outputVector ;;
  write_vector targetVector ;;
  emit (FileOut endl).

(** [for(UINT i=0; i<testData.getNumSamples(); i++){...}] *)
Definition map_loop (testData : RegressionData.t) : M unit :=
  for_UINT 0%N (RegressionData.getNumSamples testData) (map_sample testData) tt.

(** [main], up to the results file: load both datasets, compare their
    dimensions, train, save, reload and test.  Its value is the local
    [testData]. *)
Definition load_and_train : M RegressionData.t :=
  call_void (EnableLogging true) (TrainingLog.enableLogging true) ;;
  ' (loaded, trainingData) <-
      call_fill (LoadDatasetFromFile "MultidimensionalRegressionTrainingData.txt")
                (RegressionData.loadDatasetFromFile "MultidimensionalRegressionTrainingData.txt") ;;
  when (negb loaded)
       (cout ("ERROR: Failed to load training data!" ++ nl) ;; Return EXIT_FAILURE) ;;
  ' (loaded, testData) <-
      call_fill (LoadDatasetFromFile "MultidimensionalRegressionTestData.txt")
                (RegressionData.loadDatasetFromFile "MultidimensionalRegressionTestData.txt") ;;
  when (negb loaded)
       (cout ("ERROR: Failed to load test data!" ++ nl) ;; Return EXIT_FAILURE) ;;
  when (input_dimensions_differ trainingData testData)
       (cout ("ERROR: The number of input dimensions in the training data ("
                ++ put_UINT (RegressionData.getNumInputDimensions trainingData) ++ ")") ;;
        cout (" does not match the number of input dimensions in the test data ("
                ++ put_UINT (RegressionData.getNumInputDimensions testData) ++ ")" ++ nl) ;;
        Return EXIT_FAILURE) ;;
  when (target_dimensions_differ trainingData testData)
       (cout ("ERROR: The number of target dimensions in the training data ("
                ++ put_UINT (RegressionData.getNumTargetDimensions testData) ++ ")") ;;
        cout (" does not match the number of target dimensions in the test data ("
                ++ put_UINT (RegressionData.getNumTargetDimensions testData) ++ ")" ++ nl) ;;
        Return EXIT_FAILURE) ;;
  cout ("Training and Test datasets loaded" ++ nl) ;;
  cout ("Training data stats:" ++ nl) ;;
  call_void PrintStats (RegressionData.printStats trainingData) ;;
  cout ("Test data stats:" ++ nl) ;;
  call_void PrintStats (RegressionData.printStats testData) ;;
  call_void SetRegressifier GestureRecognitionPipeline.setRegressifier ;;
  cout ("Training MultidimensionalRegression model..." ++ nl) ;;
  trained <- call_bool Train (GestureRecognitionPipeline.train trainingData) ;;
  when (negb trained)
       (cout ("ERROR: Failed to train MultidimensionalRegression model!" ++ nl) ;;
        Return EXIT_FAILURE) ;;
  cout ("Model trained." ++ nl) ;;
  saved <- call_bool (SavePipelineToFile "Pipeline")
                     (GestureRecognitionPipeline.savePipelineToFile "Pipeline") ;;
  when (negb saved)
       (cout ("ERROR: Failed to save pipeline!" ++ nl) ;; Return EXIT_FAILURE) ;;
  reloaded <- call_bool (LoadPipelineFromFile "Pipeline")
                        (GestureRecognitionPipeline.loadPipelineFromFile "Pipeline") ;;
  when (negb reloaded)
       (cout ("ERROR: Failed to load pipeline!" ++ nl) ;; Return EXIT_FAILURE) ;;
  cout ("Testing MultidimensionalRegression model..." ++ nl) ;;
  tested <- call_bool Test (GestureRecognitionPipeline.test testData) ;;
  when (negb tested)
       (cout ("ERROR: Failed to test MultidimensionalRegression model!" ++ nl) ;;
        Return EXIT_FAILURE) ;;
  rms <- get GestureRecognitionPipeline.getTestRMSError ;;
  cout ("Test complete. Test RMS error: " ++ put_double rms ++ endl) ;;
  ret testData.

(** The rest of [main]: run back over the test data and write the results
    file. *)
Definition write_results (testData : RegressionData.t) : M Z :=
  emit (FileOpen "MultidimensionalRegressionResultsData.txt") ;;
  map_loop testData ;;
  emit FileClose ;;
  ret EXIT_SUCCESS.

Definition main (argc : Z) (argv : list string) : M Z :=
  testData <- load_and_train ;;
  write_results testData.

End Driver.
End MultidimensionalRegressionExample.

(** ** The part of the toolkit the specification describes *)

Module SpecModel.

(** Modelled from the spec: [ClassificationData::partition], whose code is
    in the toolkit and is not among the driver sources.  The specification
    describes a dataset as an ordered collection of samples that is split
    into two disjoint datasets (train/test) by a percentage threshold.
    Here the threshold is [numSamples * X / 100]: the samples whose index
    is below it stay in the training part, the others form the test
    part.  The two index lists are positions in the original dataset. *)
Definition threshold (numSamples : nat) (X : UINT) : N :=
  (N.of_nat numSamples * X / 100)%N.

Definition partition_indices (X : UINT) (numSamples : nat) : list nat * list nat :=
  List.partition (fun i => (N.of_nat i <? threshold numSamples X)%N) (seq 0 numSamples).

Definition select (d : ClassificationData.t) (indices : list nat) : ClassificationData.t :=
  {| ClassificationData.getNumDimensions := ClassificationData.getNumDimensions d;
     ClassificationData.samples :=
       map (fun i => ClassificationData.at_ d (N.of_nat i)) indices |}.

Definition partition (X : UINT) (d : ClassificationData.t)
  : ClassificationData.t * ClassificationData.t :=
  let '(train, test) := partition_indices X (List.length (ClassificationData.samples d)) in
  (select d train, select d test).

End SpecModel.

(** ** A scripted toolkit, for running the drivers on concrete inputs *)

Module Scripted.

(** [ostream << double] for the scripted runs: sign, mantissa and binary
    exponent in decimal digits. *)
Definition put_Z (z : Z) : string := NilZero.string_of_int (Z.to_int z).

Definition show (d : double) : string :=
  match d with
  | S754_zero s => if s then "-0" else "0"
  | S754_infinity s => if s then "-inf" else "inf"
  | S754_nan => "nan"
  | S754_finite s m e =>
      (if s then "-" else "") ++ put_UINT (Npos m) ++ "p" ++ put_Z e
  end.

#[global] Instance iostream : Iostream := {| put_double := show |}.

(** The classifier driver's world: what the dataset file holds, whether
    each step succeeds, and the answers of the successive [predict]
    calls. *)
Record classifier : Type := {
  dataset_ok : bool;
  dataset : ClassificationData.t;
  train_ok : bool;
  save_ok : bool;
  load_ok : bool;
  answers : list (bool * UINT);
  predictedClassLabel : UINT
}.

Definition classifier_predict (_ : list double) (s : classifier) : bool * classifier :=
  match answers s with
  | [] => (false, s)
  | (b, label) :: rest =>
      (b, {| dataset_ok := dataset_ok s; dataset := dataset s;
             train_ok := train_ok s; save_ok := save_ok s; load_ok := load_ok s;
             answers := rest; predictedClassLabel := label |})
  end.

#[global] Instance classification_data : ClassificationData.Ops classifier := {|
    ClassificationData.loadDatasetFromFile := fun _ s => (dataset_ok s, dataset s, s);
    ClassificationData.partition := fun X d s => (SpecModel.partition X d, s)
  |}.

#[global] Instance anbc : ANBC.Ops classifier := {|
    ANBC.setNullRejectionCoeff := fun _ s => s;
    ANBC.enableScaling := fun _ s => s;
    ANBC.enableNullRejection := fun _ s => s;
    ANBC.train := fun _ s => (train_ok s, s);
    ANBC.saveModelToFile := fun _ s => (save_ok s, s);
    ANBC.loadModelFromFile := fun _ s => (load_ok s, s);
    ANBC.predict := classifier_predict;
    ANBC.getPredictedClassLabel := predictedClassLabel;
    ANBC.getClassLikelihoods := fun _ => [];
    ANBC.getClassDistances := fun _ => []
  |}.

(** The regression driver's world. *)
Record pipeline : Type := {
  training_file : bool * RegressionData.t;
  test_file : bool * RegressionData.t;
  trains : bool;
  saves : bool;
  reloads : bool;
  tests : bool;
  rms : double;
  outputs : list (bool * list double);
  regressionData : list double
}.

Definition pipeline_load (name : string) (s : pipeline) : bool * RegressionData.t * pipeline :=
  if String.eqb name "MultidimensionalRegressionTrainingData.txt"
  then (training_file s, s) else (test_file s, s).

Definition pipeline_predict (_ : list double) (s : pipeline) : bool * pipeline :=
  match outputs s with
  | [] => (false, s)
  | (b, out) :: rest =>
      (b, {| training_file := training_file s; test_file := test_file s;
             trains := trains s; saves := saves s; reloads := reloads s;
             tests := tests s; rms := rms s;
             outputs := rest; regressionData := out |})
  end.

#[global] Instance regression_data : RegressionData.Ops pipeline := {|
    RegressionData.loadDatasetFromFile := pipeline_load;
    RegressionData.printStats := fun _ s => s
  |}.

#[global] Instance training_log : TrainingLog.Ops pipeline := {|
    TrainingLog.enableLogging := fun _ s => s
  |}.

#[global] Instance gesture_recognition_pipeline : GestureRecognitionPipeline.Ops pipeline := {|
    GestureRecognitionPipeline.setRegressifier := fun s => s;
    GestureRecognitionPipeline.train := fun _ s => (trains s, s);
    GestureRecognitionPipeline.savePipelineToFile := fun _ s => (saves s, s);
    GestureRecognitionPipeline.loadPipelineFromFile := fun _ s => (reloads s, s);
    GestureRecognitionPipeline.test := fun _ s => (tests s, s);
    GestureRecognitionPipeline.getTestRMSError := rms;
    GestureRecognitionPipeline.predict := pipeline_predict;
    GestureRecognitionPipeline.getRegressionData := regressionData
  |}.

(** Sample data. *)
Definition d (z : Z) : double := double_of_Z z.

Definition rsample (i t : list Z) : RegressionData.RegressionSample :=
  {| RegressionData.getInputVector := map d i;
     RegressionData.getTargetVector := map d t |}.

Definition csample (label : UINT) (x : list Z) : ClassificationData.ClassificationSample :=
  {| ClassificationData.getClassLabel := label;
     ClassificationData.getSample := map d x |}.

End Scripted.


(** ** Inputs for the scripted toolkit *)

Module Inputs.
Import Scripted.

(** Two input and three target dimensions, as the driver's comment says of
    its data files. *)
Definition data_2_3 : RegressionData.t :=
  {| RegressionData.getNumInputDimensions := 2%N;
     RegressionData.getNumTargetDimensions := 3%N;
     RegressionData.samples :=
       [rsample [1; 2]%Z [3; 4; 5]%Z; rsample [6; 7]%Z [8; 9; 10]%Z] |}.

(** A test file with four target dimensions. *)
Definition data_2_4 : RegressionData.t :=
  {| RegressionData.getNumInputDimensions := 2%N;
     RegressionData.getNumTargetDimensions := 4%N;
     RegressionData.samples := [rsample [1; 2]%Z [3; 4; 5; 6]%Z] |}.

Definition pipeline_world (training test : RegressionData.t)
           (outs : list (bool * list double)) : pipeline :=
  {| training_file := (true, training); test_file := (true, test);
     trains := true; saves := true; reloads := true; tests := true;
     rms := dzero; outputs := outs; regressionData := [] |}.

Definition matching : pipeline :=
  pipeline_world data_2_3 data_2_3 [(true, [d 1; d 2; d 3]); (true, [d 4; d 5; d 6])].

Definition mismatched_targets : pipeline :=
  pipeline_world data_2_3 data_2_4 [(true, [d 1; d 2; d 3])].

End Inputs.

Module ClassifierInputs.
Import Scripted.

(** Ten samples, so that [partition(80)] leaves two test samples, with
    class labels 1 and 2. *)
Definition ten_samples : ClassificationData.t :=
  {| ClassificationData.getNumDimensions := 1%N;
     ClassificationData.samples :=
       [csample 1%N [0]%Z; csample 2%N [1]%Z; csample 1%N [2]%Z; csample 2%N [3]%Z;
        csample 1%N [4]%Z; csample 2%N [5]%Z; csample 1%N [6]%Z; csample 2%N [7]%Z;
        csample 1%N [8]%Z; csample 2%N [9]%Z] |}.

Definition two_test_samples : ClassificationData.t :=
  {| ClassificationData.getNumDimensions := 1%N;
     ClassificationData.samples := [csample 1%N [8]%Z; csample 2%N [9]%Z] |}.

(** A dataset file that holds no sample. *)
Definition no_samples : ClassificationData.t :=
  {| ClassificationData.getNumDimensions := 1%N; ClassificationData.samples := [] |}.

Definition classifier_world (data : ClassificationData.t) (ans : list (bool * UINT))
  : classifier :=
  {| dataset_ok := true; dataset := data;
     train_ok := true; save_ok := true; load_ok := true;
     answers := ans; predictedClassLabel := 0%N |}.

(** The first test sample is classified correctly, the second is not. *)
Definition half_right : classifier := classifier_world ten_samples [(true, 1%N); (true, 1%N)].

Definition empty_file : classifier := classifier_world no_samples [].

End ClassifierInputs.

(** ** Properties of runs *)

(** *** The fail-fast discipline *)

(** The toolkit calls that hand a success flag to the driver: dataset load,
    train, test, predict, and model or pipeline save and load. *)
Definition reports_success (c : libcall) : bool :=
  match c with
  | LoadDatasetFromFile _ | Train | Test | Predict _
  | SaveModelToFile _ | LoadModelFromFile _
  | SavePipelineToFile _ | LoadPipelineFromFile _ => true
  | Partition _ | SetNullRejectionCoeff _ | EnableScaling _ | EnableNullRejection _
  | EnableLogging _ | PrintStats | SetRegressifier => false
  end.

(** An event that does not stop the program: a call that reported success,
    a call that reports nothing, or an insertion. *)
Definition passes (e : event) : Prop :=
  match e with
  | Call c r => r = if reports_success c then Some true else None
  | _ => True
  end.

(** A trace that ends at the first failed call and its diagnostic. *)
Definition stopped (t : list event) : Prop :=
  exists pre c msg,
    t = pre ++ [Call c (Some false); Cout msg]
    /\ Forall passes pre /\ reports_success c = true.

Section RunProperties.
  Context {Lib : Type}.

(** Every event a computation produces satisfies [Q]. *)
Definition emits {A} (Q : event -> Prop) (m : @M Lib A) : Prop :=
  forall l, Forall Q (snd (m l)).

(** A computation that either completes with every call passing and a
    value in [P], or executes [return EXIT_FAILURE;], every call passing
    except possibly a last failed one followed by its diagnostic. *)
Definition checked {A} (P : A -> Prop) (m : @M Lib A) : Prop :=
  forall l,
    match m l with
    | (Ret a, _, t) => Forall passes t /\ P a
    | (Exit c, _, t) => c = EXIT_FAILURE /\ (Forall passes t \/ stopped t)
    end.

(** The postcondition that holds of every value. *)
Definition any {A} : A -> Prop := fun _ => True.

End RunProperties.

(** What fail-fast means for a whole run. *)
Definition fail_fast {Lib} (r : run_t Lib) : Prop :=
  (** the calls that hand their flag to the driver are exactly those of
      the listed kinds *)
  (forall c res, In (Call c res) (trace r) ->
                 (reports_success c = true <-> res <> None))
  (** after a call that returned false comes one diagnostic and nothing
      else, and the exit status is [EXIT_FAILURE] *)
  /\ (forall pre c post,
         trace r = pre ++ Call c (Some false) :: post ->
         (exists msg, post = [Cout msg]) /\ exit_status r = EXIT_FAILURE)
  (** [EXIT_SUCCESS] only when every such call returned true *)
  /\ (exit_status r = EXIT_SUCCESS ->
      forall c b, In (Call c (Some b)) (trace r) -> b = true).

(** *** The dimensionality diagnostics of the regression driver *)

(** The first [cout] statement of the target-dimension branch, and the
    test that recognises it among the driver's events. *)
Definition target_dimension_diagnostic (n : UINT) : string :=
  "ERROR: The number of target dimensions in the training data (" ++ put_UINT n ++ ")".

Definition is_target_dimension_diagnostic (e : event) : bool :=
  match e with
  | Cout s => prefix "ERROR: The number of target dimensions" s
  | _ => false
  end.

Definition is_train_test_or_predict (e : event) : bool :=
  match e with
  | Call Train _ | Call Test _ | Call (Predict _) _ => true
  | _ => false
  end.

(** *** The results file of the regression driver *)

(** The number of occurrences of a character in a text. *)
Fixpoint count_char (c : ascii) (s : string) : nat :=
  match s with
  | EmptyString => 0
  | String a rest => (if Ascii.eqb a c then 1 else 0) + count_char c rest
  end.

(** An insertion into the results file. *)
Definition is_file_out (e : event) : bool :=
  match e with FileOut _ => true | _ => false end.

(** A vector as columns: each component's text followed by a tab. *)
Definition columns {IO : Iostream} (v : list double) : string :=
  text_of (map (fun x => (put_double x ++ tb)%string) v).

(** One line of the results file: the predicted output vector, then the
    target vector, then the line terminator. *)
Definition results_line {IO : Iostream} (row : list double * list double) : string :=
  (columns (fst row) ++ columns (snd row) ++ endl)%string.

Definition results_text {IO : Iostream} (rows : list (list double * list double)) : string :=
  text_of (map results_line rows).

Section ResultsFile.
  Context {Lib : Type} {IO : Iostream} {GP : GestureRecognitionPipeline.Ops Lib}.

(** What the pipeline answers when asked to predict on each input in turn:
    the success flag and the regression data it then holds. *)
Fixpoint predictions (inputs : list (list double)) (l : Lib) : list (bool * list double) :=
  match inputs with
  | [] => []
  | x :: rest =>
      let '(ok, l1) := GestureRecognitionPipeline.predict x l in
      (ok, GestureRecognitionPipeline.getRegressionData l1) :: predictions rest l1
  end.

Definition inputs_of (samples : list RegressionData.RegressionSample) : list (list double) :=
  map RegressionData.getInputVector samples.

(** Every prediction of the sequence succeeded. *)
Definition all_succeed (ps : list (bool * list double)) : bool := forallb fst ps.

(** The rows of the results file: predicted output and target of each test
    sample, in sample order. *)
Definition result_rows (samples : list RegressionData.RegressionSample) (l : Lib)
  : list (list double * list double) :=
  combine (map snd (predictions (inputs_of samples) l))
          (map RegressionData.getTargetVector samples).

(** The events of one line of the results file. *)
Definition row_events (row : list double * list double) : list event :=
  map (fun x => FileOut (put_double x ++ tb)) (fst row)
  ++ map (fun x => FileOut (put_double x ++ tb)) (snd row)
  ++ [FileOut endl].

End ResultsFile.

(** *** The accuracy of the classifier driver *)

Section AccuracyCount.
  Context {Lib : Type} {AN : ANBC.Ops Lib}.

(** What the classifier answers when asked to predict on each test sample
    in turn: the success flag and the predicted class label. *)
Fixpoint classifications (samples : list ClassificationData.ClassificationSample) (l : Lib)
  : list (bool * UINT) :=
  match samples with
  | [] => []
  | s :: rest =>
      let '(ok, l1) := ANBC.predict (ClassificationData.getSample s) l in
      (ok, ANBC.getPredictedClassLabel l1) :: classifications rest l1
  end.

(** The number of samples whose predicted class label equals their class
    label. *)
Fixpoint count_correct (samples : list ClassificationData.ClassificationSample)
         (answers : list (bool * UINT)) : nat :=
  match samples, answers with
  | s :: samples', (_, predicted) :: answers' =>
      (if N.eqb (ClassificationData.getClassLabel s) predicted then 1 else 0)
      + count_correct samples' answers'
  | _, _ => 0
  end.

Definition correct_predictions (samples : list ClassificationData.ClassificationSample)
           (l : Lib) : nat :=
  count_correct samples (classifications samples l).

(** [accuracy++], [k] times. *)
Definition incremented (k : nat) (accuracy : double) : double :=
  Nat.iter k (fun x => dadd x one) accuracy.

End AccuracyCount.

(** A double that is positive and at most one, by its exponent and
    mantissa. *)
Definition le_one_shape (x : double) : Prop :=
  exists m e, x = S754_finite false m e
              /\ (e < -52 \/ (e = -52 /\ m = 4503599627370496%positive))%Z.

(** *** Outcomes of the loops *)

(** The number of leading answers whose success flag is set. *)
Fixpoint leading_successes {A} (answers : list (bool * A)) : nat :=
  match answers with
  | (true, _) :: rest => S (leading_successes rest)
  | _ => 0
  end.

(** [cout << "ERROR: Failed to map test sample " << i << endl;] *)
Definition map_failure_message (i : UINT) : string :=
  "ERROR: Failed to map test sample " ++ put_UINT i ++ endl.

Definition is_file_close (e : event) : bool :=
  match e with FileClose => true | _ => false end.

(** The events on the results [fstream]. *)
Definition is_file_event (e : event) : bool :=
  match e with FileOpen _ | FileOut _ | FileClose => true | _ => false end.

Definition file_events (t : list event) : list event := filter is_file_event t.

(** The toolkit calls of the regression driver before its results loop. *)
Definition regression_setup_calls : list libcall :=
  [EnableLogging true;
   LoadDatasetFromFile "MultidimensionalRegressionTrainingData.txt";
   LoadDatasetFromFile "MultidimensionalRegressionTestData.txt";
   PrintStats; PrintStats; SetRegressifier; Train;
   SavePipelineToFile "Pipeline"; LoadPipelineFromFile "Pipeline"; Test].

(** The two [cout] statements of the input-dimension branch. *)
Definition input_dimension_diagnostic (training test : UINT) : string :=
  ("ERROR: The number of input dimensions in the training data (" ++ put_UINT training ++ ")")
  ++ (" does not match the number of input dimensions in the test data ("
        ++ put_UINT test ++ ")" ++ nl).

(** The toolkit calls of the regression driver up to its dimension guards. *)
Definition regression_load_calls : list libcall :=
  [EnableLogging true;
   LoadDatasetFromFile "MultidimensionalRegressionTrainingData.txt";
   LoadDatasetFromFile "MultidimensionalRegressionTestData.txt"].

(** [cout << "TestSample: " << i << " ClassLabel: " << classLabel
         << " PredictedClassLabel: " << predictedClassLabel << endl;] *)
Definition test_line (i : UINT) (classLabel predictedClassLabel : UINT) : string :=
  "TestSample: " ++ put_UINT i ++ " ClassLabel: " ++ put_UINT classLabel
    ++ " PredictedClassLabel: " ++ put_UINT predictedClassLabel ++ endl.

(** The report lines of the samples from index [i] on. *)
Fixpoint test_lines (i : UINT) (samples : list ClassificationData.ClassificationSample)
         (answers : list (bool * UINT)) : list string :=
  match samples, answers with
  | s :: samples', (_, predicted) :: answers' =>
      test_line i (ClassificationData.getClassLabel s) predicted
        :: test_lines (N.succ i) samples' answers'
  | _, _ => []
  end.

(** [cout << "Failed to perform prediction for test sampel: " << i <<"\n";] *)
Definition prediction_failure_message (i : UINT) : string :=
  "Failed to perform prediction for test sampel: " ++ put_UINT i ++ nl.

(** [cout << "Test Accuracy: " << accuracy/double(n)*100.0 << "%" << endl;] *)
Definition accuracy_line {IO : Iostream} (accuracy : double) (numSamples : UINT) : string :=
  "Test Accuracy: " ++ put_double (ANBCExample.accuracy_percent accuracy numSamples)
    ++ "%" ++ endl.

(** The toolkit calls of the classifier driver before its test loop. *)
Definition classifier_setup_calls : list libcall :=
  [SetNullRejectionCoeff (double_of_Z 10); EnableScaling true; EnableNullRejection true;
   LoadDatasetFromFile "ANBCTrainingData.txt"; Partition 80%N; Train;
   SaveModelToFile "ANBCModel.txt"; LoadModelFromFile "ANBCModel.txt"].

(** The checked steps of the classifier driver's setup, each with the
    diagnostic printed when it fails. *)
Definition classifier_diagnostics : list (libcall * string) :=
  [(LoadDatasetFromFile "ANBCTrainingData.txt", ("Failed to load training data!" ++ nl)%string);
   (Train, ("Failed to train classifier!" ++ nl)%string);
   (SaveModelToFile "ANBCModel.txt", ("Failed to save the classifier model!" ++ nl)%string);
   (LoadModelFromFile "ANBCModel.txt", ("Failed to load the classifier model!" ++ nl)%string)].

Definition sample_inputs (samples : list ClassificationData.ClassificationSample)
  : list (list double) :=
  map ClassificationData.getSample samples.

(** The progress lines of the regression driver, up to each of its
    steps. *)
Definition progress_to_train : string :=
  ("Training and Test datasets loaded" ++ nl) ++ ("Training data stats:" ++ nl)
  ++ ("Test data stats:" ++ nl) ++ ("Training MultidimensionalRegression model..." ++ nl).

Definition progress_to_save : string := progress_to_train ++ ("Model trained." ++ nl).

Definition progress_to_test : string :=
  progress_to_save ++ ("Testing MultidimensionalRegression model..." ++ nl).

(** What a run of the regression driver that completes prints. *)
Definition regression_progress {IO : Iostream} (rms : double) : string :=
  progress_to_test ++ ("Test complete. Test RMS error: " ++ put_double rms ++ endl).

(** The checked steps of the regression driver's set-up, each with the
    progress lines printed before it and the diagnostic printed when it
    fails. *)
Definition regression_diagnostics : list (libcall * (string * string)) :=
  [(LoadDatasetFromFile "MultidimensionalRegressionTrainingData.txt",
    ("", ("ERROR: Failed to load training data!" ++ nl)%string));
   (LoadDatasetFromFile "MultidimensionalRegressionTestData.txt",
    ("", ("ERROR: Failed to load test data!" ++ nl)%string));
   (Train,
    (progress_to_train,
     ("ERROR: Failed to train MultidimensionalRegression model!" ++ nl)%string));
   (SavePipelineToFile "Pipeline",
    (progress_to_save, ("ERROR: Failed to save pipeline!" ++ nl)%string));
   (LoadPipelineFromFile "Pipeline",
    (progress_to_save, ("ERROR: Failed to load pipeline!" ++ nl)%string));
   (Test,
    (progress_to_test,
     ("ERROR: Failed to test MultidimensionalRegression model!" ++ nl)%string))].

(** A double that is positive and at most one hundred, by its exponent and
    mantissa. *)
Definition le_hundred_shape (x : double) : Prop :=
  exists m e, x = S754_finite false m e
              /\ (e < -46 \/ (e = -46 /\ Zpos m <= 7036874417766400))%Z.

(** ** Further inputs for the scripted toolkit *)

Module RegressionInputs.
Import Scripted.

(** A test file with three input dimensions. *)
Definition data_3_3 : RegressionData.t :=
  {| RegressionData.getNumInputDimensions := 3%N;
     RegressionData.getNumTargetDimensions := 3%N;
     RegressionData.samples := [rsample [1; 2; 3]%Z [4; 5; 6]%Z] |}.

(** A test file without samples. *)
Definition data_2_3_empty : RegressionData.t :=
  {| RegressionData.getNumInputDimensions := 2%N;
     RegressionData.getNumTargetDimensions := 3%N;
     RegressionData.samples := [] |}.

(** A training file with two and a test file with three input
    dimensions. *)
Definition mismatched_inputs : pipeline :=
  Inputs.pipeline_world Inputs.data_2_3 data_3_3 [(true, [d 1; d 2; d 3])].

(** The pipeline maps the first test sample and fails on the second. *)
Definition second_prediction_fails : pipeline :=
  Inputs.pipeline_world Inputs.data_2_3 Inputs.data_2_3
                        [(true, [d 1; d 2; d 3]); (false, [])].

(** Every step succeeds and the test file holds no sample. *)
Definition empty_test_file : pipeline :=
  Inputs.pipeline_world Inputs.data_2_3 data_2_3_empty [].

End RegressionInputs.

Module ClassifierRuns.
Import Scripted.

(** Both test samples are classified correctly. *)
Definition all_right : classifier :=
  ClassifierInputs.classifier_world ClassifierInputs.ten_samples [(true, 1%N); (true, 2%N)].

(** Neither test sample is classified correctly. *)
Definition all_wrong : classifier :=
  ClassifierInputs.classifier_world ClassifierInputs.ten_samples [(true, 2%N); (true, 1%N)].

(** The classifier answers for the first test sample and fails on the
    second. *)
Definition second_prediction_fails : classifier :=
  ClassifierInputs.classifier_world ClassifierInputs.ten_samples [(true, 1%N); (false, 0%N)].

(** Training fails. *)
Definition training_fails : classifier :=
  {| dataset_ok := true; dataset := ClassifierInputs.ten_samples;
     train_ok := false; save_ok := true; load_ok := true;
     answers := []; predictedClassLabel := 0%N |}.

End ClassifierRuns.

Module RegressionFailures.
Import Scripted.

(** Saving the pipeline fails. *)
Definition save_fails : pipeline :=
  {| training_file := (true, Inputs.data_2_3); test_file := (true, Inputs.data_2_3);
     trains := true; saves := false; reloads := true; tests := true;
     rms := dzero; outputs := []; regressionData := [] |}.

End RegressionFailures.

(** *** What a run depends on *)

(** What a process is started with besides the files: its argument
    vector, its environment variables, and what its network interfaces
    would deliver. *)
Module Process.

Record t : Type := {
  argc : Z;
  argv : list string;
  environ : list (string * string);
  network : list string
}.

End Process.


Section SameInputs.
  Context {Lib : Type} (R : Lib -> Lib -> Prop).







End SameInputs.

(** A toolkit that also counts the lines it has logged: a state it writes
    and never reads. *)
Module Logged.

Record t (W : Type) : Type := {
  world : W;
  logged_lines : nat
}.
Arguments world {W} _.
Arguments logged_lines {W} _.

Definition log {W} (w : W) (l : t W) : t W :=
  {| world := w; logged_lines := S (logged_lines l) |}.

Definition state {W} (op : W -> W) (l : t W) : t W := log (op (world l)) l.

Definition answer {W A} (op : W -> A * W) (l : t W) : A * t W :=
  (fst (op (world l)), log (snd (op (world l))) l).

#[global] Instance classification_data {W} {CD : ClassificationData.Ops W}
  : ClassificationData.Ops (t W) := {|
    ClassificationData.loadDatasetFromFile :=
      fun name => answer (ClassificationData.loadDatasetFromFile name);
    ClassificationData.partition := fun pct d => answer (ClassificationData.partition pct d)
  |}.

#[global] Instance anbc {W} {AN : ANBC.Ops W} : ANBC.Ops (t W) := {|
    ANBC.setNullRejectionCoeff := fun c => state (ANBC.setNullRejectionCoeff c);
    ANBC.enableScaling := fun b => state (ANBC.enableScaling b);
    ANBC.enableNullRejection := fun b => state (ANBC.enableNullRejection b);
    ANBC.train := fun d => answer (ANBC.train d);
    ANBC.saveModelToFile := fun name => answer (ANBC.saveModelToFile name);
    ANBC.loadModelFromFile := fun name => answer (ANBC.loadModelFromFile name);
    ANBC.predict := fun x => answer (ANBC.predict x);
    ANBC.getPredictedClassLabel := fun l => ANBC.getPredictedClassLabel (world l);
    ANBC.getClassLikelihoods := fun l => ANBC.getClassLikelihoods (world l);
    ANBC.getClassDistances := fun l => ANBC.getClassDistances (world l)
  |}.

#[global] Instance regression_data {W} {RD : RegressionData.Ops W}
  : RegressionData.Ops (t W) := {|
    RegressionData.loadDatasetFromFile :=
      fun name => answer (RegressionData.loadDatasetFromFile name);
    RegressionData.printStats := fun d => state (RegressionData.printStats d)
  |}.

#[global] Instance training_log {W} {TL : TrainingLog.Ops W} : TrainingLog.Ops (t W) := {|
    TrainingLog.enableLogging := fun b => state (TrainingLog.enableLogging b)
  |}.

#[global] Instance gesture_recognition_pipeline {W} {GP : GestureRecognitionPipeline.Ops W}
  : GestureRecognitionPipeline.Ops (t W) := {|
    GestureRecognitionPipeline.setRegressifier :=
      state GestureRecognitionPipeline.setRegressifier;
    GestureRecognitionPipeline.train := fun d => answer (GestureRecognitionPipeline.train d);
    GestureRecognitionPipeline.savePipelineToFile :=
      fun name => answer (GestureRecognitionPipeline.savePipelineToFile name);
    GestureRecognitionPipeline.loadPipelineFromFile :=
      fun name => answer (GestureRecognitionPipeline.loadPipelineFromFile name);
    GestureRecognitionPipeline.test := fun d => answer (GestureRecognitionPipeline.test d);
    GestureRecognitionPipeline.getTestRMSError :=
      fun l => GestureRecognitionPipeline.getTestRMSError (world l);
    GestureRecognitionPipeline.predict :=
      fun x => answer (GestureRecognitionPipeline.predict x);
    GestureRecognitionPipeline.getRegressionData :=
      fun l => GestureRecognitionPipeline.getRegressionData (world l)
  |}.




End Logged.

(** * Proofs *)

(** ** Reasoning about runs *)

Section Laws.
  Context {Lib : Type}.
  Local Open Scope prog_scope.

Lemma bind_Ret {A B} (m : @M Lib A) (f : A -> M B) l a l1 t1 :
  m l = (Ret a, l1, t1) ->
  bind m f l = (let '(r, l2, t2) := f a l1 in (r, l2, t1 ++ t2)).
Proof. intros E. unfold bind. now rewrite E. Qed.

(** *** Every event a computation produces satisfies [Q] *)

Lemma emits_ret {A} Q (a : A) : emits Q (@ret Lib A a).
Proof. intros l. constructor. Qed.

Lemma emits_Return {A} Q c : emits Q (@Return Lib A c).
Proof. intros l. constructor. Qed.

Lemma emits_get {A} Q (f : Lib -> A) : emits Q (get f).
Proof. intros l. constructor. Qed.

Lemma emits_emit Q e : Q e -> emits Q (@emit Lib e).
Proof. intros H l. cbn. auto. Qed.

Lemma emits_cout Q s : Q (Cout s) -> emits Q (@cout Lib s).
Proof. apply emits_emit. Qed.

Lemma emits_call_bool Q c (op : Lib -> bool * Lib) :
  (forall b, Q (Call c (Some b))) -> emits Q (call_bool c op).
Proof. intros H l. unfold call_bool. destruct (op l) as [b l1]. cbn. auto. Qed.

Lemma emits_call_fill {A} Q c (op : Lib -> bool * A * Lib) :
  (forall b, Q (Call c (Some b))) -> emits Q (call_fill c op).
Proof. intros H l. unfold call_fill. destruct (op l) as [[b a] l1]. cbn. auto. Qed.

Lemma emits_call_val {A} Q c (op : Lib -> A * Lib) : Q (Call c None) -> emits Q (call_val c op).
Proof. intros H l. unfold call_val. destruct (op l) as [a l1]. cbn. auto. Qed.

Lemma emits_call_void Q c (op : Lib -> Lib) : Q (Call c None) -> emits Q (call_void c op).
Proof. intros H l. cbn. auto. Qed.

Lemma emits_bind {A B} Q (m : @M Lib A) (f : A -> M B) :
  emits Q m -> (forall a, emits Q (f a)) -> emits Q (bind m f).
Proof.
  intros Hm Hf l. unfold bind. specialize (Hm l).
  destruct (m l) as [[[a | c] l1] t1]; cbn in *; auto.
  specialize (Hf a l1). destruct (f a l1) as [[r l2] t2]; cbn in *.
  apply Forall_app; auto.
Qed.

Lemma emits_when Q b (m : @M Lib unit) : (b = true -> emits Q m) -> emits Q (when b m).
Proof. destruct b; cbn; auto using emits_ret. Qed.

Lemma emits_for_range {A} Q (body : UINT -> A -> @M Lib A) :
  (forall i a, emits Q (body i a)) ->
  forall count i a, emits Q (for_range count i body a).
Proof.
  intros Hb count. induction count as [| k IH]; intros i a; cbn.
  - apply emits_ret.
  - apply emits_bind; auto.
Qed.

Lemma emits_for_UINT {A} Q lo hi (body : UINT -> A -> @M Lib A) a :
  (forall i a, emits Q (body i a)) -> emits Q (for_UINT lo hi body a).
Proof. intros. now apply emits_for_range. Qed.

End Laws.

(** ** The fail-fast discipline *)

Section FailFast.
  Context {Lib : Type}.
  Local Open Scope prog_scope.

Lemma checked_ret {A} (P : A -> Prop) a : P a -> checked P (@ret Lib A a).
Proof. intros H l. cbn. auto. Qed.

Lemma checked_Return {A} (P : A -> Prop) : checked P (@Return Lib A EXIT_FAILURE).
Proof. intros l. cbn. auto. Qed.

Lemma checked_get {A} (f : Lib -> A) : checked any (get f).
Proof. intros l. cbn. unfold any. auto. Qed.

Lemma checked_emit e : passes e -> checked any (@emit Lib e).
Proof. intros H l. cbn. unfold any. auto. Qed.

Lemma checked_cout s : checked any (@cout Lib s).
Proof. apply checked_emit. exact I. Qed.

Lemma checked_call_val {A} c (op : Lib -> A * Lib) :
  reports_success c = false -> checked any (call_val c op).
Proof.
  intros H l. unfold call_val. destruct (op l) as [a l1]. unfold any.
  split; auto. constructor; auto. cbn. now rewrite H.
Qed.

Lemma checked_call_void c (op : Lib -> Lib) :
  reports_success c = false -> checked any (call_void c op).
Proof.
  intros H l. cbn. unfold any. split; auto. constructor; auto. cbn. now rewrite H.
Qed.

Lemma stopped_app t1 t2 : Forall passes t1 -> stopped t2 -> stopped (t1 ++ t2).
Proof.
  intros H1 (pre & c & msg & -> & Hpre & Hc).
  exists (t1 ++ pre), c, msg. rewrite app_assoc. repeat split; auto.
  apply Forall_app; auto.
Qed.

Lemma checked_bind {A B} (P : A -> Prop) (Q : B -> Prop) (m : @M Lib A) (f : A -> M B) :
  checked P m -> (forall a, P a -> checked Q (f a)) -> checked Q (bind m f).
Proof.
  intros Hm Hf l. unfold bind. specialize (Hm l).
  destruct (m l) as [[[a | c] l1] t1]; auto.
  destruct Hm as [Ht1 Pa]. specialize (Hf a Pa l1).
  destruct (f a l1) as [[[b | c] l2] t2].
  - destruct Hf. split; auto. apply Forall_app; auto.
  - destruct Hf as [-> [H | H]]; split; auto.
    + left. apply Forall_app; auto.
    + right. now apply stopped_app.
Qed.

Lemma checked_when b (m : @M Lib unit) : checked any m -> checked any (when b m).
Proof. destruct b; cbn; auto. intros _. now apply checked_ret. Qed.

Lemma checked_for_range {A} (body : UINT -> A -> @M Lib A) :
  (forall i a, checked any (body i a)) ->
  forall count i a, checked any (for_range count i body a).
Proof.
  intros Hb count. induction count as [| k IH]; intros i a; cbn.
  - now apply checked_ret.
  - eapply checked_bind; eauto.
Qed.

Lemma checked_for_UINT {A} lo hi (body : UINT -> A -> @M Lib A) a :
  (forall i a, checked any (body i a)) -> checked any (for_UINT lo hi body a).
Proof. intros. now apply checked_for_range. Qed.

End FailFast.

Section FailFastSteps.
  Context {Lib : Type}.
  Local Open Scope prog_scope.

Lemma passes_reported c : reports_success c = true -> passes (Call c (Some true)).
Proof. intros H. cbn. now rewrite H. Qed.

(** The pattern of every checked call in the drivers, followed by the
    rest of the program. *)
Lemma checked_call_bool_then {A} (Q : A -> Prop) c (op : Lib -> bool * Lib) msg (k : @M Lib A) :
  reports_success c = true ->
  checked Q k ->
  checked Q (ok <- call_bool c op ;;
             when (negb ok) (cout msg ;; Return EXIT_FAILURE) ;;
             k).
Proof.
  intros Hc Hk l. unfold bind at 1. unfold call_bool.
  destruct (op l) as [[|] l1]; cbn.
  - specialize (Hk l1). unfold bind; cbn.
    destruct (k l1) as [[[a | code] l2] t2].
    + destruct Hk. split; auto. constructor; auto using passes_reported.
    + destruct Hk as [-> [H | H]]; split; auto.
      * left. constructor; auto using passes_reported.
      * right. apply (stopped_app [_]); auto using passes_reported.
  - split; auto. right. exists [], c, msg. auto.
Qed.

Lemma checked_call_fill_then {A B} (Q : A -> Prop) c (op : Lib -> bool * B * Lib) msg
      (k : B -> @M Lib A) :
  reports_success c = true ->
  (forall b, checked Q (k b)) ->
  checked Q (' (ok, b) <- call_fill c op ;;
             when (negb ok) (cout msg ;; Return EXIT_FAILURE) ;;
             k b).
Proof.
  intros Hc Hk l. unfold bind at 1. unfold call_fill.
  destruct (op l) as [[[|] b] l1]; cbn.
  - specialize (Hk b l1). unfold bind; cbn.
    destruct (k b l1) as [[[a | code] l2] t2].
    + destruct Hk. split; auto. constructor; auto using passes_reported.
    + destruct Hk as [-> [H | H]]; split; auto.
      * left. constructor; auto using passes_reported.
      * right. apply (stopped_app [_]); auto using passes_reported.
  - split; auto. right. exists [], c, msg. auto.
Qed.

Lemma checked_seq {A B} (Q : B -> Prop) (m : @M Lib A) (k : A -> M B) :
  checked any m -> (forall a, checked Q (k a)) -> checked Q (bind m k).
Proof. intros. eapply checked_bind; eauto. Qed.

End FailFastSteps.

(** One statement of a driver. *)
Ltac checked_simple :=
  first [ apply checked_ret; first [exact I | reflexivity]
        | apply checked_call_void; reflexivity
        | apply checked_call_val; reflexivity
        | apply checked_get
        | apply checked_cout
        | apply checked_emit; exact I ].

Ltac checked_step :=
  first [ apply checked_call_bool_then; [reflexivity | ]
        | apply checked_call_fill_then; [reflexivity | intros ? ]
        | apply checked_seq; [ checked_simple | intros ? ]
        | apply checked_Return
        | checked_simple ];
  repeat match goal with
         | p : (_ * _)%type |- _ => destruct p
         end.

Section DriversFailFast.
  Context {Lib : Type} {IO : Iostream}.
  Local Open Scope prog_scope.

  Section Classifier.
    Context {CD : ClassificationData.Ops Lib} {AN : ANBC.Ops Lib}.

Lemma test_sample_checked d i a : checked any (ANBCExample.test_sample d i a).
Proof.
  unfold ANBCExample.test_sample. repeat checked_step.
Qed.

Lemma prepare_checked : checked any ANBCExample.prepare.
Proof.
  unfold ANBCExample.prepare. repeat checked_step.
Qed.

Lemma ANBC_main_checked argc argv :
      checked (eq EXIT_SUCCESS) (ANBCExample.main argc argv).
    Proof.
      unfold ANBCExample.main. eapply checked_bind; [apply prepare_checked | intros d _].
      unfold ANBCExample.evaluate, ANBCExample.test_loop.
      apply checked_seq.
      - apply checked_for_UINT. apply test_sample_checked.
      - intros a. repeat checked_step.
    Qed.
  End Classifier.

  Section Regression.
    Context {RD : RegressionData.Ops Lib} {TL : TrainingLog.Ops Lib}
            {GP : GestureRecognitionPipeline.Ops Lib}.

Lemma write_vector_checked v :
  checked any (MultidimensionalRegressionExample.write_vector (Lib := Lib) v).
Proof.
  unfold MultidimensionalRegressionExample.write_vector.
  apply checked_for_UINT. intros. checked_step.
Qed.

Lemma map_sample_checked d i u :
  checked any (MultidimensionalRegressionExample.map_sample d i u).
Proof.
  unfold MultidimensionalRegressionExample.map_sample.
  checked_step. checked_step.
  apply checked_seq; [apply write_vector_checked | intros _].
  apply checked_seq; [apply write_vector_checked | intros _].
  checked_step.
Qed.

Lemma reject_checked b s1 s2 :
  checked any (when (Lib := Lib) b (cout s1 ;; cout s2 ;; Return EXIT_FAILURE)).
Proof. apply checked_when. repeat checked_step. Qed.

Lemma load_and_train_checked :
  checked any MultidimensionalRegressionExample.load_and_train.
Proof.
  unfold MultidimensionalRegressionExample.load_and_train.
  do 3 checked_step.
  apply checked_seq; [apply reject_checked | intros _].
  apply checked_seq; [apply reject_checked | intros _].
  repeat checked_step.
Qed.

Lemma regression_main_checked argc argv :
      checked (eq EXIT_SUCCESS) (MultidimensionalRegressionExample.main argc argv).
    Proof.
      unfold MultidimensionalRegressionExample.main.
      eapply checked_bind; [apply load_and_train_checked | intros d _].
      unfold MultidimensionalRegressionExample.write_results,
        MultidimensionalRegressionExample.map_loop.
      checked_step.
      apply checked_seq.
      - apply checked_for_UINT. apply map_sample_checked.
      - intros _. repeat checked_step.
    Qed.
  End Regression.

End DriversFailFast.

Section FailFastRun.
  Context {Lib : Type}.

Lemma passes_not_failed c : ~ passes (Call c (Some false)).
Proof. cbn. destruct (reports_success c); discriminate. Qed.

Lemma passes_flag c res :
  passes (Call c res) -> (reports_success c = true <-> res <> None).
Proof.
  cbn. destruct (reports_success c); intros ->; split; congruence.
Qed.

Lemma after_failure pre' c' msg :
  Forall passes pre' ->
  forall pre c post,
    pre ++ Call c (Some false) :: post = pre' ++ [Call c' (Some false); Cout msg] ->
    post = [Cout msg].
Proof.
  induction 1 as [| e pre' He Hpre' IH]; intros pre c post E.
  - destruct pre as [| e1 pre]; cbn in E.
    + now inversion E.
    + inversion E as [[E1 E2]]. destruct pre as [| e2 pre]; cbn in E2.
      * discriminate.
      * inversion E2 as [[E3 E4]]. now destruct pre.
  - destruct pre as [| e1 pre]; cbn in E.
    + inversion E; subst. now apply passes_not_failed in He.
    + inversion E; subst. eauto.
Qed.

Lemma stopped_calls t c res :
  Forall passes t \/ stopped t -> In (Call c res) t ->
  (reports_success c = true <-> res <> None)
  /\ (res = Some false -> stopped t).
Proof.
  intros [H | H] Hin.
  - rewrite Forall_forall in H. specialize (H _ Hin). split.
    + now apply passes_flag.
    + intros ->. now apply passes_not_failed in H.
  - split; [| auto]. destruct H as (pre & c' & msg & -> & Hpre & Hc').
    apply in_app_or in Hin. destruct Hin as [Hin | [Hin | [Hin | []]]].
    + rewrite Forall_forall in Hpre. apply passes_flag. auto.
    + inversion Hin; subst. split; congruence.
    + discriminate.
Qed.

Lemma checked_fail_fast (m : @M Lib Z) l :
  checked (eq EXIT_SUCCESS) m -> fail_fast (run m l).
Proof.
  intros Hm. specialize (Hm l). unfold fail_fast, run.
  destruct (m l) as [[[a | code] l1] t]; cbn [exit_status trace].
  - destruct Hm as [Ht <-]. split; [| split].
    + intros c res Hin. now apply (stopped_calls t); auto.
    + intros pre c post E. exfalso. rewrite Forall_forall in Ht.
      apply (passes_not_failed c), Ht. subst t. apply in_elt.
    + intros _ c [|] Hin; auto. rewrite Forall_forall in Ht.
      now apply Ht, passes_not_failed in Hin.
  - destruct Hm as [-> Ht]. split; [| split].
    + intros c res Hin. now apply (stopped_calls t); auto.
    + intros pre c post E. split; [| reflexivity].
      assert (Hs : stopped t).
      { apply (stopped_calls t c (Some false)); auto. subst. apply in_elt. }
      destruct Hs as (pre' & c' & msg & E' & Hpre & _). subst t.
      exists msg. eapply after_failure; eauto.
    + discriminate.
Qed.

End FailFastRun.

(** ** Both drivers: error handling and command-line arguments *)

(** C2: in both drivers, the toolkit calls that report success (dataset
    load, train, save, load, test, predict, pipeline save and load) are the
    calls whose boolean the driver receives; a call that returns false is
    followed by one diagnostic on [cout] and nothing else, no further
    toolkit call included, and the program exits with [EXIT_FAILURE]; the
    program exits with [EXIT_SUCCESS] only when every such call returned
    true. *)
Theorem C2_checked_calls_fail_fast :
  (forall Lib (IO : Iostream) (CD : ClassificationData.Ops Lib) (AN : ANBC.Ops Lib)
          argc argv (l : Lib),
      fail_fast (run (ANBCExample.main argc argv) l))
  /\ (forall Lib (IO : Iostream) (RD : RegressionData.Ops Lib) (TL : TrainingLog.Ops Lib)
             (GP : GestureRecognitionPipeline.Ops Lib) argc argv (l : Lib),
         fail_fast (run (MultidimensionalRegressionExample.main argc argv) l)).
Proof.
  split; intros.
  - apply checked_fail_fast, ANBC_main_checked.
  - apply checked_fail_fast, regression_main_checked.
Qed.

(** ** What a run depends on *)

Section SameRuns.
  Context {Lib : Type} (R : Lib -> Lib -> Prop).
  Local Open Scope prog_scope.















End SameRuns.


Section DriversSameRuns.
  Context {Lib : Type} {IO : Iostream} (R : Lib -> Lib -> Prop).



End DriversSameRuns.

Section LoggedRespects.
  Context {W : Type}.






End LoggedRespects.



(** ** The dimensionality guards of the regression driver *)

(** Steps through a driver for a property of single events given as a
    boolean test. *)
Ltac emits_step :=
  first [ apply emits_ret | apply emits_Return | apply emits_get
        | apply emits_bind; [ | intros ? ]
        | apply emits_for_UINT; intros ? ?
        | apply emits_cout; reflexivity
        | apply emits_emit; reflexivity
        | apply emits_call_bool; intros ?; reflexivity
        | apply emits_call_fill; intros ?; reflexivity
        | apply emits_call_val; reflexivity
        | apply emits_call_void; reflexivity
        | match goal with p : (_ * _)%type |- _ => destruct p end ].

Section RegressionGuards.
  Context {Lib : Type} {IO : Iostream}
          {RD : RegressionData.Ops Lib} {TL : TrainingLog.Ops Lib}
          {GP : GestureRecognitionPipeline.Ops Lib}.
  Import MultidimensionalRegressionExample.

Lemma target_guard_false trainingData testData :
  target_dimensions_differ trainingData testData = false.
Proof. unfold target_dimensions_differ. now rewrite N.eqb_refl. Qed.

Lemma write_vector_emits Q v :
  (forall s, Q (FileOut s)) -> emits Q (write_vector (Lib := Lib) v).
Proof.
  intros H. unfold write_vector. apply emits_for_UINT. intros. now apply emits_emit.
Qed.

Lemma main_never_prints_target_diagnostic argc argv :
  emits (fun e => is_target_dimension_diagnostic e = false) (main argc argv).
Proof.
  unfold main, load_and_train, write_results, map_loop, map_sample.
  repeat first
    [ emits_step
    | apply emits_when; intros Hg;
      try (rewrite target_guard_false in Hg; discriminate Hg)
    | apply write_vector_emits; reflexivity ].
Qed.

End RegressionGuards.

(** C8: the target-dimension guard reads both operands from the test
    dataset, so its condition is false for every pair of datasets, whatever
    the training dataset's target-dimension count, and no run of the driver
    prints the diagnostic of its branch. *)
Theorem C8_target_guard_unreachable :
  forall Lib (IO : Iostream) (RD : RegressionData.Ops Lib) (TL : TrainingLog.Ops Lib)
         (GP : GestureRecognitionPipeline.Ops Lib),
    (forall trainingData testData,
        MultidimensionalRegressionExample.target_dimensions_differ trainingData testData = false)
    /\ (forall n, is_target_dimension_diagnostic (Cout (target_dimension_diagnostic n)) = true)
    /\ (forall argc argv (l : Lib),
           Forall (fun e => is_target_dimension_diagnostic e = false)
                  (trace (run (MultidimensionalRegressionExample.main argc argv) l))).
Proof.
  intros. split; [| split].
  - apply target_guard_false.
  - reflexivity.
  - intros argc argv l.
    pose proof (main_never_prints_target_diagnostic argc argv l) as H.
    unfold run. destruct (MultidimensionalRegressionExample.main argc argv l) as [[r l1] t].
    exact H.
Qed.

(** The first guard does what its comment says: datasets whose input
    dimensions differ are rejected after the two loads, before any other
    toolkit call. *)
Lemma input_mismatch_rejected
      {Lib} {IO : Iostream} {RD : RegressionData.Ops Lib} {TL : TrainingLog.Ops Lib}
      {GP : GestureRecognitionPipeline.Ops Lib}
      argc argv (l l1 l2 : Lib) trainingData testData :
  RegressionData.loadDatasetFromFile "MultidimensionalRegressionTrainingData.txt"
    (TrainingLog.enableLogging true l) = (true, trainingData, l1) ->
  RegressionData.loadDatasetFromFile "MultidimensionalRegressionTestData.txt" l1
    = (true, testData, l2) ->
  RegressionData.getNumInputDimensions trainingData
    <> RegressionData.getNumInputDimensions testData ->
  let r := run (MultidimensionalRegressionExample.main argc argv) l in
  exit_status r = EXIT_FAILURE
  /\ lib_calls (trace r)
     = [EnableLogging true;
        LoadDatasetFromFile "MultidimensionalRegressionTrainingData.txt";
        LoadDatasetFromFile "MultidimensionalRegressionTestData.txt"].
Proof.
  intros H1 H2 Hd r. subst r. apply N.eqb_neq in Hd.
  unfold run, MultidimensionalRegressionExample.main,
    MultidimensionalRegressionExample.load_and_train, bind, call_void, call_fill.
  rewrite H1. cbn [when negb ret]. rewrite H2. cbn [when negb ret].
  unfold MultidimensionalRegressionExample.input_dimensions_differ.
  rewrite Hd. cbn. auto.
Qed.

(** C1, at a training file with three and a test file with four target
    dimensions: the pair is not rejected; the driver goes on to train, save,
    reload, test and predict, and exits with [EXIT_SUCCESS]. *)
Theorem C1_target_mismatch_not_rejected :
  let r := run (MultidimensionalRegressionExample.main 1 ["MultidimensionalRegressionExample"])
               Inputs.mismatched_targets in
  RegressionData.getNumTargetDimensions Inputs.data_2_3
    <> RegressionData.getNumTargetDimensions Inputs.data_2_4
  /\ lib_calls (trace r)
     = [EnableLogging true;
        LoadDatasetFromFile "MultidimensionalRegressionTrainingData.txt";
        LoadDatasetFromFile "MultidimensionalRegressionTestData.txt";
        PrintStats; PrintStats; SetRegressifier; Train;
        SavePipelineToFile "Pipeline"; LoadPipelineFromFile "Pipeline"; Test;
        Predict [Scripted.d 1; Scripted.d 2]]
  /\ existsb is_train_test_or_predict (trace r) = true
  /\ exit_status r = EXIT_SUCCESS.
Proof. cbv zeta. split; [discriminate |]. repeat split; vm_compute; reflexivity. Qed.

(** ** The results file of the regression driver *)

Lemma string_app_nil_r (s : string) : (s ++ "")%string = s.
Proof. induction s as [| a s IH]; cbn; congruence. Qed.

Lemma string_app_assoc (a b c : string) : ((a ++ b) ++ c)%string = (a ++ b ++ c)%string.
Proof. induction a as [| x a IH]; cbn; congruence. Qed.

Lemma text_of_app (p q : list string) : text_of (p ++ q) = (text_of p ++ text_of q)%string.
Proof.
  unfold text_of. induction p as [| x p IH]; cbn; [reflexivity |].
  now rewrite IH, string_app_assoc.
Qed.

Lemma file_text_app (t1 t2 : list event) :
  file_text (t1 ++ t2) = (file_text t1 ++ file_text t2)%string.
Proof. unfold file_text. now rewrite flat_map_app, text_of_app. Qed.

Lemma file_text_outs {X} (f : X -> string) (v : list X) :
  file_text (map (fun x => FileOut (f x)) v) = text_of (map f v).
Proof.
  unfold file_text, text_of. induction v as [| x v IH]; cbn; [reflexivity |].
  now rewrite IH.
Qed.

Lemma lib_calls_app (t1 t2 : list event) : lib_calls (t1 ++ t2) = lib_calls t1 ++ lib_calls t2.
Proof. unfold lib_calls. apply flat_map_app. Qed.

Lemma lib_calls_outs {X} (f : X -> string) (v : list X) :
  lib_calls (map (fun x => FileOut (f x)) v) = [].
Proof. induction v as [| x v IH]; cbn; auto. Qed.

Lemma count_char_app c (a b : string) :
  count_char c (a ++ b) = count_char c a + count_char c b.
Proof. induction a as [| x a IH]; cbn; [reflexivity |]. rewrite IH. lia. Qed.

Lemma no_file_out_text t : Forall (fun e => is_file_out e = false) t -> file_text t = "".
Proof.
  induction 1 as [| e t He Ht IH]; [reflexivity |].
  destruct e; try discriminate; exact IH.
Qed.

Section RegressionLoop.
  Context {Lib : Type} {IO : Iostream}
          {RD : RegressionData.Ops Lib} {TL : TrainingLog.Ops Lib}
          {GP : GestureRecognitionPipeline.Ops Lib}.
  Import MultidimensionalRegressionExample.

Lemma write_vector_from (l : Lib) : forall rest done,
  for_range (List.length rest) (N.of_nat (List.length done))
            (fun j _ => emit (FileOut (put_double (nth (N.to_nat j) (done ++ rest) dzero) ++ tb)))
            tt l
  = (Ret tt, l, map (fun x => FileOut (put_double x ++ tb)) rest).
Proof.
  induction rest as [| x rest IH]; intros done; [reflexivity |].
  cbn [List.length for_range]. unfold bind. cbn [emit].
  rewrite Nat2N.id, nth_middle.
  specialize (IH (done ++ [x])).
  rewrite <- app_assoc, length_app, Nat.add_1_r, Nat2N.inj_succ in IH. cbn [app] in IH.
  now rewrite IH.
Qed.

Lemma write_vector_run v (l : Lib) :
  write_vector v l = (Ret tt, l, map (fun x => FileOut (put_double x ++ tb)) v).
Proof.
  unfold write_vector, for_UINT. rewrite N.sub_0_r, Nat2N.id.
  exact (write_vector_from l v []).
Qed.

Lemma load_and_train_no_file_out :
  emits (fun e => is_file_out e = false) load_and_train.
Proof.
  unfold load_and_train.
  repeat first [ emits_step | apply emits_when; intros _ ].
Qed.

End RegressionLoop.

Section RegressionRows.
  Context {Lib : Type} {IO : Iostream}
          {RD : RegressionData.Ops Lib} {TL : TrainingLog.Ops Lib}
          {GP : GestureRecognitionPipeline.Ops Lib}.
  Import MultidimensionalRegressionExample.

Lemma row_events_text row : file_text (row_events row) = results_line row.
Proof.
  unfold row_events, results_line, columns.
  rewrite !file_text_app, !file_text_outs. reflexivity.
Qed.

Lemma map_sample_ok d i (l l1 : Lib) :
  GestureRecognitionPipeline.predict
    (RegressionData.getInputVector (RegressionData.at_ d i)) l = (true, l1) ->
  map_sample d i tt l
  = (Ret tt, l1,
     Call (Predict (RegressionData.getInputVector (RegressionData.at_ d i))) (Some true)
       :: row_events (GestureRecognitionPipeline.getRegressionData l1,
                      RegressionData.getTargetVector (RegressionData.at_ d i))).
Proof.
  intros H. unfold map_sample, bind, call_bool. rewrite H. cbn [when negb ret get].
  rewrite !write_vector_run. reflexivity.
Qed.

Lemma at_middle d done s rest :
  RegressionData.samples d = done ++ s :: rest ->
  RegressionData.at_ d (N.of_nat (List.length done)) = s.
Proof. intros E. unfold RegressionData.at_. now rewrite E, Nat2N.id, nth_middle. Qed.

Lemma map_loop_from d : forall rest done (l : Lib),
  RegressionData.samples d = done ++ rest ->
  all_succeed (predictions (inputs_of rest) l) = true ->
  exists l1 t,
    for_range (List.length rest) (N.of_nat (List.length done)) (map_sample d) tt l
    = (Ret tt, l1, t)
    /\ file_text t = results_text (result_rows rest l)
    /\ lib_calls t = map Predict (inputs_of rest).
Proof.
  induction rest as [| s rest IH]; intros done l E Hall.
  - exists l, []. auto.
  - cbn [List.length for_range]. cbn in Hall.
    destruct (GestureRecognitionPipeline.predict (RegressionData.getInputVector s) l)
      as [ok l1] eqn:Hp.
    cbn in Hall. apply andb_prop in Hall. destruct Hall as [-> Hall].
    destruct (IH (done ++ [s]) l1) as (l2 & t & Hrun & Htext & Hcalls); auto.
    { now rewrite <- app_assoc. }
    rewrite length_app, Nat.add_1_r, Nat2N.inj_succ in Hrun.
    unfold bind. rewrite (map_sample_ok d _ l l1); rewrite (at_middle d done s rest E); auto.
    rewrite Hrun. eexists _, _. split; [reflexivity |]. split.
    + rewrite file_text_app.
      change (file_text (Call ?c ?r :: ?x)) with (file_text x).
      rewrite row_events_text, Htext.
      unfold result_rows, inputs_of. cbn [map predictions]. rewrite Hp. reflexivity.
    + rewrite lib_calls_app, Hcalls. unfold row_events.
      change (lib_calls (Call ?c ?r :: ?x)) with (c :: lib_calls x).
      rewrite !lib_calls_app, !lib_calls_outs. reflexivity.
Qed.

Lemma map_loop_run d (l : Lib) :
  all_succeed (predictions (inputs_of (RegressionData.samples d)) l) = true ->
  exists l1 t,
    map_loop d l = (Ret tt, l1, t)
    /\ file_text t = results_text (result_rows (RegressionData.samples d) l)
    /\ lib_calls t = map Predict (inputs_of (RegressionData.samples d)).
Proof.
  intros H. unfold map_loop, for_UINT, RegressionData.getNumSamples.
  rewrite N.sub_0_r, Nat2N.id.
  exact (map_loop_from d (RegressionData.samples d) [] l eq_refl H).
Qed.

Lemma predictions_length xs : forall l : Lib, List.length (predictions xs l) = List.length xs.
Proof.
  induction xs as [| x xs IH]; intros l; cbn; [reflexivity |].
  destruct (GestureRecognitionPipeline.predict x l). cbn. now rewrite IH.
Qed.

Lemma result_rows_length samples (l : Lib) :
  List.length (result_rows samples l) = List.length samples.
Proof.
  unfold result_rows, inputs_of.
  rewrite length_combine, !length_map, predictions_length, length_map.
  apply Nat.min_id.
Qed.

Lemma columns_newlines v :
  (forall x, count_char newline (put_double x) = 0) ->
  count_char newline (columns v) = 0.
Proof.
  intros H. unfold columns, text_of.
  induction v as [| x v IH]; cbn [map fold_right]; [reflexivity |].
  rewrite !count_char_app, H, IH. reflexivity.
Qed.

Lemma results_text_newlines rows :
  (forall x, count_char newline (put_double x) = 0) ->
  count_char newline (results_text rows) = List.length rows.
Proof.
  intros H. unfold results_text, text_of.
  induction rows as [| row rows IH]; cbn [map fold_right List.length]; [reflexivity |].
  rewrite count_char_app, IH. unfold results_line.
  rewrite !count_char_app, !columns_newlines by assumption. reflexivity.
Qed.

Lemma results_file_text argc argv (l l0 : Lib) testData t0 :
  load_and_train l = (Ret testData, l0, t0) ->
  all_succeed (predictions (inputs_of (RegressionData.samples testData)) l0) = true ->
  let r := run (main argc argv) l in
  exit_status r = EXIT_SUCCESS
  /\ file_text (trace r) = results_text (result_rows (RegressionData.samples testData) l0)
  /\ lib_calls (trace r)
     = lib_calls t0 ++ map Predict (inputs_of (RegressionData.samples testData)).
Proof.
  intros Hprep Hall r.
  destruct (map_loop_run testData l0 Hall) as (l1 & t & Hloop & Htext & Hcalls).
  assert (Hmain : main argc argv l
                  = (Ret EXIT_SUCCESS, l1,
                     t0 ++ FileOpen "MultidimensionalRegressionResultsData.txt"
                        :: t ++ [FileClose])).
  { unfold main. rewrite (bind_Ret _ _ _ _ _ _ Hprep).
    unfold write_results, bind. cbn [emit]. rewrite Hloop. reflexivity. }
  subst r. unfold run. rewrite Hmain. cbn [trace exit_status].
  split; [reflexivity |]. split.
  - rewrite file_text_app.
    rewrite (no_file_out_text t0).
    2:{ pose proof (load_and_train_no_file_out l) as H. now rewrite Hprep in H. }
    change (file_text (FileOpen ?n :: ?x)) with (file_text x).
    rewrite file_text_app, Htext. cbn. apply string_app_nil_r.
  - rewrite lib_calls_app.
    change (lib_calls (FileOpen ?n :: ?x)) with (lib_calls x).
    rewrite lib_calls_app, Hcalls. cbn. now rewrite app_nil_r.
Qed.

End RegressionRows.

Section ResultLines.
  Context {IO : Iostream}.

Lemma columns_app (a b : list double) : columns (a ++ b) = (columns a ++ columns b)%string.
Proof. unfold columns. now rewrite map_app, text_of_app. Qed.

Lemma results_line_values (row : list double * list double) :
  results_line row = (columns (fst row ++ snd row) ++ endl)%string.
Proof. unfold results_line. now rewrite columns_app, string_app_assoc. Qed.

Lemma columns_last (values : list double) :
  values <> [] ->
  exists body, columns values = (body ++ put_double (last values dzero) ++ tb)%string.
Proof.
  intros H. destruct (exists_last H) as (init & x & ->).
  exists (columns init). rewrite columns_app, last_last.
  unfold columns at 2. cbn. now rewrite string_app_nil_r.
Qed.

End ResultLines.

Section ResultRows.
  Context {Lib : Type} {GP : GestureRecognitionPipeline.Ops Lib}.

Lemma result_rows_nth samples : forall (l : Lib) i s,
  nth_error samples i = Some s ->
  exists ok out,
    nth_error (predictions (inputs_of samples) l) i = Some (ok, out)
    /\ nth_error (result_rows samples l) i = Some (out, RegressionData.getTargetVector s).
Proof.
  unfold result_rows, inputs_of.
  induction samples as [| s0 samples IH]; intros l i s H; [now destruct i |].
  cbn [map predictions].
  destruct (GestureRecognitionPipeline.predict (RegressionData.getInputVector s0) l)
    as [ok l1].
  destruct i as [| i]; cbn in H |- *.
  - inversion H; subst. eauto.
  - now apply IH.
Qed.

End ResultRows.

(** Decimal digits hold no line terminator, so neither does the scripted
    number format. *)
Lemma string_of_uint_newlines u : count_char newline (NilEmpty.string_of_uint u) = 0.
Proof. induction u; cbn; auto. Qed.

Lemma show_newlines x : count_char newline (Scripted.show x) = 0.
Proof.
  assert (U : forall n, count_char newline (put_UINT n) = 0).
  { intros n. unfold put_UINT, NilZero.string_of_uint.
    destruct (N.to_uint n); try reflexivity; apply string_of_uint_newlines. }
  assert (Z : forall z, count_char newline (Scripted.put_Z z) = 0).
  { intros z. unfold Scripted.put_Z, NilZero.string_of_int.
    destruct (Z.to_int z) as [u | u]; cbn [count_char Ascii.eqb];
      unfold NilZero.string_of_uint;
      destruct u; try reflexivity; apply string_of_uint_newlines. }
  destruct x as [[|] | [|] | | [|] m e]; try reflexivity;
    cbn [Scripted.show]; rewrite !count_char_app, U, Z; reflexivity.
Qed.

(** C6: when the driver reaches the results loop and every prediction on
    the test dataset succeeds, the text written to the results file is one
    line per test sample, in sample order; the line of a sample holds the
    components of the regression data predicted for its input vector, then
    the components of its target vector, each followed by a tab, and ends
    with the line terminator.  When numbers are formatted without line
    terminators, the file holds as many of them as there are samples. *)
Theorem C6_results_file_lines :
  forall Lib (IO : Iostream) (RD : RegressionData.Ops Lib) (TL : TrainingLog.Ops Lib)
         (GP : GestureRecognitionPipeline.Ops Lib) argc argv (l l0 : Lib) testData t0,
    MultidimensionalRegressionExample.load_and_train l = (Ret testData, l0, t0) ->
    all_succeed (predictions (inputs_of (RegressionData.samples testData)) l0) = true ->
    let r := run (MultidimensionalRegressionExample.main argc argv) l in
    let rows := result_rows (RegressionData.samples testData) l0 in
    file_text (trace r) = text_of (map results_line rows)
    /\ List.length rows = N.to_nat (RegressionData.getNumSamples testData)
    /\ (forall i s,
           nth_error (RegressionData.samples testData) i = Some s ->
           exists ok out,
             nth_error (predictions (inputs_of (RegressionData.samples testData)) l0) i
             = Some (ok, out)
             /\ nth_error rows i = Some (out, RegressionData.getTargetVector s)
             /\ results_line (out, RegressionData.getTargetVector s)
                = (columns out ++ columns (RegressionData.getTargetVector s) ++ endl)%string)
    /\ ((forall x, count_char newline (put_double x) = 0) ->
        count_char newline (file_text (trace r))
        = N.to_nat (RegressionData.getNumSamples testData)).
Proof.
  intros Lib IO RD TL GP argc argv l l0 testData t0 Hprep Hall r rows.
  destruct (results_file_text argc argv l l0 testData t0 Hprep Hall) as (_ & Hfile & _).
  fold r in Hfile. fold rows in Hfile.
  assert (Hlen : List.length rows = N.to_nat (RegressionData.getNumSamples testData)).
  { subst rows. rewrite result_rows_length. unfold RegressionData.getNumSamples.
    now rewrite Nat2N.id. }
  split; [exact Hfile |]. split; [exact Hlen |]. split.
  - intros i s Hi.
    destruct (result_rows_nth _ l0 i s Hi) as (ok & out & H1 & H2).
    exists ok, out. auto.
  - intros H. rewrite Hfile, <- Hlen. now apply results_text_newlines.
Qed.

Lemma C6_witness :
  let r := run (MultidimensionalRegressionExample.main 1 []) Inputs.matching in
  file_text (trace r)
  = text_of (map results_line
                 (result_rows (RegressionData.samples Inputs.data_2_3) Inputs.matching))
  /\ count_char newline (file_text (trace r)) = 2.
Proof.
  assert (Hprep : MultidimensionalRegressionExample.load_and_train Inputs.matching
                  = (Ret Inputs.data_2_3, Inputs.matching,
                     snd (MultidimensionalRegressionExample.load_and_train Inputs.matching)))
    by (vm_compute; reflexivity).
  destruct (C6_results_file_lines _ _ _ _ _ 1 [] _ _ _ _ Hprep)
    as (H1 & _ & _ & H4); [vm_compute; reflexivity |].
  split; [exact H1 | exact (H4 show_newlines)].
Defined.

(** C10: in the results file of such a run, every line is the text of its
    values, predicted then target, each immediately followed by a tab, and
    then the line terminator; so the last value of a line, the last target
    component included, is followed by a tab that stands immediately before
    the line terminator. *)
Theorem C10_trailing_tab :
  forall Lib (IO : Iostream) (RD : RegressionData.Ops Lib) (TL : TrainingLog.Ops Lib)
         (GP : GestureRecognitionPipeline.Ops Lib) argc argv (l l0 : Lib) testData t0,
    MultidimensionalRegressionExample.load_and_train l = (Ret testData, l0, t0) ->
    all_succeed (predictions (inputs_of (RegressionData.samples testData)) l0) = true ->
    let r := run (MultidimensionalRegressionExample.main argc argv) l in
    let rows := result_rows (RegressionData.samples testData) l0 in
    file_text (trace r) = text_of (map results_line rows)
    /\ Forall (fun row =>
                 let values := fst row ++ snd row in
                 results_line row
                 = (text_of (map (fun x => put_double x ++ tb)%string values) ++ endl)%string
                 /\ (values <> [] ->
                     exists body,
                       results_line row
                       = (body ++ put_double (last values dzero) ++ tb ++ endl)%string))
              rows.
Proof.
  intros Lib IO RD TL GP argc argv l l0 testData t0 Hprep Hall r rows.
  destruct (results_file_text argc argv l l0 testData t0 Hprep Hall) as (_ & Hfile & _).
  split; [exact Hfile |].
  apply Forall_forall. intros row _. cbv zeta. split.
  - apply results_line_values.
  - intros Hne. destruct (columns_last _ Hne) as (body & E).
    exists body. rewrite results_line_values, E. now rewrite !string_app_assoc.
Qed.

Lemma C10_witness :
  let r := run (MultidimensionalRegressionExample.main 1 []) Inputs.matching in
  Forall (fun row =>
            exists body,
              results_line row
              = (body ++ put_double (last (fst row ++ snd row) dzero) ++ tb ++ endl)%string)
         (result_rows (RegressionData.samples Inputs.data_2_3) Inputs.matching).
Proof.
  assert (Hprep : MultidimensionalRegressionExample.load_and_train Inputs.matching
                  = (Ret Inputs.data_2_3, Inputs.matching,
                     snd (MultidimensionalRegressionExample.load_and_train Inputs.matching)))
    by (vm_compute; reflexivity).
  destruct (C10_trailing_tab _ _ _ _ _ 1 [] _ _ _ _ Hprep)
    as (_ & H); [vm_compute; reflexivity |].
  cbv zeta in H. rewrite Forall_forall in H. apply Forall_forall. intros row Hin.
  apply (H row Hin).
  vm_compute in Hin. destruct Hin as [<- | [<- | []]]; discriminate.
Defined.

(** ** Partitioning a dataset *)

Lemma partition_indices_filter X n :
  SpecModel.partition_indices X n
  = (filter (fun i => (N.of_nat i <? SpecModel.threshold n X)%N) (seq 0 n),
     filter (fun i => negb (N.of_nat i <? SpecModel.threshold n X)%N) (seq 0 n)).
Proof. unfold SpecModel.partition_indices. apply partition_as_filter. Qed.

Lemma partition_samples X d :
  SpecModel.partition X d
  = (SpecModel.select d
       (fst (SpecModel.partition_indices X (List.length (ClassificationData.samples d)))),
     SpecModel.select d
       (snd (SpecModel.partition_indices X (List.length (ClassificationData.samples d))))).
Proof.
  unfold SpecModel.partition.
  now destruct (SpecModel.partition_indices X (List.length (ClassificationData.samples d))).
Qed.

Example partition_80_of_5 :
  SpecModel.partition_indices 80%N 5 = ([0; 1; 2; 3], [4]).
Proof. reflexivity. Qed.

(** C4, for the partition the specification describes: for every dataset
    and every percentage X, the sample counts of the two parts sum to the
    original count; the parts are the samples at two lists of positions of
    the original dataset that have no position in common, that together
    hold every position, and that hold none twice. *)
Theorem C4_partition_counts_and_indices :
  forall (X : UINT) (d : ClassificationData.t),
    let n := List.length (ClassificationData.samples d) in
    let train_indices := fst (SpecModel.partition_indices X n) in
    let test_indices := snd (SpecModel.partition_indices X n) in
    let train := fst (SpecModel.partition X d) in
    let test := snd (SpecModel.partition X d) in
    (ClassificationData.getNumSamples train + ClassificationData.getNumSamples test
     = ClassificationData.getNumSamples d)%N
    /\ ClassificationData.samples train
       = map (fun i => ClassificationData.at_ d (N.of_nat i)) train_indices
    /\ ClassificationData.samples test
       = map (fun i => ClassificationData.at_ d (N.of_nat i)) test_indices
    /\ (forall i, In i train_indices -> In i test_indices -> False)
    /\ (forall i, In i train_indices \/ In i test_indices <-> i < n)
    /\ NoDup train_indices /\ NoDup test_indices.
Proof.
  intros X d n train_indices test_indices train test.
  assert (Hp : SpecModel.partition_indices X n = (train_indices, test_indices)).
  { subst train_indices test_indices. now destruct (SpecModel.partition_indices X n). }
  assert (Htrain : ClassificationData.samples train
                   = map (fun i => ClassificationData.at_ d (N.of_nat i)) train_indices).
  { subst train. now rewrite partition_samples. }
  assert (Htest : ClassificationData.samples test
                  = map (fun i => ClassificationData.at_ d (N.of_nat i)) test_indices).
  { subst test. now rewrite partition_samples. }
  assert (Hn : ClassificationData.getNumSamples d = N.of_nat n) by reflexivity.
  clearbody train test train_indices test_indices n.
  assert (Htr : filter (fun i => (N.of_nat i <? SpecModel.threshold n X)%N) (seq 0 n)
                = train_indices).
  { pose proof (partition_indices_filter X n) as Hf. rewrite Hp in Hf. now inversion Hf. }
  assert (Hte : filter (fun i => negb (N.of_nat i <? SpecModel.threshold n X)%N) (seq 0 n)
                = test_indices).
  { pose proof (partition_indices_filter X n) as Hf. rewrite Hp in Hf. now inversion Hf. }
  unfold SpecModel.partition_indices in Hp.
  split; [| split; [exact Htrain | split; [exact Htest |]]].
  - unfold ClassificationData.getNumSamples at 1 2. rewrite Htrain, Htest, Hn.
    rewrite !length_map, <- Nat2N.inj_add. f_equal.
    apply partition_length in Hp. rewrite length_seq in Hp. lia.
  - split; [| split; [| split]].
    + intros i H1 H2. rewrite <- Htr in H1. rewrite <- Hte in H2.
      apply filter_In in H1, H2. destruct H1 as [_ H1], H2 as [_ H2].
      rewrite H1 in H2. discriminate.
    + intros i. rewrite <- (elements_in_partition _ _ Hp i), in_seq. lia.
    + rewrite <- Htr. apply NoDup_filter, seq_NoDup.
    + rewrite <- Hte. apply NoDup_filter, seq_NoDup.
Qed.

Local Open Scope Z_scope.

(** ** Binary64 arithmetic on sample counts *)

Lemma digits2_pos_size p : digits2_pos p = Pos.size p.
Proof. induction p as [p IH | p IH |]; cbn; congruence. Qed.

Lemma Zdigits2_log2 p : Zdigits2 (Zpos p) = Z.log2 (Zpos p) + 1.
Proof.
  cbn [Zdigits2]. rewrite digits2_pos_size.
  destruct p as [p | p |]; cbn [Pos.size Z.log2]; lia.
Qed.

Lemma digits_53 p : 2 ^ 52 <= Zpos p < 2 ^ 53 -> Zpos (digits2_pos p) = 53.
Proof.
  intros H. change (Zpos (digits2_pos p)) with (Zdigits2 (Zpos p)).
  rewrite Zdigits2_log2, (Z.log2_unique (Zpos p) 52); lia.
Qed.

Lemma digits_54 p : 2 ^ 53 <= Zpos p < 2 ^ 54 -> Zpos (digits2_pos p) = 54.
Proof.
  intros H. change (Zpos (digits2_pos p)) with (Zdigits2 (Zpos p)).
  rewrite Zdigits2_log2, (Z.log2_unique (Zpos p) 53); lia.
Qed.

Lemma digits_shift p j :
  0 <= j -> Zdigits2 (Zpos p * 2 ^ j) = Zpos (digits2_pos p) + j.
Proof.
  intros Hj. assert (H : 0 < 2 ^ j) by now apply Z.pow_pos_nonneg.
  destruct (Zpos p * 2 ^ j) as [| q | q] eqn:E; try lia.
  rewrite Zdigits2_log2, <- E, Z.log2_mul_pow2 by lia.
  change (Zpos (digits2_pos p)) with (Zdigits2 (Zpos p)). rewrite Zdigits2_log2. lia.
Qed.

Lemma iter_pos_nat {A} (f : A -> A) p x : iter_pos f p x = Nat.iter (Pos.to_nat p) f x.
Proof.
  revert x. induction p as [p IH | p IH |]; intros x; cbn [iter_pos].
  - rewrite !IH, Pos2Nat.inj_xI.
    replace (S (2 * Pos.to_nat p))%nat with (Pos.to_nat p + (Pos.to_nat p + 1))%nat by lia.
    now rewrite !Nat.iter_add.
  - rewrite !IH, Pos2Nat.inj_xO.
    replace (2 * Pos.to_nat p)%nat with (Pos.to_nat p + Pos.to_nat p)%nat by lia.
    now rewrite Nat.iter_add.
  - reflexivity.
Qed.

Lemma shr_1_double z :
  0 < z ->
  shr_1 {| shr_m := 2 * z; shr_r := false; shr_s := false |}
  = {| shr_m := z; shr_r := false; shr_s := false |}.
Proof. destruct z; try lia. reflexivity. Qed.

Lemma shr_exact_nat k : forall z,
  0 < z ->
  Nat.iter k shr_1 {| shr_m := z * 2 ^ Z.of_nat k; shr_r := false; shr_s := false |}
  = {| shr_m := z; shr_r := false; shr_s := false |}.
Proof.
  induction k as [| k IH]; intros z Hz.
  - cbn. now rewrite Z.mul_1_r.
  - rewrite Nat.iter_succ_r, Nat2Z.inj_succ, Z.pow_succ_r by lia.
    replace (z * (2 * 2 ^ Z.of_nat k)) with (2 * (z * 2 ^ Z.of_nat k)) by lia.
    rewrite shr_1_double; [now apply IH |].
    assert (0 < 2 ^ Z.of_nat k) by (apply Z.pow_pos_nonneg; lia). nia.
Qed.

Lemma shr_exact z e j :
  0 < z -> 0 <= j ->
  shr {| shr_m := z * 2 ^ j; shr_r := false; shr_s := false |} e j
  = ({| shr_m := z; shr_r := false; shr_s := false |}, e + j).
Proof.
  intros Hz Hj. destruct j as [| p | p]; try lia.
  - cbn [shr]. now rewrite Z.mul_1_r, Z.add_0_r.
  - cbn [shr]. rewrite iter_pos_nat. f_equal.
    rewrite <- (positive_nat_Z p) at 1. now apply shr_exact_nat.
Qed.

Lemma fexp_normal d : -1021 <= d -> fexp prec emax d = d - 53.
Proof. intros H. unfold fexp, emin, prec, emax. lia. Qed.

Lemma binary_round_aux_exact s m j e :
  2 ^ 52 <= Zpos m < 2 ^ 53 -> 0 <= j -> -1074 <= e + j <= 971 ->
  binary_round_aux prec emax s (Zpos m * 2 ^ j) e loc_Exact = S754_finite s m (e + j).
Proof.
  intros Hm Hj He. unfold binary_round_aux, shr_fexp.
  rewrite digits_shift, (digits_53 m), fexp_normal by lia.
  cbn [shr_record_of_loc].
  replace (53 + j + e - 53 - e) with j by lia.
  rewrite shr_exact by lia.
  cbn [shr_m loc_of_shr_record round_nearest_even Zdigits2 shr_record_of_loc].
  rewrite (digits_53 m), fexp_normal by lia.
  replace (53 + (e + j) - 53 - (e + j)) with 0 by lia.
  cbn [shr shr_m]. unfold emax, prec.
  destruct (Z.leb_spec (e + j) (1024 - 53)); [reflexivity | lia].
Qed.

Lemma iter_xO m k : Zpos (Pos.iter xO m k) = Zpos m * 2 ^ Zpos k.
Proof.
  induction k as [| k IH] using Pos.peano_ind.
  - cbn [Pos.iter]. rewrite Z.pow_1_r. lia.
  - rewrite Pos.iter_succ, Pos2Z.inj_succ, Z.pow_succ_r by lia.
    rewrite Pos2Z.inj_xO, IH. lia.
Qed.

Lemma shl_align_spec m e e' :
  e' <= e ->
  snd (shl_align m e e') = e'
  /\ Zpos (fst (shl_align m e e')) = Zpos m * 2 ^ (e - e').
Proof.
  intros H. unfold shl_align. destruct (e' - e) as [| k | k] eqn:E; try lia; cbn [fst snd].
  - replace (e - e') with 0 by lia. split; lia.
  - rewrite iter_xO. replace (e - e') with (Zpos k) by lia. split; lia.
Qed.

(** A mantissa with more than 53 digits whose low digits are all zero. *)
Lemma binary_round_wide s p e m j :
  Zpos p = Zpos m * 2 ^ j -> 0 <= j -> 2 ^ 52 <= Zpos m < 2 ^ 53 ->
  -1074 <= e + j <= 971 ->
  binary_round prec emax s p e = S754_finite s m (e + j).
Proof.
  intros Hp Hj Hm He. unfold binary_round.
  change (Zpos (digits2_pos p)) with (Zdigits2 (Zpos p)).
  rewrite Hp, digits_shift, (digits_53 m), fexp_normal by lia.
  unfold shl_align. replace (53 + j + e - 53 - e) with j by lia.
  destruct j as [| k | k]; try lia.
  - rewrite Hp. now apply binary_round_aux_exact.
  - rewrite Hp. now apply binary_round_aux_exact.
Qed.

(** A mantissa with at most 53 digits. *)
Lemma binary_round_narrow s p e m j :
  Zpos m = Zpos p * 2 ^ j -> 0 <= j -> 2 ^ 52 <= Zpos m < 2 ^ 53 ->
  -1074 <= e - j <= 971 ->
  binary_round prec emax s p e = S754_finite s m (e - j).
Proof.
  intros Hp Hj Hm He. unfold binary_round.
  assert (Hd : Zpos (digits2_pos p) = 53 - j).
  { pose proof (digits_shift p j Hj) as H. rewrite <- Hp in H.
    cbn [Zdigits2] in H. rewrite (digits_53 m) in H; lia. }
  rewrite Hd, fexp_normal by lia.
  replace (53 - j + e - 53) with (e - j) by lia.
  destruct (shl_align_spec p e (e - j)) as [H1 H2]; [lia |].
  destruct (shl_align p e (e - j)) as [mz ez]. cbn [fst snd] in H1, H2. subst ez.
  replace (e - (e - j)) with j in H2 by lia.
  assert (mz = m) by (apply Pos2Z.inj; congruence). subst mz.
  pose proof (binary_round_aux_exact s m 0 (e - j)) as H.
  rewrite Z.pow_0_r, Z.mul_1_r, Z.add_0_r in H. apply H; lia.
Qed.

Lemma normal_mantissa z :
  0 < z < 2 ^ 53 ->
  0 <= Z.log2 z <= 52
  /\ exists m, Zpos m = z * 2 ^ (52 - Z.log2 z) /\ 2 ^ 52 <= Zpos m < 2 ^ 53.
Proof.
  intros Hz.
  assert (Hl : 0 <= Z.log2 z <= 52).
  { split; [apply Z.log2_nonneg |].
    assert (Z.log2 z < 53) by (apply Z.log2_lt_pow2; lia). lia. }
  split; [exact Hl |].
  pose proof (Z.log2_spec z ltac:(lia)) as Hs.
  assert (Hpow : 2 ^ Z.log2 z * 2 ^ (52 - Z.log2 z) = 2 ^ 52).
  { rewrite <- Z.pow_add_r by lia. f_equal. lia. }
  assert (Hpow' : 2 ^ Z.succ (Z.log2 z) = 2 * 2 ^ Z.log2 z) by (apply Z.pow_succ_r; lia).
  assert (HB : 0 < 2 ^ (52 - Z.log2 z)) by (apply Z.pow_pos_nonneg; lia).
  assert (Hrange : 2 ^ 52 <= z * 2 ^ (52 - Z.log2 z) < 2 ^ 53).
  { change (2 ^ 53) with (2 * 2 ^ 52). rewrite <- Hpow. nia. }
  exists (Z.to_pos (z * 2 ^ (52 - Z.log2 z))).
  rewrite Z2Pos.id by lia. auto.
Qed.

Lemma double_of_Z_normal z :
  0 < z < 2 ^ 53 ->
  exists m,
    double_of_Z z = S754_finite false m (Z.log2 z - 52)
    /\ Zpos m = z * 2 ^ (52 - Z.log2 z)
    /\ 2 ^ 52 <= Zpos m < 2 ^ 53.
Proof.
  intros Hz. destruct (normal_mantissa z Hz) as (Hl & m & Hm & Hr).
  exists m. split; [| auto].
  destruct z as [| p | p]; try lia.
  unfold double_of_Z, binary_normalize.
  replace (Z.log2 (Zpos p) - 52) with (0 - (52 - Z.log2 (Zpos p))) by lia.
  apply binary_round_narrow; auto; lia.
Qed.

Lemma one_normal : one = S754_finite false 4503599627370496 (-52).
Proof. reflexivity. Qed.

Lemma dadd_one k :
  0 <= k -> k + 1 < 2 ^ 53 -> dadd (double_of_Z k) one = double_of_Z (k + 1).
Proof.
  intros H0 H1. destruct (Z.eq_dec k 0) as [-> | Hk]; [reflexivity |].
  destruct (double_of_Z_normal k ltac:(lia)) as (mk & Ek & Hmk & Hrk).
  destruct (double_of_Z_normal (k + 1) ltac:(lia)) as (m1 & E1 & Hm1 & Hr1).
  destruct (normal_mantissa k ltac:(lia)) as (Hlk & _).
  destruct (normal_mantissa (k + 1) ltac:(lia)) as (Hl1 & _).
  rewrite Ek, E1, one_normal. unfold dadd, SFadd.
  rewrite Z.min_r by lia.
  destruct (shl_align_spec mk (Z.log2 k - 52) (-52) ltac:(lia)) as [_ Ha].
  set (a := fst (shl_align mk (Z.log2 k - 52) (-52))) in *.
  replace (Z.log2 k - 52 - -52) with (Z.log2 k) in Ha by lia.
  change (fst (shl_align 4503599627370496 (-52) (-52))) with 4503599627370496%positive.
  cbn [cond_Zopp Z.add binary_normalize].
  assert (Hsum : Zpos (a + 4503599627370496) = Zpos m1 * 2 ^ Z.log2 (k + 1)).
  { rewrite Pos2Z.inj_add, Ha, Hmk, Hm1.
    rewrite <- !Z.mul_assoc, <- !Z.pow_add_r by lia.
    replace (52 - Z.log2 k + Z.log2 k) with 52 by lia.
    replace (52 - Z.log2 (k + 1) + Z.log2 (k + 1)) with 52 by lia.
    change (Zpos 4503599627370496) with (2 ^ 52). lia. }
  rewrite (binary_round_wide false _ (-52) m1 (Z.log2 (k + 1))); auto; try lia.
  f_equal. lia.
Qed.

(** *** Division of one count by another *)

Lemma div_eucl_div_mod a b : Z.div_eucl a b = (a / b, a mod b).
Proof. unfold Z.div, Z.modulo. now destruct (Z.div_eucl a b). Qed.

Lemma div_core m1 e1 m2 e2 :
  2 ^ 52 <= Zpos m1 < 2 ^ 53 -> 2 ^ 52 <= Zpos m2 < 2 ^ 53 ->
  -900 <= e1 - e2 <= 900 ->
  SFdiv_core_binary prec emax (Zpos m1) e1 (Zpos m2) e2
  = (Zpos m1 * 2 ^ 53 / Zpos m2, e1 - e2 - 53,
     new_location (Zpos m2) ((Zpos m1 * 2 ^ 53) mod Zpos m2)).
Proof.
  intros H1 H2 He. unfold SFdiv_core_binary. cbn [Zdigits2].
  rewrite (digits_53 m1), (digits_53 m2), fexp_normal by lia.
  replace (Z.min (53 + e1 - (53 + e2) - 53) (e1 - e2)) with (e1 - e2 - 53) by lia.
  replace (e1 - e2 - (e1 - e2 - 53)) with 53 by lia.
  rewrite Z.shiftl_mul_pow2 by lia. now rewrite div_eucl_div_mod.
Qed.

Lemma le_one_shape_leb x : le_one_shape x -> dleb dzero x = true /\ dleb x one = true.
Proof.
  intros (m & e & -> & H). split; [reflexivity |].
  rewrite one_normal. unfold dleb, SFleb, SFcompare.
  destruct H as [H | [-> ->]].
  - apply Z.compare_lt_iff in H. now rewrite H.
  - reflexivity.
Qed.

Lemma round_nearest_even_range m l : m <= round_nearest_even m l <= m + 1.
Proof. destruct l as [| []]; cbn; try destruct (Z.even m); lia. Qed.

Lemma shr_m_of_loc m l : shr_m (shr_record_of_loc m l) = m.
Proof. now destruct l as [| []]. Qed.

Lemma shr_1_m mrs : 0 <= shr_m mrs -> shr_m (shr_1 mrs) = Z.div2 (shr_m mrs).
Proof. destruct mrs as [[| [p | p |] | p] r s]; cbn; intros; try reflexivity; lia. Qed.

Lemma round_tail q e :
  2 ^ 52 <= q <= 2 ^ 53 -> -1000 <= e <= -53 ->
  le_one_shape
    (let '(mrs, e1) := shr_fexp prec emax q e loc_Exact in
     match shr_m mrs with
     | Z0 => S754_zero false
     | Zpos m => if Z.leb e1 (emax - prec) then S754_finite false m e1
                 else S754_infinity false
     | Zneg _ => S754_nan
     end).
Proof.
  intros Hq He. destruct (Z.eq_dec q (2 ^ 53)) as [-> | Hne].
  - unfold shr_fexp. cbn [Zdigits2 digits2_pos Z.pow Z.pow_pos Pos.iter Z.mul Pos.mul Pos.succ].
    rewrite fexp_normal by lia.
    replace (54 + e - 53 - e) with 1 by lia.
    cbn [shr iter_pos shr_record_of_loc shr_1 orb shr_m]. unfold emax, prec.
    destruct (Z.leb_spec (e + 1) (1024 - 53)); [| lia].
    exists 4503599627370496%positive, (e + 1). split; [reflexivity |]. lia.
  - destruct q as [| p | p]; try lia.
    unfold shr_fexp. cbn [Zdigits2]. rewrite (digits_53 p), fexp_normal by lia.
    replace (53 + e - 53 - e) with 0 by lia.
    cbn [shr shr_record_of_loc shr_m]. unfold emax, prec.
    destruct (Z.leb_spec e (1024 - 53)); [| lia].
    exists p, e. split; [reflexivity |]. lia.
Qed.

Lemma binary_round_aux_53 q e loc :
  2 ^ 52 <= q < 2 ^ 53 -> -1000 <= e <= -53 ->
  le_one_shape (binary_round_aux prec emax false q e loc).
Proof.
  intros Hq He. unfold binary_round_aux.
  assert (E : shr_fexp prec emax q e loc = (shr_record_of_loc q loc, e)).
  { destruct q as [| p | p]; try lia.
    unfold shr_fexp. cbn [Zdigits2]. rewrite (digits_53 p), fexp_normal by lia.
    now replace (53 + e - 53 - e) with 0 by lia. }
  rewrite E. apply round_tail; [| lia].
  pose proof (round_nearest_even_range (shr_m (shr_record_of_loc q loc))
                (loc_of_shr_record (shr_record_of_loc q loc))) as H.
  rewrite shr_m_of_loc in H |- *. lia.
Qed.

Lemma binary_round_aux_54 q e loc :
  2 ^ 53 <= q < 2 ^ 54 -> -1000 <= e <= -54 ->
  le_one_shape (binary_round_aux prec emax false q e loc).
Proof.
  intros Hq He. unfold binary_round_aux.
  assert (E : shr_fexp prec emax q e loc = (shr_1 (shr_record_of_loc q loc), e + 1)).
  { destruct q as [| p | p]; try lia.
    unfold shr_fexp. cbn [Zdigits2]. rewrite (digits_54 p), fexp_normal by lia.
    now replace (54 + e - 53 - e) with 1 by lia. }
  rewrite E. apply round_tail; [| lia].
  pose proof (round_nearest_even_range (shr_m (shr_1 (shr_record_of_loc q loc)))
                (loc_of_shr_record (shr_1 (shr_record_of_loc q loc)))) as H.
  rewrite shr_1_m, shr_m_of_loc in H |- * by (rewrite shr_m_of_loc; lia).
  rewrite Z.div2_div in H |- *.
  assert (2 ^ 52 <= q / 2 < 2 ^ 53).
  { split; [apply Z.div_le_lower_bound | apply Z.div_lt_upper_bound]; lia. }
  lia.
Qed.

Lemma new_location_zero n : new_location n 0 = loc_Exact.
Proof. unfold new_location. now destruct (Z.even n). Qed.

Lemma ddiv_le_one c n :
  0 < c <= n -> n < 2 ^ 53 ->
  le_one_shape (ddiv (double_of_Z c) (double_of_Z n)).
Proof.
  intros Hc Hn.
  destruct (double_of_Z_normal c ltac:(lia)) as (m1 & E1 & Hm1 & Hr1).
  destruct (double_of_Z_normal n ltac:(lia)) as (m2 & E2 & Hm2 & Hr2).
  destruct (normal_mantissa c ltac:(lia)) as (Hl1 & _).
  destruct (normal_mantissa n ltac:(lia)) as (Hl2 & _).
  assert (Hmono : Z.log2 c <= Z.log2 n) by (apply Z.log2_le_mono; lia).
  rewrite E1, E2. unfold ddiv, SFdiv. rewrite div_core by lia. cbn [xorb].
  set (q := Zpos m1 * 2 ^ 53 / Zpos m2).
  assert (Hq : 2 ^ 52 <= q < 2 ^ 54).
  { subst q. split; [apply Z.div_le_lower_bound | apply Z.div_lt_upper_bound]; lia. }
  destruct (Z.eq_dec (Z.log2 c) (Z.log2 n)) as [Heq | Hlt].
  - (* same binade: the mantissas are ordered as the counts *)
    assert (Hle : Zpos m1 <= Zpos m2).
    { rewrite Hm1, Hm2, Heq. apply Z.mul_le_mono_nonneg_r; [| lia].
      apply Z.pow_nonneg. lia. }
    replace (Z.log2 c - 52 - (Z.log2 n - 52) - 53) with (-53) by lia.
    destruct (Z.eq_dec (Zpos m1) (Zpos m2)) as [Em | Hm].
    + subst q. rewrite Em.
      rewrite Z.mul_comm, Z.div_mul, Z.mod_mul, new_location_zero by lia.
      exists 4503599627370496%positive, (-52). split; [reflexivity | lia].
    + apply binary_round_aux_53; [| lia].
      split; [lia |]. subst q. apply Z.div_lt_upper_bound; lia.
  - destruct (Z_lt_le_dec q (2 ^ 53)).
    + apply binary_round_aux_53; lia.
    + apply binary_round_aux_54; lia.
Qed.

(** The ratio of a count to a larger, non-zero count lies in [0, 1]. *)
Lemma count_ratio_bounds c n :
  0 <= c <= n -> 0 < n < 2 ^ 53 ->
  dleb dzero (ddiv (double_of_Z c) (double_of_Z n)) = true
  /\ dleb (ddiv (double_of_Z c) (double_of_Z n)) one = true.
Proof.
  intros Hc Hn. destruct (Z.eq_dec c 0) as [-> | Hc0].
  - destruct (double_of_Z_normal n Hn) as (m & -> & _). split; reflexivity.
  - apply le_one_shape_leb, ddiv_le_one; lia.
Qed.

Local Close Scope Z_scope.

(** ** The accuracy of the classifier driver *)

Section Accuracy.
  Context {Lib : Type} {IO : Iostream}
          {CD : ClassificationData.Ops Lib} {AN : ANBC.Ops Lib}.
  Import ANBCExample.

Lemma count_correct_le samples : forall answers,
  count_correct samples answers <= List.length samples.
Proof.
  induction samples as [| s samples IH]; intros [| [ok p] answers]; cbn; try lia.
  specialize (IH answers). destruct (N.eqb _ _); lia.
Qed.

Lemma incremented_zero k :
  (Z.of_nat k < 2 ^ 53)%Z -> incremented k dzero = double_of_Z (Z.of_nat k).
Proof.
  unfold incremented. induction k as [| k IH]; intros H; [reflexivity |].
  rewrite Nat.iter_succ, IH by lia. rewrite dadd_one by lia. f_equal. lia.
Qed.

Lemma class_at_middle d done s rest :
  ClassificationData.samples d = done ++ s :: rest ->
  ClassificationData.at_ d (N.of_nat (List.length done)) = s.
Proof. intros E. unfold ClassificationData.at_. now rewrite E, Nat2N.id, nth_middle. Qed.

Lemma test_loop_from d : forall rest done accuracy (l : Lib),
  ClassificationData.samples d = done ++ rest ->
  match for_range (List.length rest) (N.of_nat (List.length done))
                  (test_sample d) accuracy l with
  | (Ret a, _, t) =>
      forallb fst (classifications rest l) = true
      /\ a = incremented (correct_predictions rest l) accuracy
      /\ lib_calls t = map (fun s => Predict (ClassificationData.getSample s)) rest
  | (Exit _, _, _) => forallb fst (classifications rest l) = false
  end.
Proof.
  induction rest as [| s rest IH]; intros done accuracy l E.
  - cbn. auto.
  - cbn [List.length for_range]. unfold bind at 1. unfold test_sample at 1.
    rewrite (class_at_middle d done s rest E).
    unfold bind at 1. unfold call_bool.
    unfold correct_predictions. cbn [classifications map].
    destruct (ANBC.predict (ClassificationData.getSample s) l) as [[|] l1].
    + cbn [when negb ret]. unfold bind at 1. unfold bind at 1. cbn [get].
      unfold bind at 1. cbn [get]. unfold bind at 1. cbn [get].
      unfold bind at 1. cbn [cout emit ret].
      specialize (IH (done ++ [s])
                     (if (ClassificationData.getClassLabel s
                          =? ANBC.getPredictedClassLabel l1)%N
                      then dadd accuracy one else accuracy) l1).
      rewrite <- app_assoc, length_app, Nat.add_1_r, Nat2N.inj_succ in IH.
      specialize (IH E).
      destruct (for_range _ _ _ _ l1) as [[[a | c] l2] t].
      * destruct IH as (H1 & H2 & H3). cbn [forallb fst andb count_correct].
        split; [exact H1 |]. split.
        -- rewrite H2. unfold incremented, correct_predictions.
           destruct (N.eqb _ _); cbn [Nat.add]; [now rewrite Nat.iter_succ_r | reflexivity].
        -- rewrite lib_calls_app, H3. reflexivity.
      * cbn [forallb fst andb]. exact IH.
    + reflexivity.
Qed.

Lemma test_loop_run d (l : Lib) :
  match test_loop d l with
  | (Ret a, _, t) =>
      forallb fst (classifications (ClassificationData.samples d) l) = true
      /\ a = incremented (correct_predictions (ClassificationData.samples d) l) dzero
      /\ lib_calls t
         = map (fun s => Predict (ClassificationData.getSample s)) (ClassificationData.samples d)
  | (Exit _, _, _) =>
      forallb fst (classifications (ClassificationData.samples d) l) = false
  end.
Proof.
  unfold test_loop, for_UINT, ClassificationData.getNumSamples.
  rewrite N.sub_0_r, Nat2N.id.
  exact (test_loop_from d (ClassificationData.samples d) [] dzero l eq_refl).
Qed.

Lemma main_after_prepare argc argv (l l0 l1 : Lib) testData t0 accuracy t :
  prepare l = (Ret testData, l0, t0) ->
  test_loop testData l0 = (Ret accuracy, l1, t) ->
  run (main argc argv) l
  = {| exit_status := EXIT_SUCCESS;
       final := l1;
       trace := t0 ++ t
                ++ [Cout ("Test Accuracy: "
                            ++ put_double (accuracy_percent accuracy
                                             (ClassificationData.getNumSamples testData))
                            ++ "%" ++ endl)] |}.
Proof.
  intros Hprep Hloop. unfold run, main. rewrite (bind_Ret _ _ _ _ _ _ Hprep).
  unfold evaluate. rewrite (bind_Ret _ _ _ _ _ _ Hloop).
  unfold bind. cbn [cout emit ret]. now rewrite app_nil_r.
Qed.

End Accuracy.

(** C5, at a dataset file without samples: the test dataset is empty, the
    driver computes 0/0, and the ratio, not a number, compares neither
    above 0 nor below 1. *)
Lemma C5_counterexample :
  let testData := snd (SpecModel.partition 80%N ClassifierInputs.no_samples) in
  let n := ClassificationData.getNumSamples testData in
  ANBCExample.prepare ClassifierInputs.empty_file
  = (Ret testData, ClassifierInputs.empty_file,
     snd (ANBCExample.prepare ClassifierInputs.empty_file))
  /\ ANBCExample.test_loop testData ClassifierInputs.empty_file
     = (Ret dzero, ClassifierInputs.empty_file, [])
  /\ correct_predictions (ClassificationData.samples testData) ClassifierInputs.empty_file = 0
  /\ n = 0%N
  /\ ANBCExample.accuracy_ratio dzero n = S754_nan
  /\ dleb dzero (ANBCExample.accuracy_ratio dzero n) = false
  /\ dleb (ANBCExample.accuracy_ratio dzero n) one = false
  /\ exit_status (run (ANBCExample.main 1 []) ClassifierInputs.empty_file) = EXIT_SUCCESS
  /\ cout_text (trace (run (ANBCExample.main 1 []) ClassifierInputs.empty_file))
     = ("Test Accuracy: nan%" ++ nl)%string.
Proof. cbv zeta. repeat split; vm_compute; reflexivity. Qed.

(** C5, amended: for every non-empty test dataset (of at most [UINT_MAX]
    samples) on which the test loop completes, the value of [accuracy] is
    the number of test samples whose predicted class label equals their
    class label; the ratio [accuracy/double(numSamples)] is the quotient of
    that number by the number of test samples, and lies in [0, 1]; the
    driver prints that ratio times 100. *)
Theorem C5_accuracy_ratio_nonempty :
  forall Lib (IO : Iostream) (CD : ClassificationData.Ops Lib) (AN : ANBC.Ops Lib)
         argc argv (l l0 l1 : Lib) testData t0 accuracy t,
    ANBCExample.prepare l = (Ret testData, l0, t0) ->
    ANBCExample.test_loop testData l0 = (Ret accuracy, l1, t) ->
    (0 < ClassificationData.getNumSamples testData <= UINT_MAX)%N ->
    let n := ClassificationData.getNumSamples testData in
    let correct := N.of_nat (correct_predictions (ClassificationData.samples testData) l0) in
    accuracy = double_of_UINT correct
    /\ (correct <= n)%N
    /\ ANBCExample.accuracy_ratio accuracy n = ddiv (double_of_UINT correct) (double_of_UINT n)
    /\ dleb dzero (ANBCExample.accuracy_ratio accuracy n) = true
    /\ dleb (ANBCExample.accuracy_ratio accuracy n) one = true
    /\ trace (run (ANBCExample.main argc argv) l)
       = t0 ++ t
         ++ [Cout ("Test Accuracy: "
                     ++ put_double (dmul (ANBCExample.accuracy_ratio accuracy n)
                                         (double_of_Z 100))
                     ++ "%" ++ endl)].
Proof.
  intros Lib IO CD AN argc argv l l0 l1 testData t0 accuracy t Hprep Hloop Hn n correct.
  pose proof (test_loop_run testData l0) as Hrun. rewrite Hloop in Hrun.
  destruct Hrun as (_ & Hacc & _).
  pose proof (count_correct_le (ClassificationData.samples testData)
                (classifications (ClassificationData.samples testData) l0)) as Hle.
  fold (correct_predictions (ClassificationData.samples testData) l0) in Hle.
  assert (Hn' : n = N.of_nat (List.length (ClassificationData.samples testData)))
    by reflexivity.
  unfold UINT_MAX in Hn. fold n in Hn.
  assert (Hcn : (correct <= n)%N) by (subst correct; lia).
  assert (Eacc : accuracy = double_of_UINT correct).
  { rewrite Hacc, incremented_zero by lia.
    unfold double_of_UINT, correct. now rewrite nat_N_Z. }
  split; [exact Eacc |]. split; [exact Hcn |].
  assert (Eratio : ANBCExample.accuracy_ratio accuracy n
                   = ddiv (double_of_UINT correct) (double_of_UINT n)).
  { unfold ANBCExample.accuracy_ratio. now rewrite Eacc. }
  split; [exact Eratio |].
  destruct (count_ratio_bounds (Z.of_N correct) (Z.of_N n)) as [Hlo Hhi]; [lia | lia |].
  split; [rewrite Eratio; exact Hlo |]. split; [rewrite Eratio; exact Hhi |].
  now rewrite (main_after_prepare argc argv l l0 l1 testData t0 accuracy t Hprep Hloop).
Qed.

Lemma C5_witness :
  let l := ClassifierInputs.half_right in
  let n := ClassificationData.getNumSamples ClassifierInputs.two_test_samples in
  let accuracy := double_of_UINT 1%N in
  accuracy = double_of_UINT
               (N.of_nat (correct_predictions
                            (ClassificationData.samples ClassifierInputs.two_test_samples) l))
  /\ dleb dzero (ANBCExample.accuracy_ratio accuracy n) = true
  /\ dleb (ANBCExample.accuracy_ratio accuracy n) one = true.
Proof.
  assert (Hprep : ANBCExample.prepare ClassifierInputs.half_right
                  = (Ret ClassifierInputs.two_test_samples, ClassifierInputs.half_right,
                     snd (ANBCExample.prepare ClassifierInputs.half_right)))
    by (vm_compute; reflexivity).
  assert (Hloop : ANBCExample.test_loop ClassifierInputs.two_test_samples
                    ClassifierInputs.half_right
                  = (Ret (double_of_UINT 1%N),
                     snd (fst (ANBCExample.test_loop ClassifierInputs.two_test_samples
                                 ClassifierInputs.half_right)),
                     snd (ANBCExample.test_loop ClassifierInputs.two_test_samples
                            ClassifierInputs.half_right)))
    by (vm_compute; reflexivity).
  destruct (C5_accuracy_ratio_nonempty _ _ _ _ 1 [] _ _ _ _ _ _ _ Hprep Hloop)
    as (H1 & _ & _ & H4 & H5 & _); [vm_compute; split; congruence |].
  cbv zeta. auto.
Defined.

(** C9: when the test dataset that [partition] returned holds no sample,
    the test loop makes no iteration (no toolkit call, no output,
    [accuracy] still 0) and the accuracy expression divides zero by zero:
    the ratio is not a number, and the driver still prints it and exits
    with [EXIT_SUCCESS], there being no guard.  So a ratio that is a number
    requires a non-empty test dataset. *)
Theorem C9_empty_test_set_divides_zero_by_zero :
  forall Lib (IO : Iostream) (CD : ClassificationData.Ops Lib) (AN : ANBC.Ops Lib)
         argc argv (l l0 : Lib) testData t0,
    ANBCExample.prepare l = (Ret testData, l0, t0) ->
    let n := ClassificationData.getNumSamples testData in
    (n = 0%N ->
     ANBCExample.test_loop testData l0 = (Ret dzero, l0, [])
     /\ double_of_UINT n = S754_zero false
     /\ ANBCExample.accuracy_ratio dzero n = ddiv (S754_zero false) (S754_zero false)
     /\ ANBCExample.accuracy_ratio dzero n = S754_nan
     /\ run (ANBCExample.main argc argv) l
        = {| exit_status := EXIT_SUCCESS;
             final := l0;
             trace := t0 ++ [Cout ("Test Accuracy: " ++ put_double S754_nan ++ "%" ++ endl)] |})
    /\ (forall accuracy l1 t,
           ANBCExample.test_loop testData l0 = (Ret accuracy, l1, t) ->
           is_nan (ANBCExample.accuracy_ratio accuracy n) = false ->
           n <> 0%N).
Proof.
  intros Lib IO CD AN argc argv l l0 testData t0 Hprep n.
  assert (Hzero : n = 0%N ->
                  ANBCExample.test_loop testData l0 = (Ret dzero, l0, [])).
  { intros Hn. unfold ANBCExample.test_loop. fold n. now rewrite Hn. }
  split.
  - intros Hn. specialize (Hzero Hn). split; [exact Hzero |].
    rewrite (main_after_prepare argc argv l l0 l0 testData t0 dzero [] Hprep Hzero).
    fold n. rewrite Hn. repeat split.
  - intros accuracy l1 t Hloop Hnan Hn.
    rewrite (Hzero Hn) in Hloop. inversion Hloop; subst accuracy.
    rewrite Hn in Hnan. discriminate Hnan.
Qed.

Lemma C9_witness :
  run (ANBCExample.main 1 []) ClassifierInputs.empty_file
  = {| exit_status := EXIT_SUCCESS;
       final := ClassifierInputs.empty_file;
       trace := snd (ANBCExample.prepare ClassifierInputs.empty_file)
                ++ [Cout ("Test Accuracy: " ++ put_double S754_nan ++ "%" ++ endl)] |}.
Proof.
  assert (Hprep : ANBCExample.prepare ClassifierInputs.empty_file
                  = (Ret (snd (SpecModel.partition 80%N ClassifierInputs.no_samples)),
                     ClassifierInputs.empty_file,
                     snd (ANBCExample.prepare ClassifierInputs.empty_file)))
    by (vm_compute; reflexivity).
  destruct (C9_empty_test_set_divides_zero_by_zero _ _ _ _ 1 [] _ _ _ _ Hprep)
    as [H _].
  destruct (H eq_refl) as (_ & _ & _ & _ & Hrun). exact Hrun.
Defined.

(** ** Outcomes of the regression driver *)

Lemma cout_text_app (t1 t2 : list event) :
  cout_text (t1 ++ t2) = (cout_text t1 ++ cout_text t2)%string.
Proof. unfold cout_text. now rewrite flat_map_app, text_of_app. Qed.

Lemma cout_text_outs {X} (f : X -> string) (v : list X) :
  cout_text (map (fun x => FileOut (f x)) v) = "".
Proof. induction v as [| x v IH]; cbn; auto. Qed.

Lemma row_events_cout {IO : Iostream} row : cout_text (row_events row) = "".
Proof.
  unfold row_events. rewrite !cout_text_app, !cout_text_outs. reflexivity.
Qed.

Lemma row_events_no_close {IO : Iostream} row :
  existsb is_file_close (row_events row) = false.
Proof.
  unfold row_events. rewrite !existsb_app.
  assert (H : forall v, existsb is_file_close
                          (map (fun x => FileOut (put_double x ++ tb)) v) = false).
  { induction v; cbn; auto. }
  now rewrite !H.
Qed.

Section RegressionOutcome.
  Context {Lib : Type} {IO : Iostream}
          {RD : RegressionData.Ops Lib} {TL : TrainingLog.Ops Lib}
          {GP : GestureRecognitionPipeline.Ops Lib}.
  Import MultidimensionalRegressionExample.

Lemma map_sample_failed d i (l l1 : Lib) :
  GestureRecognitionPipeline.predict
    (RegressionData.getInputVector (RegressionData.at_ d i)) l = (false, l1) ->
  map_sample d i tt l
  = (Exit EXIT_FAILURE, l1,
     [Call (Predict (RegressionData.getInputVector (RegressionData.at_ d i))) (Some false);
      Cout (map_failure_message i)]).
Proof. intros H. unfold map_sample, bind, call_bool. rewrite H. reflexivity. Qed.

(** The loop over the test samples, whatever the predictions answer. *)
Lemma map_loop_outcome d : forall rest done (l : Lib),
  RegressionData.samples d = done ++ rest ->
  let k := leading_successes (predictions (inputs_of rest) l) in
  exists r l1 t,
    for_range (List.length rest) (N.of_nat (List.length done)) (map_sample d) tt l
    = (r, l1, t)
    /\ file_text t = results_text (firstn k (result_rows rest l))
    /\ existsb is_file_close t = false
    /\ (k = List.length rest ->
        r = Ret tt /\ cout_text t = ""
        /\ lib_calls t = map Predict (inputs_of rest))
    /\ (k < List.length rest ->
        r = Exit EXIT_FAILURE
        /\ cout_text t = map_failure_message (N.of_nat (List.length done + k))
        /\ lib_calls t = map Predict (firstn (S k) (inputs_of rest))).
Proof.
  induction rest as [| s rest IH]; intros done l E k.
  - exists (Ret tt), l, []. cbn. repeat split; auto; intros; lia.
  - subst k. cbn [List.length for_range inputs_of map predictions].
    destruct (GestureRecognitionPipeline.predict (RegressionData.getInputVector s) l)
      as [[|] l1] eqn:Hp; cbn [leading_successes].
    + destruct (IH (done ++ [s]) l1) as (r & l2 & t & Hrun & Htext & Hclose & Hok & Hfail).
      { now rewrite <- app_assoc. }
      rewrite length_app, Nat.add_1_r, Nat2N.inj_succ in Hrun.
      unfold bind. rewrite (map_sample_ok d _ l l1); rewrite (at_middle d done s rest E); auto.
      rewrite Hrun.
      set (row := (GestureRecognitionPipeline.getRegressionData l1,
                   RegressionData.getTargetVector s)).
      assert (Hrows : result_rows (s :: rest) l = row :: result_rows rest l1).
      { unfold result_rows, inputs_of. cbn [map predictions]. now rewrite Hp. }
      exists r, l2, ((Call (Predict (RegressionData.getInputVector s)) (Some true)
                        :: row_events row) ++ t).
      split; [reflexivity |]. split; [| split; [| split]].
      * rewrite file_text_app.
        change (file_text (Call ?c ?x :: ?y)) with (file_text y).
        rewrite row_events_text, Htext, Hrows. reflexivity.
      * rewrite existsb_app. cbn [existsb is_file_close orb].
        now rewrite row_events_no_close, Hclose.
      * intros Hk. unfold inputs_of in *. destruct Hok as (-> & Hc & Hl); [lia |].
        split; [reflexivity |]. split.
        -- rewrite cout_text_app.
           change (cout_text (Call ?c ?x :: ?y)) with (cout_text y).
           now rewrite row_events_cout, Hc.
        -- rewrite lib_calls_app.
           change (lib_calls (Call ?c ?x :: ?y)) with (c :: lib_calls y).
           unfold row_events. rewrite !lib_calls_app, !lib_calls_outs, Hl. reflexivity.
      * intros Hk. unfold inputs_of in *. destruct Hfail as (-> & Hc & Hl); [lia |].
        split; [reflexivity |]. split.
        -- rewrite cout_text_app.
           change (cout_text (Call ?c ?x :: ?y)) with (cout_text y).
           rewrite row_events_cout, Hc, length_app. cbn [List.length].
           cbn [String.append]. f_equal. lia.
        -- rewrite lib_calls_app.
           change (lib_calls (Call ?c ?x :: ?y)) with (c :: lib_calls y).
           unfold row_events. rewrite !lib_calls_app, !lib_calls_outs, Hl. reflexivity.
    + unfold bind. rewrite (map_sample_failed d _ l l1); rewrite (at_middle d done s rest E); auto.
      exists (Exit EXIT_FAILURE), l1,
        [Call (Predict (RegressionData.getInputVector s)) (Some false);
         Cout (map_failure_message (N.of_nat (List.length done)))].
      split; [reflexivity |].
      split; [reflexivity |]. split; [reflexivity |]. split.
      * intros Hk. discriminate Hk.
      * intros _. rewrite Nat.add_0_r. split; [reflexivity |]. split.
        -- cbn. now rewrite string_app_nil_r.
        -- reflexivity.
Qed.

Lemma load_and_train_no_file_event :
  emits (fun e => is_file_event e = false) load_and_train.
Proof.
  unfold load_and_train.
  repeat first [ emits_step | apply emits_when; intros _ ].
Qed.

Lemma map_loop_writes_only d :
  emits (fun e => match e with FileOpen _ | FileClose => False | _ => True end)
        (map_loop d).
Proof.
  unfold map_loop, map_sample.
  repeat first
    [ apply emits_for_UINT; intros ? ?
    | apply emits_bind; [| intros ?]
    | apply emits_when; intros _
    | apply write_vector_emits; intros; exact I
    | apply emits_call_bool; intros; exact I
    | apply emits_cout; exact I
    | apply emits_emit; exact I
    | apply emits_get | apply emits_Return | apply emits_ret ].
Qed.

(** What the driver calls before the results loop, on every path. *)
Lemma load_and_train_calls (l : Lib) :
  match load_and_train l with
  | (Ret _, _, t) => lib_calls t = regression_setup_calls
  | (Exit c, _, t) =>
      c = EXIT_FAILURE
      /\ exists rest, regression_setup_calls = lib_calls t ++ rest
  end.
Proof.
  unfold load_and_train, bind, call_void, call_fill, call_bool.
  destruct (RegressionData.loadDatasetFromFile _ _) as [[[|] d1] l1]; cbn [when negb ret].
  2:{ cbn. split; [reflexivity |]. eexists. reflexivity. }
  destruct (RegressionData.loadDatasetFromFile _ l1) as [[[|] d2] l2]; cbn [when negb ret].
  2:{ cbn. split; [reflexivity |]. eexists. reflexivity. }
  destruct (input_dimensions_differ d1 d2); cbn [when ret].
  { cbn. split; [reflexivity |]. eexists. reflexivity. }
  rewrite target_guard_false. cbn [when ret cout emit].
  destruct (GestureRecognitionPipeline.train d1 _) as [[|] l3]; cbn [when negb ret cout emit].
  2:{ cbn. split; [reflexivity |]. eexists. reflexivity. }
  destruct (GestureRecognitionPipeline.savePipelineToFile _ l3) as [[|] l4];
    cbn [when negb ret cout emit].
  2:{ cbn. split; [reflexivity |]. eexists. reflexivity. }
  destruct (GestureRecognitionPipeline.loadPipelineFromFile _ l4) as [[|] l5];
    cbn [when negb ret cout emit].
  2:{ cbn. split; [reflexivity |]. eexists. reflexivity. }
  destruct (GestureRecognitionPipeline.test d2 l5) as [[|] l6];
    cbn [when negb ret cout emit get].
  2:{ cbn. split; [reflexivity |]. eexists. reflexivity. }
  reflexivity.
Qed.


Lemma map_loop_outcome_run d (l : Lib) :
  let k := leading_successes (predictions (inputs_of (RegressionData.samples d)) l) in
  exists r l1 t,
    map_loop d l = (r, l1, t)
    /\ file_text t = results_text (firstn k (result_rows (RegressionData.samples d) l))
    /\ existsb is_file_close t = false
    /\ (k = List.length (RegressionData.samples d) ->
        r = Ret tt /\ cout_text t = ""
        /\ lib_calls t = map Predict (inputs_of (RegressionData.samples d)))
    /\ (k < List.length (RegressionData.samples d) ->
        r = Exit EXIT_FAILURE
        /\ cout_text t = map_failure_message (N.of_nat k)
        /\ lib_calls t = map Predict (firstn (S k) (inputs_of (RegressionData.samples d)))).
Proof.
  unfold map_loop, for_UINT, RegressionData.getNumSamples.
  rewrite N.sub_0_r, Nat2N.id.
  exact (map_loop_outcome d (RegressionData.samples d) [] l eq_refl).
Qed.

Lemma regression_main_run argc argv (l l0 l1 : Lib) d t0 r t :
  load_and_train l = (Ret d, l0, t0) ->
  map_loop d l0 = (r, l1, t) ->
  run (main argc argv) l
  = {| exit_status := match r with Ret _ => EXIT_SUCCESS | Exit c => c end;
       final := l1;
       trace := t0 ++ FileOpen "MultidimensionalRegressionResultsData.txt"
                   :: t ++ match r with Ret _ => [FileClose] | Exit _ => [] end |}.
Proof.
  intros Hprep Hloop. unfold run, main. rewrite (bind_Ret _ _ _ _ _ _ Hprep).
  unfold write_results, bind. cbn [emit]. rewrite Hloop.
  destruct r as [[] | c]; cbn; now rewrite ?app_nil_r.
Qed.

Lemma regression_main_stops argc argv (l l0 : Lib) c t0 :
  load_and_train l = (Exit c, l0, t0) ->
  run (main argc argv) l = {| exit_status := c; final := l0; trace := t0 |}.
Proof. intros H. unfold run, main, bind. now rewrite H. Qed.

Lemma map_loop_failed_call d n : forall i (l l1 : Lib) c t,
  for_range n i (map_sample d) tt l = (Exit c, l1, t) ->
  exists x, In (Call (Predict x) (Some false)) t.
Proof.
  induction n as [| n IH]; intros i l l1 c t; cbn [for_range].
  - discriminate.
  - unfold bind at 1.
    destruct (GestureRecognitionPipeline.predict
                (RegressionData.getInputVector (RegressionData.at_ d i)) l)
      as [[|] l2] eqn:Hp.
    + rewrite (map_sample_ok d i l l2 Hp).
      destruct (for_range n _ _ _ l2) as [[[a | c'] l3] t'] eqn:Hrest; intros H; inversion H.
      destruct (IH _ _ _ _ _ Hrest) as [x Hx]. exists x.
      right. apply in_or_app. right. exact Hx.
    + rewrite (map_sample_failed d i l l2 Hp). intros H. inversion H.
      eexists. left. reflexivity.
Qed.

(** Why the driver stops before the results loop. *)
Lemma load_and_train_failure (l l0 : Lib) c t :
  load_and_train l = (Exit c, l0, t) ->
  (exists c', In (Call c' (Some false)) t)
  \/ (exists training test,
        training <> test
        /\ cout_text t = input_dimension_diagnostic training test
        /\ lib_calls t = regression_load_calls).
Proof.
  unfold load_and_train, bind, call_void, call_fill, call_bool.
  destruct (RegressionData.loadDatasetFromFile _ _) as [[[|] d1] l1]; cbn [when negb ret].
  2:{ intros H. inversion H. left. eexists. cbn. eauto. }
  destruct (RegressionData.loadDatasetFromFile _ l1) as [[[|] d2] l2]; cbn [when negb ret].
  2:{ intros H. inversion H. left. eexists. cbn. eauto. }
  destruct (input_dimensions_differ d1 d2) eqn:Hd; cbn [when ret].
  { intros H. inversion H. right.
    exists (RegressionData.getNumInputDimensions d1), (RegressionData.getNumInputDimensions d2).
    split; [| split; [| reflexivity]].
    - unfold input_dimensions_differ in Hd. apply negb_true_iff, N.eqb_neq in Hd. exact Hd.
    - cbn. now rewrite string_app_nil_r. }
  rewrite target_guard_false. cbn [when ret cout emit].
  destruct (GestureRecognitionPipeline.train d1 _) as [[|] l3]; cbn [when negb ret cout emit].
  2:{ intros H. inversion H. left. eexists. cbn. eauto 12. }
  destruct (GestureRecognitionPipeline.savePipelineToFile _ l3) as [[|] l4];
    cbn [when negb ret cout emit].
  2:{ intros H. inversion H. left. eexists. cbn. eauto 14. }
  destruct (GestureRecognitionPipeline.loadPipelineFromFile _ l4) as [[|] l5];
    cbn [when negb ret cout emit].
  2:{ intros H. inversion H. left. eexists. cbn. eauto 16. }
  destruct (GestureRecognitionPipeline.test d2 l5) as [[|] l6];
    cbn [when negb ret cout emit get].
  2:{ intros H. inversion H. left. eexists. cbn. eauto 18. }
  discriminate.
Qed.

End RegressionOutcome.

Lemma file_events_app t1 t2 : file_events (t1 ++ t2) = file_events t1 ++ file_events t2.
Proof. apply filter_app. Qed.

Lemma no_file_events t :
  Forall (fun e => is_file_event e = false) t -> file_events t = [].
Proof.
  induction 1 as [| e t He _ IH]; [reflexivity |].
  unfold file_events in *. cbn. now rewrite He.
Qed.

Lemma no_file_events_text t :
  Forall (fun e => is_file_event e = false) t ->
  file_text t = "" /\ existsb is_file_close t = false.
Proof.
  induction 1 as [| e t He _ [IH1 IH2]]; [split; reflexivity |].
  destruct e; try discriminate; split; assumption.
Qed.

Lemma only_writes t :
  Forall (fun e => match e with FileOpen _ | FileClose => False | _ => True end) t ->
  exists outs, file_events t = map FileOut outs.
Proof.
  induction 1 as [| e t He _ [outs IH]]; [now exists [] |].
  destruct e; try contradiction; unfold file_events in *; cbn; rewrite IH.
  - now exists outs.
  - now exists outs.
  - now exists (s :: outs).
Qed.

Lemma checked_run_outcome {Lib} (m : @M Lib Z) l :
  checked (eq EXIT_SUCCESS) m ->
  (exit_status (run m l) = EXIT_SUCCESS /\ Forall passes (trace (run m l)))
  \/ exit_status (run m l) = EXIT_FAILURE.
Proof.
  intros Hm. specialize (Hm l). unfold run.
  destruct (m l) as [[[a | code] l1] t]; cbn [exit_status trace].
  - destruct Hm as [Ht <-]. now left.
  - destruct Hm as [-> _]. now right.
Qed.

(** X1: when both dataset files load and the training data's number of
    input dimensions differs from the test data's, the regression driver
    stops at its first dimension guard: its only toolkit calls are the
    logging switch and the two loads, its console output is the
    input-dimension diagnostic with the two numbers, it does not touch the
    results file, and it exits with [EXIT_FAILURE]. *)
Theorem input_dimension_guard :
  forall Lib (IO : Iostream) (RD : RegressionData.Ops Lib) (TL : TrainingLog.Ops Lib)
         (GP : GestureRecognitionPipeline.Ops Lib)
         argc argv (l l1 l2 : Lib) trainingData testData,
    RegressionData.loadDatasetFromFile "MultidimensionalRegressionTrainingData.txt"
      (TrainingLog.enableLogging true l) = (true, trainingData, l1) ->
    RegressionData.loadDatasetFromFile "MultidimensionalRegressionTestData.txt" l1
      = (true, testData, l2) ->
    RegressionData.getNumInputDimensions trainingData
      <> RegressionData.getNumInputDimensions testData ->
    let r := run (MultidimensionalRegressionExample.main argc argv) l in
    exit_status r = EXIT_FAILURE
    /\ final r = l2
    /\ lib_calls (trace r) = regression_load_calls
    /\ cout_text (trace r)
       = input_dimension_diagnostic (RegressionData.getNumInputDimensions trainingData)
                                    (RegressionData.getNumInputDimensions testData)
    /\ file_events (trace r) = [].
Proof.
  intros Lib IO RD TL GP argc argv l l1 l2 trainingData testData H1 H2 Hd r.
  subst r. apply N.eqb_neq in Hd.
  unfold run, MultidimensionalRegressionExample.main,
    MultidimensionalRegressionExample.load_and_train, bind, call_void, call_fill.
  rewrite H1. cbn [when negb ret]. rewrite H2. cbn [when negb ret].
  unfold MultidimensionalRegressionExample.input_dimensions_differ.
  rewrite Hd. cbn. rewrite string_app_nil_r. auto.
Qed.

Lemma input_dimension_guard_witness :
  let r := run (MultidimensionalRegressionExample.main 1 []) RegressionInputs.mismatched_inputs in
  exit_status r = EXIT_FAILURE
  /\ lib_calls (trace r) = regression_load_calls
  /\ cout_text (trace r) = input_dimension_diagnostic 2%N 3%N
  /\ file_events (trace r) = [].
Proof.
  destruct (input_dimension_guard
              Scripted.pipeline _ _ _ _ 1 []
              RegressionInputs.mismatched_inputs
              RegressionInputs.mismatched_inputs RegressionInputs.mismatched_inputs
              Inputs.data_2_3 RegressionInputs.data_3_3)
    as (H1 & _ & H3 & H4 & H5);
    [reflexivity | reflexivity | vm_compute; discriminate |].
  cbv zeta. auto.
Defined.

(** X2: when the regression driver reaches the results loop and the
    prediction for test sample [k] is the first that fails, the text
    written to the results file is the lines of the samples before [k] and
    nothing more, and the [file.close()] statement is not executed; the
    driver adds the mapping diagnostic for index [k] to its console output,
    makes no toolkit call after the failed [predict], and exits with
    [EXIT_FAILURE]. *)
Theorem results_file_up_to_failure :
  forall Lib (IO : Iostream) (RD : RegressionData.Ops Lib) (TL : TrainingLog.Ops Lib)
         (GP : GestureRecognitionPipeline.Ops Lib) argc argv (l l0 : Lib) testData t0,
    MultidimensionalRegressionExample.load_and_train l = (Ret testData, l0, t0) ->
    let inputs := inputs_of (RegressionData.samples testData) in
    let k := leading_successes (predictions inputs l0) in
    k < List.length (RegressionData.samples testData) ->
    let r := run (MultidimensionalRegressionExample.main argc argv) l in
    exit_status r = EXIT_FAILURE
    /\ file_text (trace r)
       = results_text (firstn k (result_rows (RegressionData.samples testData) l0))
    /\ cout_text (trace r) = (cout_text t0 ++ map_failure_message (N.of_nat k))%string
    /\ lib_calls (trace r) = regression_setup_calls ++ map Predict (firstn (S k) inputs)
    /\ existsb is_file_close (trace r) = false.
Proof.
  intros Lib IO RD TL GP argc argv l l0 testData t0 Hprep inputs k Hk r.
  destruct (map_loop_outcome_run testData l0)
    as (res & l1 & t & Hloop & Htext & Hclose & _ & Hfail).
  destruct (Hfail Hk) as (-> & Hcout & Hcalls).
  subst r. rewrite (regression_main_run argc argv l l0 l1 testData t0 _ t Hprep Hloop).
  cbn [exit_status trace]. rewrite app_nil_r.
  pose proof (load_and_train_no_file_event l) as Hq. rewrite Hprep in Hq. cbn [snd] in Hq.
  destruct (no_file_events_text t0 Hq) as [Hq1 Hq2].
  pose proof (load_and_train_calls l) as Hc. rewrite Hprep in Hc.
  split; [reflexivity |]. split; [| split; [| split]].
  - rewrite file_text_app, Hq1.
    change (file_text (FileOpen ?n :: ?x)) with (file_text x). exact Htext.
  - rewrite cout_text_app.
    change (cout_text (FileOpen ?n :: ?x)) with (cout_text x). now rewrite Hcout.
  - rewrite lib_calls_app.
    change (lib_calls (FileOpen ?n :: ?x)) with (lib_calls x). now rewrite Hc, Hcalls.
  - rewrite existsb_app, Hq2. cbn [existsb is_file_close orb]. exact Hclose.
Qed.

Lemma results_file_up_to_failure_witness :
  let r := run (MultidimensionalRegressionExample.main 1 [])
               RegressionInputs.second_prediction_fails in
  exit_status r = EXIT_FAILURE
  /\ file_text (trace r)
     = results_text [([Scripted.d 1; Scripted.d 2; Scripted.d 3],
                      [Scripted.d 3; Scripted.d 4; Scripted.d 5])]
  /\ lib_calls (trace r)
     = regression_setup_calls
       ++ [Predict [Scripted.d 1; Scripted.d 2]; Predict [Scripted.d 6; Scripted.d 7]]
  /\ existsb is_file_close (trace r) = false.
Proof.
  assert (Hprep : MultidimensionalRegressionExample.load_and_train
                    RegressionInputs.second_prediction_fails
                  = (Ret Inputs.data_2_3, RegressionInputs.second_prediction_fails,
                     snd (MultidimensionalRegressionExample.load_and_train
                            RegressionInputs.second_prediction_fails)))
    by (vm_compute; reflexivity).
  destruct (results_file_up_to_failure _ _ _ _ _ 1 [] _ _ _ _ Hprep)
    as (H1 & H2 & _ & H4 & H5); [vm_compute; lia |].
  cbv zeta. split; [exact H1 |]. split; [exact H2 |]. split; [exact H4 | exact H5].
Defined.

(** X3: the operations of a run on the results [fstream].  A run that
    stops before the results loop performs none.  Any other run opens
    MultidimensionalRegressionResultsData.txt once, then only inserts, and
    executes [file.close()], once and last, exactly when it exits with
    [EXIT_SUCCESS]. *)
Theorem results_file_discipline :
  forall Lib (IO : Iostream) (RD : RegressionData.Ops Lib) (TL : TrainingLog.Ops Lib)
         (GP : GestureRecognitionPipeline.Ops Lib) argc argv (l : Lib),
    let r := run (MultidimensionalRegressionExample.main argc argv) l in
    match MultidimensionalRegressionExample.load_and_train l with
    | (Exit _, _, _) =>
        file_events (trace r) = [] /\ exit_status r = EXIT_FAILURE
    | (Ret _, _, _) =>
        exists outs,
          file_events (trace r)
          = FileOpen "MultidimensionalRegressionResultsData.txt"
              :: map FileOut outs
              ++ (if Z.eqb (exit_status r) EXIT_SUCCESS then [FileClose] else [])
    end.
Proof.
  intros Lib IO RD TL GP argc argv l r.
  pose proof (load_and_train_no_file_event l) as Hq.
  pose proof (load_and_train_calls l) as Hc.
  destruct (MultidimensionalRegressionExample.load_and_train l) as [[[d | c] l0] t0] eqn:Hprep;
    cbn [snd] in Hq.
  - destruct (MultidimensionalRegressionExample.map_loop d l0) as [[res l1] t] eqn:Hloop.
    pose proof (map_loop_writes_only d l0) as Hw. rewrite Hloop in Hw. cbn [snd] in Hw.
    destruct (only_writes t Hw) as [outs Houts].
    pose proof (map_sample_checked (Lib := Lib)) as Hchk.
    pose proof (checked_for_UINT 0%N (RegressionData.getNumSamples d)
                  (MultidimensionalRegressionExample.map_sample d) tt (Hchk d) l0) as Hex.
    fold (MultidimensionalRegressionExample.map_loop d) in Hex. rewrite Hloop in Hex.
    exists outs. subst r.
    rewrite (regression_main_run argc argv l l0 l1 d t0 res t Hprep Hloop).
    cbn [exit_status trace].
    rewrite file_events_app, (no_file_events t0 Hq). cbn [app].
    change (file_events (FileOpen ?n :: ?x)) with (FileOpen n :: file_events x).
    rewrite file_events_app, Houts.
    destruct res as [[] | c]; [reflexivity |].
    destruct Hex as [-> _]. reflexivity.
  - destruct Hc as [-> _]. subst r.
    rewrite (regression_main_stops argc argv l l0 _ t0 Hprep). cbn [exit_status trace].
    split; [now apply no_file_events | reflexivity].
Qed.

(** X4: the toolkit calls of any run of the regression driver are an
    initial segment of one fixed sequence: the ten set-up calls in program
    order, then one [predict] per test sample, in sample order, on the
    sample's input vector.  A run that exits with [EXIT_SUCCESS] has made
    all of them. *)
Theorem regression_call_order :
  forall Lib (IO : Iostream) (RD : RegressionData.Ops Lib) (TL : TrainingLog.Ops Lib)
         (GP : GestureRecognitionPipeline.Ops Lib) argc argv (l : Lib),
    let r := run (MultidimensionalRegressionExample.main argc argv) l in
    let inputs :=
      match MultidimensionalRegressionExample.load_and_train l with
      | (Ret testData, _, _) => inputs_of (RegressionData.samples testData)
      | (Exit _, _, _) => []
      end in
    exists rest,
      regression_setup_calls ++ map Predict inputs = lib_calls (trace r) ++ rest
      /\ (exit_status r = EXIT_SUCCESS -> rest = []).
Proof.
  intros Lib IO RD TL GP argc argv l r inputs.
  pose proof (load_and_train_calls l) as Hc.
  destruct (MultidimensionalRegressionExample.load_and_train l) as [[[d | c] l0] t0] eqn:Hprep.
  - destruct (map_loop_outcome_run d l0)
      as (res & l1 & t & Hloop & _ & _ & Hok & Hfail).
    subst r. rewrite (regression_main_run argc argv l l0 l1 d t0 res t Hprep Hloop).
    cbn [exit_status trace].
    rewrite lib_calls_app.
    change (lib_calls (FileOpen ?n :: ?x)) with (lib_calls x).
    rewrite lib_calls_app, Hc.
    set (k := leading_successes (predictions (inputs_of (RegressionData.samples d)) l0)) in *.
    assert (Hkn : k <= List.length (RegressionData.samples d)).
    { subst k. clear. generalize l0.
      induction (RegressionData.samples d) as [| s ss IH]; intros l; cbn; [lia |].
      destruct (GestureRecognitionPipeline.predict _ l) as [[|] l1]; cbn; [| lia].
      specialize (IH l1). unfold inputs_of in IH. lia. }
    destruct (Nat.eq_dec k (List.length (RegressionData.samples d))) as [Hk | Hk].
    + destruct (Hok Hk) as (-> & _ & ->). exists []. subst inputs.
      split; [| reflexivity]. cbn [lib_calls flat_map]. now rewrite ?app_nil_r.
    + destruct Hfail as (-> & _ & ->); [lia |].
      exists (map Predict (skipn (S k) inputs)). subst inputs. split.
      * cbn [lib_calls flat_map]. rewrite app_nil_r, <- app_assoc, <- map_app.
        now rewrite firstn_skipn.
      * discriminate.
  - destruct Hc as [-> [rest Hrest]]. subst r inputs.
    rewrite (regression_main_stops argc argv l l0 _ t0 Hprep). cbn [exit_status trace].
    exists rest. split; [cbn [map]; rewrite app_nil_r; exact Hrest | discriminate].
Qed.

(** X5: how a run of the regression driver ends.  Either it exits with
    [EXIT_SUCCESS] and no toolkit call returned false; or it exits with
    [EXIT_FAILURE] and a toolkit call returned false; or it exits with
    [EXIT_FAILURE] right after the two loads, having printed the
    input-dimension diagnostic for two different numbers. *)
Theorem regression_exit_status :
  forall Lib (IO : Iostream) (RD : RegressionData.Ops Lib) (TL : TrainingLog.Ops Lib)
         (GP : GestureRecognitionPipeline.Ops Lib) argc argv (l : Lib),
    let r := run (MultidimensionalRegressionExample.main argc argv) l in
    (exit_status r = EXIT_SUCCESS /\ forall c, ~ In (Call c (Some false)) (trace r))
    \/ (exit_status r = EXIT_FAILURE /\ exists c, In (Call c (Some false)) (trace r))
    \/ (exit_status r = EXIT_FAILURE
        /\ exists training test,
             training <> test
             /\ cout_text (trace r) = input_dimension_diagnostic training test
             /\ lib_calls (trace r) = regression_load_calls).
Proof.
  intros Lib IO RD TL GP argc argv l r.
  destruct (checked_run_outcome (MultidimensionalRegressionExample.main argc argv) l
              (regression_main_checked argc argv))
    as [[Hs Hpass] | Hf]; fold r in Hs, Hpass || fold r in Hf.
  - left. split; [exact Hs |]. intros c Hin. rewrite Forall_forall in Hpass.
    exact (passes_not_failed c (Hpass _ Hin)).
  - right. subst r.
    destruct (MultidimensionalRegressionExample.load_and_train l)
      as [[[d | c] l0] t0] eqn:Hprep.
    + left. split; [exact Hf |].
      destruct (MultidimensionalRegressionExample.map_loop d l0) as [[[a | c] l1] t] eqn:Hloop;
        rewrite (regression_main_run argc argv l l0 l1 d t0 _ t Hprep Hloop) in Hf |- *;
        cbn [exit_status trace] in Hf |- *; [discriminate |].
      unfold MultidimensionalRegressionExample.map_loop, for_UINT in Hloop.
      destruct (map_loop_failed_call d _ _ _ _ _ _ Hloop) as [x Hx].
      exists (Predict x). apply in_or_app. right. right. apply in_or_app. now left.
    + rewrite (regression_main_stops argc argv l l0 _ t0 Hprep) in Hf |- *.
      cbn [exit_status trace] in Hf |- *.
      destruct (load_and_train_failure l l0 c t0 Hprep) as [Hc | Hg].
      * left. auto.
      * right. auto.
Qed.

(** X6: a test dataset without samples.  The results loop makes no
    iteration: the results file is opened and closed with nothing written
    to it, no [predict] call is made, the toolkit is left as the set-up
    left it, and the driver exits with [EXIT_SUCCESS]. *)
Theorem empty_test_data_empty_results :
  forall Lib (IO : Iostream) (RD : RegressionData.Ops Lib) (TL : TrainingLog.Ops Lib)
         (GP : GestureRecognitionPipeline.Ops Lib) argc argv (l l0 : Lib) testData t0,
    MultidimensionalRegressionExample.load_and_train l = (Ret testData, l0, t0) ->
    RegressionData.samples testData = [] ->
    let r := run (MultidimensionalRegressionExample.main argc argv) l in
    exit_status r = EXIT_SUCCESS
    /\ final r = l0
    /\ file_events (trace r)
       = [FileOpen "MultidimensionalRegressionResultsData.txt"; FileClose]
    /\ lib_calls (trace r) = regression_setup_calls.
Proof.
  intros Lib IO RD TL GP argc argv l l0 testData t0 Hprep Hnil r.
  assert (Hloop : MultidimensionalRegressionExample.map_loop testData l0 = (Ret tt, l0, [])).
  { unfold MultidimensionalRegressionExample.map_loop, for_UINT, RegressionData.getNumSamples.
    rewrite Hnil. reflexivity. }
  subst r. rewrite (regression_main_run argc argv l l0 l0 testData t0 _ [] Hprep Hloop).
  cbn [exit_status trace final].
  pose proof (load_and_train_no_file_event l) as Hq. rewrite Hprep in Hq. cbn [snd] in Hq.
  pose proof (load_and_train_calls l) as Hc. rewrite Hprep in Hc.
  repeat split.
  - rewrite file_events_app, (no_file_events t0 Hq). reflexivity.
  - rewrite lib_calls_app, Hc. cbn. reflexivity.
Qed.

Lemma empty_test_data_witness :
  let r := run (MultidimensionalRegressionExample.main 1 []) RegressionInputs.empty_test_file in
  exit_status r = EXIT_SUCCESS
  /\ file_events (trace r)
     = [FileOpen "MultidimensionalRegressionResultsData.txt"; FileClose].
Proof.
  assert (Hprep : MultidimensionalRegressionExample.load_and_train
                    RegressionInputs.empty_test_file
                  = (Ret RegressionInputs.data_2_3_empty, RegressionInputs.empty_test_file,
                     snd (MultidimensionalRegressionExample.load_and_train
                            RegressionInputs.empty_test_file)))
    by (vm_compute; reflexivity).
  destruct (empty_test_data_empty_results _ _ _ _ _ 1 [] _ _ _ _ Hprep eq_refl)
    as (H1 & _ & H3 & _).
  cbv zeta. auto.
Defined.

(** ** Outcomes of the classifier driver *)

Section ClassifierOutcome.
  Context {Lib : Type} {IO : Iostream}
          {CD : ClassificationData.Ops Lib} {AN : ANBC.Ops Lib}.
  Import ANBCExample.

Lemma leading_successes_le {A} (answers : list (bool * A)) :
  leading_successes answers <= List.length answers.
Proof. induction answers as [| [[|] a] rest IH]; cbn; lia. Qed.

Lemma leading_successes_all {A} (answers : list (bool * A)) :
  forallb fst answers = true -> leading_successes answers = List.length answers.
Proof.
  induction answers as [| [[|] a] rest IH]; cbn; intros H; try discriminate; auto.
Qed.

Lemma classifications_length samples : forall l : Lib,
  List.length (classifications samples l) = List.length samples.
Proof.
  induction samples as [| s ss IH]; intros l; cbn; [reflexivity |].
  destruct (ANBC.predict _ l). cbn. now rewrite IH.
Qed.

Lemma test_sample_ok d i accuracy (l l1 : Lib) :
  ANBC.predict (ClassificationData.getSample (ClassificationData.at_ d i)) l = (true, l1) ->
  test_sample d i accuracy l
  = (Ret (if (ClassificationData.getClassLabel (ClassificationData.at_ d i)
              =? ANBC.getPredictedClassLabel l1)%N
          then dadd accuracy one else accuracy),
     l1,
     [Call (Predict (ClassificationData.getSample (ClassificationData.at_ d i))) (Some true);
      Cout (test_line i (ClassificationData.getClassLabel (ClassificationData.at_ d i))
                      (ANBC.getPredictedClassLabel l1))]).
Proof. intros H. unfold test_sample, bind, call_bool. rewrite H. reflexivity. Qed.

Lemma test_sample_failed d i accuracy (l l1 : Lib) :
  ANBC.predict (ClassificationData.getSample (ClassificationData.at_ d i)) l = (false, l1) ->
  test_sample d i accuracy l
  = (Exit EXIT_FAILURE, l1,
     [Call (Predict (ClassificationData.getSample (ClassificationData.at_ d i))) (Some false);
      Cout (prediction_failure_message i)]).
Proof. intros H. unfold test_sample, bind, call_bool. rewrite H. reflexivity. Qed.

Lemma test_loop_outcome d : forall rest done accuracy (l : Lib),
  ClassificationData.samples d = done ++ rest ->
  let answers := classifications rest l in
  let k := leading_successes answers in
  exists r l1 t,
    for_range (List.length rest) (N.of_nat (List.length done)) (test_sample d) accuracy l
    = (r, l1, t)
    /\ (k = List.length rest ->
        r = Ret (incremented (correct_predictions rest l) accuracy)
        /\ cout_text t = text_of (test_lines (N.of_nat (List.length done)) rest answers)
        /\ lib_calls t = map Predict (sample_inputs rest))
    /\ (k < List.length rest ->
        r = Exit EXIT_FAILURE
        /\ cout_text t
           = (text_of (firstn k (test_lines (N.of_nat (List.length done)) rest answers))
              ++ prediction_failure_message (N.of_nat (List.length done + k)))%string
        /\ lib_calls t = map Predict (firstn (S k) (sample_inputs rest))).
Proof.
  induction rest as [| s rest IH]; intros done accuracy l E answers k.
  - exists (Ret accuracy), l, []. cbn. repeat split; auto; intros; lia.
  - subst answers k. cbn [List.length for_range classifications].
    destruct (ANBC.predict (ClassificationData.getSample s) l) as [[|] l1] eqn:Hp;
      cbn [leading_successes].
    + set (acc1 := if (ClassificationData.getClassLabel s
                       =? ANBC.getPredictedClassLabel l1)%N
                   then dadd accuracy one else accuracy).
      destruct (IH (done ++ [s]) acc1 l1) as (r & l2 & t & Hrun & Hok & Hfail).
      { now rewrite <- app_assoc. }
      rewrite length_app, Nat.add_1_r, Nat2N.inj_succ in Hrun, Hok, Hfail.
      unfold bind.
      rewrite (test_sample_ok d _ accuracy l l1); rewrite (class_at_middle d done s rest E);
        auto.
      fold acc1. rewrite Hrun.
      eexists _, _, _. split; [reflexivity |]. split.
      * intros Hk. destruct Hok as (-> & Hc & Hl); [lia |].
        split; [| split].
        -- f_equal. unfold incremented, correct_predictions, acc1.
           cbn [classifications count_correct]. rewrite Hp. cbn [count_correct].
           destruct (N.eqb _ _); cbn [Nat.add]; [now rewrite Nat.iter_succ_r | reflexivity].
        -- rewrite cout_text_app, Hc. cbn [test_lines]. cbn [cout_text flat_map app text_of fold_right].
           now rewrite string_app_nil_r.
        -- rewrite lib_calls_app, Hl. reflexivity.
      * intros Hk. destruct Hfail as (-> & Hc & Hl); [lia |].
        split; [reflexivity |]. split.
        -- rewrite cout_text_app, Hc. cbn [test_lines firstn].
           cbn [cout_text flat_map app text_of fold_right].
           rewrite string_app_nil_r, string_app_assoc.
           replace (S (List.length done) + leading_successes (classifications rest l1))
             with (List.length done + S (leading_successes (classifications rest l1)))
             by lia.
           reflexivity.
        -- rewrite lib_calls_app, Hl. reflexivity.
    + unfold bind.
      rewrite (test_sample_failed d _ accuracy l l1);
        rewrite (class_at_middle d done s rest E); auto.
      eexists _, _, _. split; [reflexivity |]. split.
      * intros Hk. discriminate Hk.
      * intros _. rewrite Nat.add_0_r. split; [reflexivity |]. split.
        -- cbn. now rewrite string_app_nil_r.
        -- reflexivity.
Qed.

Lemma test_loop_outcome_run d (l : Lib) :
  let samples := ClassificationData.samples d in
  let answers := classifications samples l in
  let k := leading_successes answers in
  exists r l1 t,
    test_loop d l = (r, l1, t)
    /\ (k = List.length samples ->
        r = Ret (incremented (correct_predictions samples l) dzero)
        /\ cout_text t = text_of (test_lines 0%N samples answers)
        /\ lib_calls t = map Predict (sample_inputs samples))
    /\ (k < List.length samples ->
        r = Exit EXIT_FAILURE
        /\ cout_text t
           = (text_of (firstn k (test_lines 0%N samples answers))
              ++ prediction_failure_message (N.of_nat k))%string
        /\ lib_calls t = map Predict (firstn (S k) (sample_inputs samples))).
Proof.
  unfold test_loop, for_UINT, ClassificationData.getNumSamples.
  rewrite N.sub_0_r, Nat2N.id.
  exact (test_loop_outcome d (ClassificationData.samples d) [] dzero l eq_refl).
Qed.

Lemma test_loop_failed_call d n : forall i accuracy (l l1 : Lib) c t,
  for_range n i (test_sample d) accuracy l = (Exit c, l1, t) ->
  exists x, In (Call (Predict x) (Some false)) t.
Proof.
  induction n as [| n IH]; intros i accuracy l l1 c t; cbn [for_range].
  - discriminate.
  - unfold bind at 1.
    destruct (ANBC.predict (ClassificationData.getSample (ClassificationData.at_ d i)) l)
      as [[|] l2] eqn:Hp.
    + rewrite (test_sample_ok d i accuracy l l2 Hp).
      destruct (for_range n _ _ _ l2) as [[[a | c'] l3] t'] eqn:Hrest; intros H; inversion H.
      destruct (IH _ _ _ _ _ _ Hrest) as [x Hx]. exists x.
      right. right. exact Hx.
    + rewrite (test_sample_failed d i accuracy l l2 Hp). intros H. inversion H.
      eexists. left. reflexivity.
Qed.

Lemma in_lib_calls c r t : In (Call c r) t -> In c (lib_calls t).
Proof.
  intros H. unfold lib_calls. apply in_flat_map. exists (Call c r). split; [exact H | now left].
Qed.

(** The setup of the classifier driver, on every path. *)
Lemma prepare_outcome (l : Lib) :
  match prepare l with
  | (Ret _, _, t) =>
      cout_text t = "" /\ lib_calls t = classifier_setup_calls
      /\ (forall c, ~ In (Call c (Some false)) t)
  | (Exit c, _, t) =>
      c = EXIT_FAILURE
      /\ exists before step after msg,
           classifier_setup_calls = before ++ step :: after
           /\ lib_calls t = before ++ [step]
           /\ In (step, msg) classifier_diagnostics
           /\ cout_text t = msg
           /\ In (Call step (Some false)) t
           /\ (forall c, In (Call c (Some false)) t -> c = step)
  end.
Proof.
  unfold prepare, bind, call_void, call_fill, call_val, call_bool.
  destruct (ClassificationData.loadDatasetFromFile _ _) as [[[|] d1] l1]; cbn [when negb ret].
  2:{ split; [reflexivity |].
      exists [SetNullRejectionCoeff (double_of_Z 10); EnableScaling true;
              EnableNullRejection true],
             (LoadDatasetFromFile "ANBCTrainingData.txt"),
             [Partition 80%N; Train; SaveModelToFile "ANBCModel.txt";
              LoadModelFromFile "ANBCModel.txt"], ("Failed to load training data!" ++ nl)%string.
      repeat split; [cbn; tauto | cbn; tauto |].
      intros c H. cbn in H. repeat destruct H as [H | H]; try discriminate; try contradiction.
      now inversion H. }
  destruct (ClassificationData.partition _ _ _) as [[d2 d3] l2].
  destruct (ANBC.train d2 l2) as [[|] l3]; cbn [when negb ret].
  2:{ split; [reflexivity |].
      exists [SetNullRejectionCoeff (double_of_Z 10); EnableScaling true;
              EnableNullRejection true; LoadDatasetFromFile "ANBCTrainingData.txt";
              Partition 80%N],
             Train,
             [SaveModelToFile "ANBCModel.txt"; LoadModelFromFile "ANBCModel.txt"],
             ("Failed to train classifier!" ++ nl)%string.
      repeat split; [cbn; tauto | cbn; tauto |].
      intros c H. cbn in H. repeat destruct H as [H | H]; try discriminate; try contradiction.
      now inversion H. }
  destruct (ANBC.saveModelToFile _ l3) as [[|] l4]; cbn [when negb ret].
  2:{ split; [reflexivity |].
      exists [SetNullRejectionCoeff (double_of_Z 10); EnableScaling true;
              EnableNullRejection true; LoadDatasetFromFile "ANBCTrainingData.txt";
              Partition 80%N; Train],
             (SaveModelToFile "ANBCModel.txt"),
             [LoadModelFromFile "ANBCModel.txt"],
             ("Failed to save the classifier model!" ++ nl)%string.
      repeat split; [cbn; tauto | cbn; tauto |].
      intros c H. cbn in H. repeat destruct H as [H | H]; try discriminate; try contradiction.
      now inversion H. }
  destruct (ANBC.loadModelFromFile _ l4) as [[|] l5]; cbn [when negb ret].
  2:{ split; [reflexivity |].
      exists [SetNullRejectionCoeff (double_of_Z 10); EnableScaling true;
              EnableNullRejection true; LoadDatasetFromFile "ANBCTrainingData.txt";
              Partition 80%N; Train; SaveModelToFile "ANBCModel.txt"],
             (LoadModelFromFile "ANBCModel.txt"),
             [],
             ("Failed to load the classifier model!" ++ nl)%string.
      repeat split; [cbn; tauto | cbn; tauto |].
      intros c H. cbn in H. repeat destruct H as [H | H]; try discriminate; try contradiction.
      now inversion H. }
  repeat split.
  intros c H. cbn in H. repeat destruct H as [H | H]; try discriminate; try contradiction.
Qed.

Lemma classifier_main_run argc argv (l l0 l1 : Lib) d t0 r t :
  prepare l = (Ret d, l0, t0) ->
  test_loop d l0 = (r, l1, t) ->
  run (main argc argv) l
  = {| exit_status := match r with Ret _ => EXIT_SUCCESS | Exit c => c end;
       final := l1;
       trace := t0 ++ t
                ++ match r with
                   | Ret a => [Cout (accuracy_line a (ClassificationData.getNumSamples d))]
                   | Exit _ => []
                   end |}.
Proof.
  intros Hprep Hloop. unfold run, main. rewrite (bind_Ret _ _ _ _ _ _ Hprep).
  unfold evaluate, bind. rewrite Hloop.
  destruct r as [a | c]; cbn; now rewrite ?app_nil_r.
Qed.

Lemma classifier_main_stops argc argv (l l0 : Lib) c t0 :
  prepare l = (Exit c, l0, t0) ->
  run (main argc argv) l = {| exit_status := c; final := l0; trace := t0 |}.
Proof. intros H. unfold run, main, bind. now rewrite H. Qed.

End ClassifierOutcome.

(** X7: when the set-up of the classifier driver succeeds and every
    prediction succeeds, the driver's console output is one report line per
    test sample, in sample order, holding the sample's index, its class
    label and the predicted class label, followed by the accuracy line; its
    toolkit calls are the eight set-up calls followed by one [predict] per
    test sample; it exits with [EXIT_SUCCESS]. *)
Theorem classifier_report :
  forall Lib (IO : Iostream) (CD : ClassificationData.Ops Lib) (AN : ANBC.Ops Lib)
         argc argv (l l0 : Lib) testData t0,
    ANBCExample.prepare l = (Ret testData, l0, t0) ->
    let samples := ClassificationData.samples testData in
    let answers := classifications samples l0 in
    forallb fst answers = true ->
    let r := run (ANBCExample.main argc argv) l in
    exit_status r = EXIT_SUCCESS
    /\ cout_text (trace r)
       = (text_of (test_lines 0%N samples answers)
          ++ accuracy_line (incremented (count_correct samples answers) dzero)
                           (ClassificationData.getNumSamples testData))%string
    /\ lib_calls (trace r) = classifier_setup_calls ++ map Predict (sample_inputs samples).
Proof.
  intros Lib IO CD AN argc argv l l0 testData t0 Hprep samples answers Hall r.
  assert (Hk : leading_successes answers = List.length samples).
  { rewrite (leading_successes_all _ Hall). apply classifications_length. }
  destruct (test_loop_outcome_run testData l0) as (res & l1 & t & Hloop & Hok & _).
  destruct (Hok Hk) as (-> & Hcout & Hcalls).
  subst r. rewrite (classifier_main_run argc argv l l0 l1 testData t0 _ t Hprep Hloop).
  cbn [exit_status trace].
  pose proof (prepare_outcome l) as Hp. rewrite Hprep in Hp. destruct Hp as (Hp1 & Hp2 & _).
  split; [reflexivity |]. split.
  - rewrite !cout_text_app, Hp1, Hcout. cbn [String.append].
    f_equal. cbn. now rewrite string_app_nil_r.
  - rewrite !lib_calls_app, Hp2, Hcalls. cbn [lib_calls flat_map]. now rewrite app_nil_r.
Qed.

Lemma classifier_report_witness :
  let r := run (ANBCExample.main 1 []) ClassifierInputs.half_right in
  exit_status r = EXIT_SUCCESS
  /\ cout_text (trace r)
     = (test_line 0%N 1%N 1%N ++ test_line 1%N 2%N 1%N
        ++ accuracy_line (double_of_Z 1) 2%N)%string.
Proof.
  assert (Hprep : ANBCExample.prepare ClassifierInputs.half_right
                  = (Ret ClassifierInputs.two_test_samples, ClassifierInputs.half_right,
                     snd (ANBCExample.prepare ClassifierInputs.half_right)))
    by (vm_compute; reflexivity).
  destruct (classifier_report _ _ _ _ 1 [] _ _ _ _ Hprep) as (H1 & H2 & _);
    [vm_compute; reflexivity |].
  cbv zeta. split; [exact H1 |]. rewrite H2. vm_compute. reflexivity.
Defined.

(** X8: when the prediction for test sample [k] is the first that fails,
    the classifier driver's console output is the report lines of the
    samples before [k] followed by the prediction diagnostic for index [k];
    no accuracy line is printed, no toolkit call follows the failed
    [predict], and the driver exits with [EXIT_FAILURE]. *)
Theorem classifier_stops_at_failed_prediction :
  forall Lib (IO : Iostream) (CD : ClassificationData.Ops Lib) (AN : ANBC.Ops Lib)
         argc argv (l l0 : Lib) testData t0,
    ANBCExample.prepare l = (Ret testData, l0, t0) ->
    let samples := ClassificationData.samples testData in
    let answers := classifications samples l0 in
    let k := leading_successes answers in
    k < List.length samples ->
    let r := run (ANBCExample.main argc argv) l in
    exit_status r = EXIT_FAILURE
    /\ cout_text (trace r)
       = (text_of (firstn k (test_lines 0%N samples answers))
          ++ prediction_failure_message (N.of_nat k))%string
    /\ lib_calls (trace r)
       = classifier_setup_calls ++ map Predict (firstn (S k) (sample_inputs samples)).
Proof.
  intros Lib IO CD AN argc argv l l0 testData t0 Hprep samples answers k Hk r.
  destruct (test_loop_outcome_run testData l0) as (res & l1 & t & Hloop & _ & Hfail).
  destruct (Hfail Hk) as (-> & Hcout & Hcalls).
  subst r. rewrite (classifier_main_run argc argv l l0 l1 testData t0 _ t Hprep Hloop).
  cbn [exit_status trace]. rewrite app_nil_r.
  pose proof (prepare_outcome l) as Hp. rewrite Hprep in Hp. destruct Hp as (Hp1 & Hp2 & _).
  split; [reflexivity |]. split.
  - rewrite !cout_text_app, Hp1, Hcout. reflexivity.
  - rewrite !lib_calls_app, Hp2, Hcalls. reflexivity.
Qed.

Lemma classifier_stops_witness :
  let r := run (ANBCExample.main 1 []) ClassifierRuns.second_prediction_fails in
  exit_status r = EXIT_FAILURE
  /\ cout_text (trace r) = (test_line 0%N 1%N 1%N ++ prediction_failure_message 1%N)%string
  /\ lib_calls (trace r)
     = classifier_setup_calls ++ [Predict [Scripted.d 8]; Predict [Scripted.d 9]].
Proof.
  assert (Hprep : ANBCExample.prepare ClassifierRuns.second_prediction_fails
                  = (Ret ClassifierInputs.two_test_samples,
                     ClassifierRuns.second_prediction_fails,
                     snd (ANBCExample.prepare ClassifierRuns.second_prediction_fails)))
    by (vm_compute; reflexivity).
  destruct (classifier_stops_at_failed_prediction _ _ _ _ 1 [] _ _ _ _ Hprep)
    as (H1 & H2 & H3); [vm_compute; lia |].
  cbv zeta. split; [exact H1 |]. split; [| exact H3].
  rewrite H2. vm_compute. reflexivity.
Defined.

(** X9: when one of the four checked set-up steps of the classifier
    driver (dataset load, train, model save, model load) returns false, all
    that the driver prints is the diagnostic of that step, the
    failed call is its last toolkit call, made after the set-up calls that
    precede it in program order, and the driver exits with
    [EXIT_FAILURE]. *)
Theorem classifier_setup_diagnostic :
  forall Lib (IO : Iostream) (CD : ClassificationData.Ops Lib) (AN : ANBC.Ops Lib)
         argc argv (l : Lib) step msg,
    let r := run (ANBCExample.main argc argv) l in
    In (step, msg) classifier_diagnostics ->
    In (Call step (Some false)) (trace r) ->
    exit_status r = EXIT_FAILURE
    /\ cout_text (trace r) = msg
    /\ exists before after,
         classifier_setup_calls = before ++ step :: after
         /\ lib_calls (trace r) = before ++ [step].
Proof.
  intros Lib IO CD AN argc argv l step msg r Hd Hin.
  pose proof (prepare_outcome l) as Hp.
  destruct (ANBCExample.prepare l) as [[[d | c] l0] t0] eqn:Hprep.
  - exfalso. destruct Hp as (_ & _ & Hnone).
    destruct (test_loop_outcome_run d l0) as (res & l1 & t & Hloop & Hok & Hfail).
    subst r. rewrite (classifier_main_run argc argv l l0 l1 d t0 _ t Hprep Hloop) in Hin.
    cbn [trace] in Hin.
    apply in_app_or in Hin. destruct Hin as [Hin | Hin]; [now apply (Hnone step) |].
    apply in_app_or in Hin. destruct Hin as [Hin | Hin].
    + apply in_lib_calls in Hin.
      pose proof (leading_successes_le (classifications (ClassificationData.samples d) l0))
        as Hle.
      rewrite classifications_length in Hle.
      assert (Hpred : exists xs, lib_calls t = map Predict xs).
      { destruct (Nat.eq_dec (leading_successes
                                (classifications (ClassificationData.samples d) l0))
                             (List.length (ClassificationData.samples d))) as [E | E].
        - destruct (Hok E) as (_ & _ & ->). eauto.
        - destruct Hfail as (_ & _ & ->); [lia | eauto]. }
      destruct Hpred as [xs Hxs]. rewrite Hxs in Hin.
      apply in_map_iff in Hin. destruct Hin as (x & <- & _).
      cbn in Hd. repeat destruct Hd as [Hd | Hd]; try discriminate; contradiction.
    + destruct res; cbn in Hin; [destruct Hin as [Hin | []]; discriminate | contradiction].
  - destruct Hp as (-> & before & step' & after & msg' & Hsplit & Hcalls & Hd' & Hcout & _ & Hone).
    subst r. rewrite (classifier_main_stops argc argv l l0 _ t0 Hprep) in Hin |- *.
    cbn [exit_status trace] in *.
    assert (Hs : step' = step) by (symmetry; now apply Hone).
    rewrite Hs in Hsplit, Hcalls, Hd'.
    assert (Hm : cout_text t0 = msg).
    { rewrite Hcout. clear - Hd Hd'. cbn in Hd, Hd'.
      repeat destruct Hd as [Hd | Hd]; try contradiction;
        repeat destruct Hd' as [Hd' | Hd']; try contradiction; congruence. }
    split; [reflexivity |]. split; [exact Hm |]. eauto.
Qed.

Lemma classifier_setup_diagnostic_witness :
  let r := run (ANBCExample.main 1 []) ClassifierRuns.training_fails in
  exit_status r = EXIT_FAILURE
  /\ cout_text (trace r) = ("Failed to train classifier!" ++ nl)%string.
Proof.
  destruct (classifier_setup_diagnostic
              Scripted.classifier _ _ _ 1 [] ClassifierRuns.training_fails
              Train ("Failed to train classifier!" ++ nl)%string)
    as (H1 & H2 & _); [vm_compute; tauto | vm_compute; tauto |].
  cbv zeta. auto.
Defined.

(** X10: the toolkit calls of any run of the classifier driver are an
    initial segment of one fixed sequence: the eight set-up calls in program
    order, then one [predict] per test sample, in sample order, on the
    sample's input vector.  A run that exits with [EXIT_SUCCESS] has made
    all of them. *)
Theorem classifier_call_order :
  forall Lib (IO : Iostream) (CD : ClassificationData.Ops Lib) (AN : ANBC.Ops Lib)
         argc argv (l : Lib),
    let r := run (ANBCExample.main argc argv) l in
    let inputs :=
      match ANBCExample.prepare l with
      | (Ret testData, _, _) => sample_inputs (ClassificationData.samples testData)
      | (Exit _, _, _) => []
      end in
    exists rest,
      classifier_setup_calls ++ map Predict inputs = lib_calls (trace r) ++ rest
      /\ (exit_status r = EXIT_SUCCESS -> rest = []).
Proof.
  intros Lib IO CD AN argc argv l r inputs.
  pose proof (prepare_outcome l) as Hp.
  destruct (ANBCExample.prepare l) as [[[d | c] l0] t0] eqn:Hprep.
  - destruct Hp as (_ & Hc & _).
    destruct (test_loop_outcome_run d l0) as (res & l1 & t & Hloop & Hok & Hfail).
    subst r. rewrite (classifier_main_run argc argv l l0 l1 d t0 res t Hprep Hloop).
    cbn [exit_status trace]. rewrite !lib_calls_app, Hc.
    pose proof (leading_successes_le (classifications (ClassificationData.samples d) l0))
      as Hle.
    rewrite classifications_length in Hle.
    set (k := leading_successes (classifications (ClassificationData.samples d) l0)) in *.
    destruct (Nat.eq_dec k (List.length (ClassificationData.samples d))) as [Hk | Hk].
    + destruct (Hok Hk) as (-> & _ & ->). exists []. subst inputs.
      split; [| reflexivity]. cbn [lib_calls flat_map]. now rewrite ?app_nil_r.
    + destruct Hfail as (-> & _ & ->); [lia |].
      exists (map Predict (skipn (S k) inputs)). subst inputs. split.
      * cbn [lib_calls flat_map]. rewrite app_nil_r, <- app_assoc, <- map_app.
        now rewrite firstn_skipn.
      * discriminate.
  - destruct Hp as (-> & before & step & after & msg & Hsplit & Hcalls & _).
    subst r inputs.
    rewrite (classifier_main_stops argc argv l l0 _ t0 Hprep). cbn [exit_status trace].
    exists after. split; [| discriminate].
    cbn [map]. rewrite app_nil_r, Hcalls, Hsplit, <- app_assoc. reflexivity.
Qed.

(** X11: a run of the classifier driver exits with [EXIT_SUCCESS] when no
    toolkit call returned false, and with [EXIT_FAILURE] when one did; it
    has no other way to end. *)
Theorem classifier_exit_status :
  forall Lib (IO : Iostream) (CD : ClassificationData.Ops Lib) (AN : ANBC.Ops Lib)
         argc argv (l : Lib),
    let r := run (ANBCExample.main argc argv) l in
    (exit_status r = EXIT_SUCCESS /\ forall c, ~ In (Call c (Some false)) (trace r))
    \/ (exit_status r = EXIT_FAILURE /\ exists c, In (Call c (Some false)) (trace r)).
Proof.
  intros Lib IO CD AN argc argv l r.
  destruct (checked_run_outcome (ANBCExample.main argc argv) l (ANBC_main_checked argc argv))
    as [[Hs Hpass] | Hf]; fold r in Hs, Hpass || fold r in Hf.
  - left. split; [exact Hs |]. intros c Hin. rewrite Forall_forall in Hpass.
    exact (passes_not_failed c (Hpass _ Hin)).
  - right. split; [exact Hf |]. subst r.
    pose proof (prepare_outcome l) as Hp.
    destruct (ANBCExample.prepare l) as [[[d | c] l0] t0] eqn:Hprep.
    + destruct (ANBCExample.test_loop d l0) as [[[a | c] l1] t] eqn:Hloop;
        rewrite (classifier_main_run argc argv l l0 l1 d t0 _ t Hprep Hloop) in Hf |- *;
        cbn [exit_status trace] in Hf |- *; [discriminate |].
      unfold ANBCExample.test_loop, for_UINT in Hloop.
      destruct (test_loop_failed_call d _ _ _ _ _ _ _ Hloop) as [x Hx].
      exists (Predict x). apply in_or_app. right. apply in_or_app. now left.
    + destruct Hp as (_ & before & step & after & msg & _ & _ & _ & _ & Hin & _).
      rewrite (classifier_main_stops argc argv l l0 _ t0 Hprep). cbn [trace].
      now exists step.
Qed.

(** ** The accuracy as a percentage *)

Local Open Scope Z_scope.

Lemma hundred_normal : double_of_Z 100 = S754_finite false 7036874417766400 (-46).
Proof. reflexivity. Qed.

Lemma le_hundred_shape_leb x :
  le_hundred_shape x -> dleb dzero x = true /\ dleb x (double_of_Z 100) = true.
Proof.
  intros (m & e & -> & H). split; [reflexivity |].
  rewrite hundred_normal. unfold dleb, SFleb, SFcompare.
  destruct H as [H | [-> H]].
  - apply Z.compare_lt_iff in H. now rewrite H.
  - rewrite Z.compare_refl.
    destruct (Pos.compare_cont Eq m 7036874417766400) eqn:E; try reflexivity.
    apply Pos.compare_gt_iff in E. lia.
Qed.

Lemma shr_m_iter k : forall mrs,
  0 <= shr_m mrs -> shr_m (Nat.iter k shr_1 mrs) = shr_m mrs / 2 ^ Z.of_nat k.
Proof.
  induction k as [| k IH]; intros mrs H.
  - cbn. now rewrite Z.div_1_r.
  - rewrite Nat.iter_succ.
    assert (Hk : 0 < 2 ^ Z.of_nat k) by (apply Z.pow_pos_nonneg; lia).
    rewrite shr_1_m; rewrite IH by exact H.
    + rewrite Z.div2_div, Z.div_div by lia.
      rewrite Nat2Z.inj_succ, Z.pow_succ_r by lia. f_equal. lia.
    + apply Z.div_pos; lia.
Qed.

Lemma shr_m_shr mrs e n :
  0 <= shr_m mrs -> 0 <= n ->
  shr_m (fst (shr mrs e n)) = shr_m mrs / 2 ^ n /\ snd (shr mrs e n) = e + n.
Proof.
  intros Hm Hn. destruct n as [| p | p]; try lia; cbn [shr fst snd].
  - rewrite Z.div_1_r. split; [reflexivity | lia].
  - rewrite iter_pos_nat, shr_m_iter by exact Hm. now rewrite positive_nat_Z.
Qed.

(** The second rounding step on a mantissa of 53 digits, or on [2 ^ 53]. *)
Lemma round_tail_normal q e :
  2 ^ 52 <= q <= 2 ^ 53 -> -1074 <= e <= 970 ->
  exists m e1,
    (let '(mrs, e1) := shr_fexp prec emax q e loc_Exact in
     match shr_m mrs with
     | Z0 => S754_zero false
     | Zpos m => if Z.leb e1 (emax - prec) then S754_finite false m e1
                 else S754_infinity false
     | Zneg _ => S754_nan
     end) = S754_finite false m e1
    /\ 2 ^ 52 <= Zpos m < 2 ^ 53
    /\ ((e1 = e /\ Zpos m = q) \/ (e1 = e + 1 /\ Zpos m = 2 ^ 52 /\ q = 2 ^ 53)).
Proof.
  intros Hq He. destruct (Z.eq_dec q (2 ^ 53)) as [-> | Hne].
  - unfold shr_fexp. cbn [Zdigits2 digits2_pos Z.pow Z.pow_pos Pos.iter Z.mul Pos.mul Pos.succ].
    rewrite fexp_normal by lia.
    replace (54 + e - 53 - e) with 1 by lia.
    cbn [shr iter_pos shr_record_of_loc shr_1 orb shr_m]. unfold emax, prec.
    destruct (Z.leb_spec (e + 1) (1024 - 53)); [| lia].
    exists 4503599627370496%positive, (e + 1). split; [reflexivity |]. lia.
  - destruct q as [| p | p]; try lia.
    unfold shr_fexp. cbn [Zdigits2]. rewrite (digits_53 p), fexp_normal by lia.
    replace (53 + e - 53 - e) with 0 by lia.
    cbn [shr shr_record_of_loc shr_m]. unfold emax, prec.
    destruct (Z.leb_spec e (1024 - 53)); [| lia].
    exists p, e. split; [reflexivity |]. lia.
Qed.

(** Rounding a mantissa of [53 + j] digits to 53 digits. *)
Lemma binary_round_aux_normal q e loc j :
  0 <= j -> 2 ^ 52 * 2 ^ j <= q < 2 ^ 53 * 2 ^ j -> -1074 <= e + j <= 970 ->
  exists m e1,
    binary_round_aux prec emax false q e loc = S754_finite false m e1
    /\ 2 ^ 52 <= Zpos m < 2 ^ 53
    /\ ((e1 = e + j /\ q / 2 ^ j <= Zpos m <= q / 2 ^ j + 1)
        \/ (e1 = e + j + 1 /\ Zpos m = 2 ^ 52 /\ q / 2 ^ j = 2 ^ 53 - 1)).
Proof.
  intros Hj Hq He.
  assert (Hp : 0 < 2 ^ j) by (apply Z.pow_pos_nonneg; lia).
  assert (Hq0 : 2 ^ 52 <= q / 2 ^ j < 2 ^ 53).
  { split; [apply Z.div_le_lower_bound | apply Z.div_lt_upper_bound]; lia. }
  assert (Hd : Zdigits2 q = 53 + j).
  { destruct q as [| p | p]; try lia.
    rewrite Zdigits2_log2, (Z.log2_unique (Zpos p) (52 + j)); try lia.
    rewrite Z.pow_succ_r, Z.pow_add_r by lia. lia. }
  unfold binary_round_aux.
  assert (E : shr_fexp prec emax q e loc
              = (fst (shr (shr_record_of_loc q loc) e j), e + j)).
  { unfold shr_fexp. rewrite Hd, fexp_normal by lia.
    replace (53 + j + e - 53 - e) with j by lia.
    destruct (shr_m_shr (shr_record_of_loc q loc) e j) as [_ H2];
      [rewrite shr_m_of_loc; lia | lia |].
    rewrite <- H2. now destruct (shr _ e j). }
  rewrite E.
  set (mrs := fst (shr (shr_record_of_loc q loc) e j)).
  assert (Hm : shr_m mrs = q / 2 ^ j).
  { subst mrs. destruct (shr_m_shr (shr_record_of_loc q loc) e j) as [H1 _];
      [rewrite shr_m_of_loc; lia | lia |].
    now rewrite H1, shr_m_of_loc. }
  pose proof (round_nearest_even_range (shr_m mrs) (loc_of_shr_record mrs)) as Hr.
  rewrite Hm in Hr.
  destruct (round_tail_normal (round_nearest_even (shr_m mrs) (loc_of_shr_record mrs)) (e + j))
    as (m & e1 & Eq & Hmr & Hcase); [rewrite Hm; lia | lia |].
  exists m, e1. split; [exact Eq |]. split; [exact Hmr |].
  rewrite Hm in Hcase. destruct Hcase as [[-> Hv] | (-> & Hv & Hover)]; [left | right]; lia.
Qed.

(** The quotient of two counts is a normal number. *)
Lemma ddiv_normal c n :
  0 < c <= n -> n < 2 ^ 53 ->
  exists m e,
    ddiv (double_of_Z c) (double_of_Z n) = S754_finite false m e
    /\ 2 ^ 52 <= Zpos m < 2 ^ 53 /\ -200 <= e.
Proof.
  intros Hc Hn.
  destruct (double_of_Z_normal c ltac:(lia)) as (m1 & E1 & Hm1 & Hr1).
  destruct (double_of_Z_normal n ltac:(lia)) as (m2 & E2 & Hm2 & Hr2).
  destruct (normal_mantissa c ltac:(lia)) as (Hl1 & _).
  destruct (normal_mantissa n ltac:(lia)) as (Hl2 & _).
  rewrite E1, E2. unfold ddiv, SFdiv. rewrite div_core by lia. cbn [xorb].
  set (q := Zpos m1 * 2 ^ 53 / Zpos m2).
  assert (Hq : 2 ^ 52 <= q < 2 ^ 54).
  { subst q. split; [apply Z.div_le_lower_bound | apply Z.div_lt_upper_bound]; lia. }
  destruct (Z_lt_le_dec q (2 ^ 53)).
  - destruct (binary_round_aux_normal q (Z.log2 c - 52 - (Z.log2 n - 52) - 53)
                (new_location (Zpos m2) ((Zpos m1 * 2 ^ 53) mod Zpos m2)) 0)
      as (m & e & Eq & Hm & Hcase); [lia | lia | lia |].
    exists m, e. split; [exact Eq |]. split; [exact Hm | lia].
  - destruct (binary_round_aux_normal q (Z.log2 c - 52 - (Z.log2 n - 52) - 53)
                (new_location (Zpos m2) ((Zpos m1 * 2 ^ 53) mod Zpos m2)) 1)
      as (m & e & Eq & Hm & Hcase); [lia | lia | lia |].
    exists m, e. split; [exact Eq |]. split; [exact Hm | lia].
Qed.

Lemma ddiv_self n : 0 < n < 2 ^ 53 -> ddiv (double_of_Z n) (double_of_Z n) = one.
Proof.
  intros Hn.
  destruct (double_of_Z_normal n Hn) as (m & E & Hm & Hr).
  destruct (normal_mantissa n Hn) as (Hl & _).
  rewrite E. unfold ddiv, SFdiv. rewrite div_core by lia. cbn [xorb].
  rewrite Z.mul_comm, Z.div_mul, Z.mod_mul, new_location_zero by lia.
  replace (Z.log2 n - 52 - (Z.log2 n - 52) - 53) with (-53) by lia.
  reflexivity.
Qed.

(** The product of a normal number at most one and one hundred. *)
Lemma dmul_hundred_le m e :
  2 ^ 52 <= Zpos m < 2 ^ 53 -> -200 <= e ->
  e < -52 \/ (e = -52 /\ m = 4503599627370496%positive) ->
  le_hundred_shape (dmul (S754_finite false m e) (double_of_Z 100)).
Proof.
  intros Hm He Hone. rewrite hundred_normal. unfold dmul, SFmul. cbn [xorb].
  destruct Hone as [Hlt | [-> ->]].
  2:{ exists 7036874417766400%positive, (-46). split; [reflexivity | lia]. }
  rewrite Pos2Z.inj_mul.
  set (h := Zpos 7036874417766400) in *.
  assert (Hh : h = 7036874417766400) by reflexivity.
  set (P := Zpos m * h).
  assert (HP : 2 ^ 104 <= P < 2 ^ 53 * h) by (subst P; nia).
  destruct (Z_lt_le_dec P (2 ^ 105)) as [Hs | Hs].
  - destruct (binary_round_aux_normal P (e + -46) loc_Exact 52)
      as (m' & e' & Eq & Hm' & Hcase); [lia | lia | lia |].
    exists m', e'. split; [exact Eq |]. lia.
  - assert (Hdiv : P / 2 ^ 53 < h) by (apply Z.div_lt_upper_bound; lia).
    destruct (binary_round_aux_normal P (e + -46) loc_Exact 53)
      as (m' & e' & Eq & Hm' & Hcase); [lia | lia | lia |].
    exists m', e'. split; [exact Eq |]. lia.
Qed.

(** A count ratio times one hundred lies in [0, 100]. *)
Lemma count_percent_bounds c n :
  0 <= c <= n -> 0 < n < 2 ^ 53 ->
  let p := dmul (ddiv (double_of_Z c) (double_of_Z n)) (double_of_Z 100) in
  dleb dzero p = true /\ dleb p (double_of_Z 100) = true.
Proof.
  intros Hc Hn p. subst p. destruct (Z.eq_dec c 0) as [-> | Hc0].
  - destruct (double_of_Z_normal n Hn) as (m & -> & _). split; reflexivity.
  - apply le_hundred_shape_leb.
    destruct (ddiv_normal c n) as (m & e & E & Hm & He); [lia | lia |].
    destruct (ddiv_le_one c n) as (m' & e' & E' & Hshape); [lia | lia |].
    rewrite E in E'. inversion E'; subst m' e'. rewrite E.
    apply dmul_hundred_le; assumption.
Qed.

Lemma count_percent_all n :
  0 < n < 2 ^ 53 ->
  dmul (ddiv (double_of_Z n) (double_of_Z n)) (double_of_Z 100) = double_of_Z 100.
Proof. intros Hn. rewrite ddiv_self by exact Hn. reflexivity. Qed.

Lemma count_percent_none n :
  0 < n < 2 ^ 53 ->
  dmul (ddiv (double_of_Z 0) (double_of_Z n)) (double_of_Z 100) = dzero.
Proof.
  intros Hn. destruct (double_of_Z_normal n Hn) as (m & -> & _). reflexivity.
Qed.

Local Close Scope Z_scope.

Section ClassifierAccuracy.
  Context {Lib : Type} {IO : Iostream}
          {CD : ClassificationData.Ops Lib} {AN : ANBC.Ops Lib}.
  Import ANBCExample.

(** The accuracy line of a run whose predictions all succeed. *)
Lemma classifier_accuracy_line argc argv (l l0 : Lib) testData t0 :
  prepare l = (Ret testData, l0, t0) ->
  forallb fst (classifications (ClassificationData.samples testData) l0) = true ->
  (ClassificationData.getNumSamples testData <= UINT_MAX)%N ->
  let correct := N.of_nat (correct_predictions (ClassificationData.samples testData) l0) in
  (correct <= ClassificationData.getNumSamples testData)%N
  /\ exists t,
       trace (run (main argc argv) l)
       = t ++ [Cout (accuracy_line (double_of_UINT correct)
                                   (ClassificationData.getNumSamples testData))].
Proof.
  intros Hprep Hall Hn correct.
  pose proof (count_correct_le (ClassificationData.samples testData)
                (classifications (ClassificationData.samples testData) l0)) as Hle.
  fold (correct_predictions (ClassificationData.samples testData) l0) in Hle.
  unfold UINT_MAX, ClassificationData.getNumSamples in *.
  split; [subst correct; lia |].
  destruct (test_loop_outcome_run testData l0) as (res & l1 & t & Hloop & Hok & _).
  destruct Hok as (-> & _ & _).
  { rewrite (leading_successes_all _ Hall). apply classifications_length. }
  rewrite (classifier_main_run argc argv l l0 l1 testData t0 _ t Hprep Hloop).
  cbn [trace]. exists (t0 ++ t). rewrite <- app_assoc. do 4 f_equal.
  rewrite incremented_zero by lia.
  unfold double_of_UINT, correct. now rewrite nat_N_Z.
Qed.

End ClassifierAccuracy.

(** X12: for a test dataset of at least one and at most [UINT_MAX]
    samples whose predictions all succeed, the last thing the classifier
    driver does is print the accuracy line, and the number on it, the count
    of correct predictions divided by the number of test samples and
    multiplied by 100 in double arithmetic, is at least 0 and at most
    100. *)
Theorem accuracy_percent_bounds :
  forall Lib (IO : Iostream) (CD : ClassificationData.Ops Lib) (AN : ANBC.Ops Lib)
         argc argv (l l0 : Lib) testData t0,
    ANBCExample.prepare l = (Ret testData, l0, t0) ->
    forallb fst (classifications (ClassificationData.samples testData) l0) = true ->
    (0 < ClassificationData.getNumSamples testData <= UINT_MAX)%N ->
    let n := ClassificationData.getNumSamples testData in
    let correct := N.of_nat (correct_predictions (ClassificationData.samples testData) l0) in
    let percent := ANBCExample.accuracy_percent (double_of_UINT correct) n in
    last (trace (run (ANBCExample.main argc argv) l)) FileClose
    = Cout ("Test Accuracy: " ++ put_double percent ++ "%" ++ endl)
    /\ dleb dzero percent = true
    /\ dleb percent (double_of_Z 100) = true.
Proof.
  intros Lib IO CD AN argc argv l l0 testData t0 Hprep Hall Hn n correct percent.
  destruct (classifier_accuracy_line argc argv l l0 testData t0 Hprep Hall)
    as (Hle & t & Ht); [lia |].
  split; [rewrite Ht; apply last_last |].
  unfold UINT_MAX in Hn. fold n in Hn, Hle. fold correct in Hle.
  apply (count_percent_bounds (Z.of_N correct) (Z.of_N n)); lia.
Qed.

Lemma accuracy_percent_bounds_witness :
  let percent := ANBCExample.accuracy_percent (double_of_UINT 1%N) 2%N in
  last (trace (run (ANBCExample.main 1 []) ClassifierInputs.half_right)) FileClose
  = Cout ("Test Accuracy: " ++ put_double percent ++ "%" ++ endl)
  /\ dleb dzero percent = true
  /\ dleb percent (double_of_Z 100) = true.
Proof.
  assert (Hprep : ANBCExample.prepare ClassifierInputs.half_right
                  = (Ret ClassifierInputs.two_test_samples, ClassifierInputs.half_right,
                     snd (ANBCExample.prepare ClassifierInputs.half_right)))
    by (vm_compute; reflexivity).
  destruct (accuracy_percent_bounds _ _ _ _ 1 [] _ _ _ _ Hprep) as (H1 & H2 & H3);
    [vm_compute; reflexivity | vm_compute; split; congruence |].
  cbv zeta. split; [exact H1 |]. split; [exact H2 | exact H3].
Defined.

(** X13: for a test dataset of at least one and at most [UINT_MAX]
    samples whose predictions all succeed, the accuracy line shows exactly
    100 when every test sample is classified correctly, and exactly 0 when
    none is. *)
Theorem accuracy_percent_extremes :
  forall Lib (IO : Iostream) (CD : ClassificationData.Ops Lib) (AN : ANBC.Ops Lib)
         argc argv (l l0 : Lib) testData t0,
    ANBCExample.prepare l = (Ret testData, l0, t0) ->
    forallb fst (classifications (ClassificationData.samples testData) l0) = true ->
    (0 < ClassificationData.getNumSamples testData <= UINT_MAX)%N ->
    let samples := ClassificationData.samples testData in
    let r := run (ANBCExample.main argc argv) l in
    (correct_predictions samples l0 = List.length samples ->
     last (trace r) FileClose
     = Cout ("Test Accuracy: " ++ put_double (double_of_Z 100) ++ "%" ++ endl))
    /\ (correct_predictions samples l0 = 0 ->
        last (trace r) FileClose
        = Cout ("Test Accuracy: " ++ put_double dzero ++ "%" ++ endl)).
Proof.
  intros Lib IO CD AN argc argv l l0 testData t0 Hprep Hall Hn samples r.
  destruct (classifier_accuracy_line argc argv l l0 testData t0 Hprep Hall)
    as (_ & t & Ht); [lia |].
  subst r. rewrite Ht, last_last. unfold UINT_MAX in Hn.
  unfold accuracy_line, ANBCExample.accuracy_percent, ANBCExample.accuracy_ratio,
    double_of_UINT.
  split; intros Hc; fold samples; rewrite Hc.
  - fold (ClassificationData.getNumSamples testData).
    rewrite count_percent_all by lia. reflexivity.
  - change (Z.of_N (N.of_nat 0)) with 0%Z.
    rewrite (count_percent_none (Z.of_N (ClassificationData.getNumSamples testData)))
      by lia.
    reflexivity.
Qed.

Lemma accuracy_percent_extremes_witness :
  last (trace (run (ANBCExample.main 1 []) ClassifierRuns.all_right)) FileClose
  = Cout ("Test Accuracy: " ++ put_double (double_of_Z 100) ++ "%" ++ endl)
  /\ last (trace (run (ANBCExample.main 1 []) ClassifierRuns.all_wrong)) FileClose
     = Cout ("Test Accuracy: " ++ put_double dzero ++ "%" ++ endl).
Proof.
  assert (Hright : ANBCExample.prepare ClassifierRuns.all_right
                   = (Ret ClassifierInputs.two_test_samples, ClassifierRuns.all_right,
                      snd (ANBCExample.prepare ClassifierRuns.all_right)))
    by (vm_compute; reflexivity).
  assert (Hwrong : ANBCExample.prepare ClassifierRuns.all_wrong
                   = (Ret ClassifierInputs.two_test_samples, ClassifierRuns.all_wrong,
                      snd (ANBCExample.prepare ClassifierRuns.all_wrong)))
    by (vm_compute; reflexivity).
  destruct (accuracy_percent_extremes _ _ _ _ 1 [] _ _ _ _ Hright) as (H1 & _);
    [vm_compute; reflexivity | vm_compute; split; congruence |].
  destruct (accuracy_percent_extremes _ _ _ _ 1 [] _ _ _ _ Hwrong) as (_ & H2);
    [vm_compute; reflexivity | vm_compute; split; congruence |].
  split; [exact (H1 eq_refl) | exact (H2 eq_refl)].
Defined.

(** ** What the regression driver prints *)

Section RegressionConsole.
  Context {Lib : Type} {IO : Iostream}
          {RD : RegressionData.Ops Lib} {TL : TrainingLog.Ops Lib}
          {GP : GestureRecognitionPipeline.Ops Lib}.
  Import MultidimensionalRegressionExample.

Ltac failed_step before step after progress msg :=
  intros H; inversion H; right;
  exists before, step, after, progress, msg;
  split; [reflexivity |]; split; [reflexivity |];
  split; [cbn; tauto |];
  split; [cbn; rewrite ?string_app_nil_r; reflexivity |];
  let c := fresh "c" in
  let Hin := fresh "Hin" in
  intros c Hin; cbn in Hin;
  repeat destruct Hin as [Hin | Hin]; try discriminate; try contradiction;
  now inversion Hin.

(** How the set-up of the regression driver stops. *)
Lemma load_and_train_stops (l l0 : Lib) c t :
  load_and_train l = (Exit c, l0, t) ->
  (forall c', ~ In (Call c' (Some false)) t)
  \/ (exists before step after progress msg,
        regression_setup_calls = before ++ step :: after
        /\ lib_calls t = before ++ [step]
        /\ In (step, (progress, msg)) regression_diagnostics
        /\ cout_text t = (progress ++ msg)%string
        /\ (forall c', In (Call c' (Some false)) t -> c' = step)).
Proof.
  unfold load_and_train, bind, call_void, call_fill, call_bool.
  destruct (RegressionData.loadDatasetFromFile _ _) as [[[|] d1] l1]; cbn [when negb ret].
  2:{ failed_step [EnableLogging true]
        (LoadDatasetFromFile "MultidimensionalRegressionTrainingData.txt")
        [LoadDatasetFromFile "MultidimensionalRegressionTestData.txt";
         PrintStats; PrintStats; SetRegressifier; Train;
         SavePipelineToFile "Pipeline"; LoadPipelineFromFile "Pipeline"; Test]
        "" ("ERROR: Failed to load training data!" ++ nl)%string. }
  destruct (RegressionData.loadDatasetFromFile _ l1) as [[[|] d2] l2]; cbn [when negb ret].
  2:{ failed_step [EnableLogging true;
                   LoadDatasetFromFile "MultidimensionalRegressionTrainingData.txt"]
        (LoadDatasetFromFile "MultidimensionalRegressionTestData.txt")
        [PrintStats; PrintStats; SetRegressifier; Train;
         SavePipelineToFile "Pipeline"; LoadPipelineFromFile "Pipeline"; Test]
        "" ("ERROR: Failed to load test data!" ++ nl)%string. }
  destruct (input_dimensions_differ d1 d2) eqn:Hd; cbn [when ret].
  { intros H. inversion H. left. intros c' Hin. cbn in Hin.
    repeat destruct Hin as [Hin | Hin]; try discriminate; contradiction. }
  rewrite target_guard_false. cbn [when ret cout emit].
  destruct (GestureRecognitionPipeline.train d1 _) as [[|] l3]; cbn [when negb ret cout emit].
  2:{ failed_step [EnableLogging true;
                   LoadDatasetFromFile "MultidimensionalRegressionTrainingData.txt";
                   LoadDatasetFromFile "MultidimensionalRegressionTestData.txt";
                   PrintStats; PrintStats; SetRegressifier]
        Train
        [SavePipelineToFile "Pipeline"; LoadPipelineFromFile "Pipeline"; Test]
        progress_to_train
        ("ERROR: Failed to train MultidimensionalRegression model!" ++ nl)%string. }
  destruct (GestureRecognitionPipeline.savePipelineToFile _ l3) as [[|] l4];
    cbn [when negb ret cout emit].
  2:{ failed_step [EnableLogging true;
                   LoadDatasetFromFile "MultidimensionalRegressionTrainingData.txt";
                   LoadDatasetFromFile "MultidimensionalRegressionTestData.txt";
                   PrintStats; PrintStats; SetRegressifier; Train]
        (SavePipelineToFile "Pipeline")
        [LoadPipelineFromFile "Pipeline"; Test]
        progress_to_save ("ERROR: Failed to save pipeline!" ++ nl)%string. }
  destruct (GestureRecognitionPipeline.loadPipelineFromFile _ l4) as [[|] l5];
    cbn [when negb ret cout emit].
  2:{ failed_step [EnableLogging true;
                   LoadDatasetFromFile "MultidimensionalRegressionTrainingData.txt";
                   LoadDatasetFromFile "MultidimensionalRegressionTestData.txt";
                   PrintStats; PrintStats; SetRegressifier; Train;
                   SavePipelineToFile "Pipeline"]
        (LoadPipelineFromFile "Pipeline")
        [Test]
        progress_to_save ("ERROR: Failed to load pipeline!" ++ nl)%string. }
  destruct (GestureRecognitionPipeline.test d2 l5) as [[|] l6];
    cbn [when negb ret cout emit get].
  2:{ failed_step [EnableLogging true;
                   LoadDatasetFromFile "MultidimensionalRegressionTrainingData.txt";
                   LoadDatasetFromFile "MultidimensionalRegressionTestData.txt";
                   PrintStats; PrintStats; SetRegressifier; Train;
                   SavePipelineToFile "Pipeline"; LoadPipelineFromFile "Pipeline"]
        Test
        (@nil libcall)
        progress_to_test
        ("ERROR: Failed to test MultidimensionalRegression model!" ++ nl)%string. }
  discriminate.
Qed.

(** What the set-up prints when it completes. *)
Lemma load_and_train_progress (l l0 : Lib) d t :
  load_and_train l = (Ret d, l0, t) ->
  cout_text t = regression_progress (GestureRecognitionPipeline.getTestRMSError l0).
Proof.
  unfold load_and_train, bind, call_void, call_fill, call_bool.
  destruct (RegressionData.loadDatasetFromFile _ _) as [[[|] d1] l1]; cbn [when negb ret];
    [| discriminate].
  destruct (RegressionData.loadDatasetFromFile _ l1) as [[[|] d2] l2]; cbn [when negb ret];
    [| discriminate].
  destruct (input_dimensions_differ d1 d2) eqn:Hd; cbn [when ret]; [discriminate |].
  rewrite target_guard_false. cbn [when ret cout emit].
  destruct (GestureRecognitionPipeline.train d1 _) as [[|] l3]; cbn [when negb ret cout emit];
    [| discriminate].
  destruct (GestureRecognitionPipeline.savePipelineToFile _ l3) as [[|] l4];
    cbn [when negb ret cout emit]; [| discriminate].
  destruct (GestureRecognitionPipeline.loadPipelineFromFile _ l4) as [[|] l5];
    cbn [when negb ret cout emit]; [| discriminate].
  destruct (GestureRecognitionPipeline.test d2 l5) as [[|] l6];
    cbn [when negb ret cout emit get]; [| discriminate].
  intros H. inversion H. subst. cbn. rewrite ?string_app_nil_r. reflexivity.
Qed.

End RegressionConsole.

(** X14: when one of the six checked set-up steps of the regression
    driver (the two dataset loads, train, pipeline save, pipeline load,
    test) returns false, what the driver prints is the progress lines that
    precede that step in the program followed by the diagnostic of that
    step; the failed call is its last toolkit call, made after the set-up
    calls that precede it in program order; it performs no operation on the
    results file and exits with [EXIT_FAILURE]. *)
Theorem regression_setup_diagnostic :
  forall Lib (IO : Iostream) (RD : RegressionData.Ops Lib) (TL : TrainingLog.Ops Lib)
         (GP : GestureRecognitionPipeline.Ops Lib) argc argv (l : Lib) step progress msg,
    let r := run (MultidimensionalRegressionExample.main argc argv) l in
    In (step, (progress, msg)) regression_diagnostics ->
    In (Call step (Some false)) (trace r) ->
    exit_status r = EXIT_FAILURE
    /\ cout_text (trace r) = (progress ++ msg)%string
    /\ file_events (trace r) = []
    /\ exists before after,
         regression_setup_calls = before ++ step :: after
         /\ lib_calls (trace r) = before ++ [step].
Proof.
  intros Lib IO RD TL GP argc argv l step progress msg r Hd Hin.
  pose proof (load_and_train_checked (Lib := Lib) l) as Hchk.
  pose proof (load_and_train_no_file_event l) as Hq.
  destruct (MultidimensionalRegressionExample.load_and_train l)
    as [[[d | c] l0] t0] eqn:Hprep; cbn [snd] in Hq.
  - exfalso. destruct Hchk as [Hpass _].
    destruct (map_loop_outcome_run d l0) as (res & l1 & t & Hloop & _ & _ & Hok & Hfail).
    subst r. rewrite (regression_main_run argc argv l l0 l1 d t0 _ t Hprep Hloop) in Hin.
    cbn [trace] in Hin.
    apply in_app_or in Hin. destruct Hin as [Hin | Hin].
    { rewrite Forall_forall in Hpass. exact (passes_not_failed step (Hpass _ Hin)). }
    destruct Hin as [Hin | Hin]; [discriminate |].
    apply in_app_or in Hin. destruct Hin as [Hin | Hin].
    + apply in_lib_calls in Hin.
      set (k := leading_successes
                  (predictions (inputs_of (RegressionData.samples d)) l0)) in *.
      assert (Hpred : exists xs, lib_calls t = map Predict xs).
      { destruct (Nat.lt_ge_cases k (List.length (RegressionData.samples d))) as [E | E].
        - destruct (Hfail E) as (_ & _ & ->). eauto.
        - destruct Hok as (_ & _ & ->); [| eauto].
          pose proof (leading_successes_le
                        (predictions (inputs_of (RegressionData.samples d)) l0)) as Hle.
          fold k in Hle. rewrite predictions_length in Hle.
          unfold inputs_of in Hle. rewrite length_map in Hle. lia. }
      destruct Hpred as [xs Hxs]. rewrite Hxs in Hin.
      apply in_map_iff in Hin. destruct Hin as (x & <- & _).
      cbn in Hd. repeat destruct Hd as [Hd | Hd]; try discriminate; contradiction.
    + destruct res; cbn in Hin; [destruct Hin as [Hin | []]; discriminate | contradiction].
  - destruct Hchk as [-> _].
    subst r. rewrite (regression_main_stops argc argv l l0 _ t0 Hprep) in Hin |- *.
    cbn [exit_status trace] in *.
    destruct (load_and_train_stops l l0 _ t0 Hprep)
      as [Hnone | (before & step' & after & progress' & msg' & Hsplit & Hcalls & Hd'
                   & Hcout & Hone)].
    { exfalso. exact (Hnone step Hin). }
    assert (Hs : step' = step) by (symmetry; now apply Hone).
    rewrite Hs in Hsplit, Hcalls, Hd'.
    assert (Hm : cout_text t0 = (progress ++ msg)%string).
    { rewrite Hcout. clear - Hd Hd'. cbn in Hd, Hd'.
      repeat destruct Hd as [Hd | Hd]; try contradiction;
        repeat destruct Hd' as [Hd' | Hd']; try contradiction; congruence. }
    split; [reflexivity |]. split; [exact Hm |].
    split; [now apply no_file_events | eauto].
Qed.

Lemma regression_setup_diagnostic_witness :
  let r := run (MultidimensionalRegressionExample.main 1 []) RegressionFailures.save_fails in
  exit_status r = EXIT_FAILURE
  /\ cout_text (trace r) = (progress_to_save ++ "ERROR: Failed to save pipeline!" ++ nl)%string
  /\ file_events (trace r) = [].
Proof.
  destruct (regression_setup_diagnostic
              Scripted.pipeline _ _ _ _ 1 [] RegressionFailures.save_fails
              (SavePipelineToFile "Pipeline") progress_to_save
              ("ERROR: Failed to save pipeline!" ++ nl)%string)
    as (H1 & H2 & H3 & _); [vm_compute; tauto | vm_compute; tauto |].
  cbv zeta. auto.
Defined.

(** X15: a run of the regression driver that exits with [EXIT_SUCCESS]
    has printed exactly the six progress lines and then the line with the
    test RMS error, whose value is the one the pipeline holds when the
    set-up ends, after [test] and before the first [predict]; the results
    loop prints nothing. *)
Theorem regression_console_on_success :
  forall Lib (IO : Iostream) (RD : RegressionData.Ops Lib) (TL : TrainingLog.Ops Lib)
         (GP : GestureRecognitionPipeline.Ops Lib) argc argv (l : Lib),
    let r := run (MultidimensionalRegressionExample.main argc argv) l in
    exit_status r = EXIT_SUCCESS ->
    exists testData l0 t0,
      MultidimensionalRegressionExample.load_and_train l = (Ret testData, l0, t0)
      /\ cout_text (trace r)
         = regression_progress (GestureRecognitionPipeline.getTestRMSError l0).
Proof.
  intros Lib IO RD TL GP argc argv l r Hs.
  pose proof (load_and_train_checked (Lib := Lib) l) as Hchk.
  destruct (MultidimensionalRegressionExample.load_and_train l)
    as [[[d | c] l0] t0] eqn:Hprep.
  - exists d, l0, t0. split; [reflexivity |].
    destruct (map_loop_outcome_run d l0) as (res & l1 & t & Hloop & _ & _ & Hok & Hfail).
    subst r. rewrite (regression_main_run argc argv l l0 l1 d t0 _ t Hprep Hloop) in Hs |- *.
    cbn [exit_status trace] in Hs |- *.
    set (k := leading_successes
                (predictions (inputs_of (RegressionData.samples d)) l0)) in *.
    destruct (Nat.lt_ge_cases k (List.length (RegressionData.samples d))) as [E | E].
    + destruct (Hfail E) as (-> & _ & _). discriminate Hs.
    + destruct Hok as (-> & Hcout & _).
      { pose proof (leading_successes_le
                      (predictions (inputs_of (RegressionData.samples d)) l0)) as Hle.
        fold k in Hle. rewrite predictions_length in Hle.
        unfold inputs_of in Hle. rewrite length_map in Hle. lia. }
      rewrite cout_text_app.
      change (cout_text (FileOpen ?n :: ?x)) with (cout_text x).
      rewrite cout_text_app, Hcout, (load_and_train_progress l l0 d t0 Hprep).
      cbn. now rewrite string_app_nil_r.
  - exfalso. destruct Hchk as [-> _]. subst r.
    rewrite (regression_main_stops argc argv l l0 _ t0 Hprep) in Hs. discriminate Hs.
Qed.

Lemma regression_console_witness :
  cout_text (trace (run (MultidimensionalRegressionExample.main 1 []) Inputs.matching))
  = regression_progress dzero.
Proof.
  destruct (regression_console_on_success Scripted.pipeline _ _ _ _ 1 [] Inputs.matching)
    as (d & l0 & t0 & Hprep & Hcout); [vm_compute; reflexivity |].
  rewrite Hcout. inversion Hprep. reflexivity.
Defined.
